(** * project-renamer: a shallow embedding of the scan-and-transform engine

    The development follows the three Python modules that carry the logic:
    [utils.py] (case helpers), [file_handlers.py] (per-format content handlers)
    and [project_renamer.py] (name resolution, content rewrite, the run itself).

    Conventions of the model:
    - text is a [string], a sequence of 8-bit characters; the case operations
      and the character classes act on the ASCII range, which is where the
      model and Python's [str] agree, and leave the other characters alone;
    - a call that can raise returns a [Result]; code that acts on the file
      system, the logger or the fields of the renamer is a function on the
      [World.State], which an exception leaves as it was when it was raised;
    - a path is the list of its components from the root directory, and a
      name is one component;
    - [json.loads], [json.dumps], [yaml.safe_load] and [yaml.dump] are
      parameters of the structured handlers; the module [Json] gives the first
      two on ASCII texts, for the examples;
    - the clock is read as one value for the whole run, and the text of an
      exception in a message is the name of its class. *)

From Stdlib Require Import Bool Arith Lia List Ascii String ZArith.
From Stdlib Require Import Decimal DecimalString Sorted Permutation.
Import ListNotations.
Local Open Scope string_scope.
Local Open Scope bool_scope.

(** ** Python's [str]: the builtin methods the sources call

    A text is a [string] of characters with codes below 256, and the case
    methods are Python's on the ASCII characters, codes below 128: there
    [lower], [upper], [title] and [capitalize] work character by character.
    On other characters Python's methods differ (a capital may lower to two
    characters, a small letter may have no single capital), so a statement
    that rests on how a case method treats the characters of a text is made
    of ASCII text, with the hypothesis [is_ascii]. *)

Module PyStr.

Definition code (c : ascii) : nat := nat_of_ascii c.

Definition between (lo hi : nat) (c : ascii) : bool :=
  Nat.leb lo (code c) && Nat.leb (code c) hi.

(** [c.isupper()], [c.islower()], [c.isdigit()] on one character. *)
Definition char_isupper : ascii -> bool := between 65 90.
Definition char_islower : ascii -> bool := between 97 122.
Definition char_isdigit : ascii -> bool := between 48 57.
Definition char_iscased (c : ascii) : bool := char_isupper c || char_islower c.

Definition char_upper (c : ascii) : ascii :=
  if char_islower c then ascii_of_nat (code c - 32) else c.
Definition char_lower (c : ascii) : ascii :=
  if char_isupper c then ascii_of_nat (code c + 32) else c.

(** The whitespace class of [str.isspace] and of [\s] in a [str] pattern,
    below code 128: tab to carriage return, the four separators 28..31, space. *)
Definition char_isspace (c : ascii) : bool :=
  between 9 13 c || between 28 31 c || Nat.eqb (code c) 32.

(** [\w] below code 128: letters, digits and the underscore. *)
Definition char_isword (c : ascii) : bool :=
  char_iscased c || char_isdigit c || Nat.eqb (code c) 95.

Definition newline : ascii := "010"%char.
Definition dquote : ascii := "034"%char.
Definition squote : ascii := "039"%char.
Definition backslash : ascii := "092"%char.

Fixpoint smap (f : ascii -> ascii) (s : string) : string :=
  match s with
  | EmptyString => EmptyString
  | String c r => String (f c) (smap f r)
  end.

Fixpoint sforall (p : ascii -> bool) (s : string) : bool :=
  match s with
  | EmptyString => true
  | String c r => p c && sforall p r
  end.

Fixpoint sexists (p : ascii -> bool) (s : string) : bool :=
  match s with
  | EmptyString => false
  | String c r => p c || sexists p r
  end.

(** [s[n:]] and [s[:n]]. *)
Fixpoint drop (n : nat) (s : string) : string :=
  match n, s with
  | S k, String _ r => drop k r
  | _, _ => s
  end.

Fixpoint take (n : nat) (s : string) : string :=
  match n, s with
  | S k, String c r => String c (take k r)
  | _, _ => EmptyString
  end.

(** [s.isascii()]. *)
Definition char_isascii (c : ascii) : bool := Nat.ltb (code c) 128.
Definition is_ascii (s : string) : bool := sforall char_isascii s.

(** [s.upper()], [s.lower()]. *)
Definition upper : string -> string := smap char_upper.
Definition lower : string -> string := smap char_lower.

(** [s.title()]: a cased character is upper-cased when the character before
    it is not cased, lower-cased otherwise. *)
Fixpoint title_from (previous_is_cased : bool) (s : string) : string :=
  match s with
  | EmptyString => EmptyString
  | String c r =>
      String (if previous_is_cased then char_lower c else char_upper c)
             (title_from (char_iscased c) r)
  end.
Definition title : string -> string := title_from false.

(** [s.capitalize()]: first character upper-cased, the rest lower-cased. *)
Definition capitalize (s : string) : string :=
  match s with
  | EmptyString => EmptyString
  | String c r => String (char_upper c) (lower r)
  end.

(** [s.isupper()]: no lower-case character and at least one upper-case one;
    [s.islower()] the other way round. *)
Definition isupper (s : string) : bool :=
  negb (sexists char_islower s) && sexists char_isupper s.
Definition islower (s : string) : bool :=
  negb (sexists char_isupper s) && sexists char_islower s.

(** [s.istitle()]: upper-case characters only after uncased ones, lower-case
    characters only after cased ones, and at least one cased character. *)
Fixpoint istitle_from (cased previous_is_cased : bool) (s : string) : bool :=
  match s with
  | EmptyString => cased
  | String c r =>
      if char_isupper c then
        if previous_is_cased then false else istitle_from true true r
      else if char_islower c then
        if previous_is_cased then istitle_from true true r else false
      else istitle_from cased false r
  end.
Definition istitle : string -> bool := istitle_from false false.

(** [s.startswith(p)]. *)
Fixpoint startswith (p s : string) : bool :=
  match p, s with
  | EmptyString, _ => true
  | String a p', String b s' => Ascii.eqb a b && startswith p' s'
  | String _ _, EmptyString => false
  end.

(** [p in s]. *)
Fixpoint contains (p s : string) : bool :=
  startswith p s ||
  match s with
  | EmptyString => false
  | String _ r => contains p r
  end.

(** [s.endswith(p)]. *)
Definition endswith (p s : string) : bool :=
  Nat.leb (length p) (length s) && String.eqb (drop (length s - length p) s) p.

(** The scan shared by [str.replace] and a literal pattern's [sub]: at each
    position not inside a match, a match of [p] (decided by [here]) is
    replaced by [r] and its characters skipped; [skip] counts the characters
    of the current match still to pass. *)
Fixpoint scan_replace (here : string -> bool) (n : nat) (r : string)
    (skip : nat) (s : string) : string :=
  match s with
  | EmptyString => EmptyString
  | String c s' =>
      match skip with
      | S k => scan_replace here n r k s'
      | O =>
          if here s then r ++ scan_replace here n r (n - 1) s'
          else String c (scan_replace here n r 0 s')
      end
  end.

(** An empty pattern matches before every character and at the end. *)
Fixpoint intersperse (r s : string) : string :=
  match s with
  | EmptyString => r
  | String c s' => r ++ String c (intersperse r s')
  end.

(** [s.replace(old, new)]. *)
Definition replace (old new s : string) : string :=
  match old with
  | EmptyString => intersperse new s
  | _ => scan_replace (startswith old) (length old) new 0 s
  end.

End PyStr.

(** ** The regular expressions of the sources

    Every pattern the sources compile is either an escaped literal or one of a
    few fixed shapes; each is modelled by the scan [re] performs for it. *)

Module Re.
Import PyStr.

(** The character class [[-_\s]]. *)
Definition is_sep (c : ascii) : bool :=
  Nat.eqb (code c) 45 || Nat.eqb (code c) 95 || char_isspace c.

(** [re.split(r'[-_\s]+', text)]: the pieces between maximal runs of
    separators; a run at either end leaves an empty piece there.  [in_sep]
    says that the character before was a separator. *)
Fixpoint split_seps (in_sep : bool) (s : string) : list string :=
  match s with
  | EmptyString => [EmptyString]
  | String c r =>
      if is_sep c then
        if in_sep then split_seps true r else EmptyString :: split_seps true r
      else
        match split_seps false r with
        | w :: ws => String c w :: ws
        | [] => [String c EmptyString]
        end
  end.

(** [re.sub(r'[-_\s]+', '-', text)]. *)
Fixpoint sub_seps (in_sep : bool) (s : string) : string :=
  match s with
  | EmptyString => EmptyString
  | String c r =>
      if is_sep c then
        if in_sep then sub_seps true r else String "-" (sub_seps true r)
      else String c (sub_seps false r)
  end.

(** [re.sub('(.)([A-Z][a-z]+)', r'\1_\2', text)]: a character other than a
    newline, then a capital, then a maximal run of at least one small letter;
    the underscore goes after the first character.  [in_run] says that the
    scan is inside the run of small letters of the current match. *)
Fixpoint sub_word_start (in_run : bool) (s : string) : string :=
  match s with
  | EmptyString => EmptyString
  | String c t =>
      if in_run && char_islower c then String c (sub_word_start true t)
      else
        match t with
        | String u (String l _ as t') =>
            if negb (Ascii.eqb c newline) && char_isupper u && char_islower l
            then String c (String "_" (String u (sub_word_start true t')))
            else String c (sub_word_start false t)
        | _ => String c (sub_word_start false t)
        end
  end.

(** [re.sub('([a-z0-9])([A-Z])', r'\1_\2', text)]. *)
Fixpoint sub_hump (s : string) : string :=
  match s with
  | EmptyString => EmptyString
  | String a t =>
      match t with
      | String b t' =>
          if (char_islower a || char_isdigit a) && char_isupper b
          then String a (String "_" (String b (sub_hump t')))
          else String a (sub_hump t)
      | EmptyString => String a EmptyString
      end
  end.

(** The text is one word: it holds no separator. *)
Definition no_sep (s : string) : Prop := sforall (fun c => negb (is_sep c)) s = true.

(** A compiled [re.escape(text)]: a literal, matched with or without
    [re.IGNORECASE]. *)
Record Pattern : Type := mkPattern { literal : string; ignorecase : bool }.

(** The pattern matches at the start of [s]. *)
Definition match_here (p : Pattern) (s : string) : bool :=
  if ignorecase p then startswith (lower (literal p)) (lower s)
  else startswith (literal p) s.

(** [pattern.search(s)] finds a match. *)
Fixpoint search (p : Pattern) (s : string) : bool :=
  match_here p s ||
  match s with
  | EmptyString => false
  | String _ r => search p r
  end.

(** What [pattern.sub(repl, s)] returns for a replacement that holds no
    backslash, which [re] inserts as it is: every match, leftmost first and
    not overlapping, becomes [repl]. *)
Definition sub (p : Pattern) (repl s : string) : string :=
  match literal p with
  | EmptyString => intersperse repl s
  | _ => scan_replace (match_here p) (length (literal p)) repl 0 s
  end.

(** The replacement is taken literally by [re]. *)
Definition plain_template (repl : string) : bool :=
  negb (sexists (Ascii.eqb backslash) repl).

(** [re.sub(pattern, function, s)] for a pattern that matches no empty
    string: [m s] is the length of the match at the start of [s], if any, and
    [repl] is applied to the matched text. *)
Fixpoint sub_with (m : string -> option nat) (repl : string -> string)
    (skip : nat) (s : string) : string :=
  match s with
  | EmptyString => EmptyString
  | String c s' =>
      match skip with
      | S k => sub_with m repl k s'
      | O =>
          match m s with
          | Some (S n) => repl (take (S n) s) ++ sub_with m repl n s'
          | _ => String c (sub_with m repl 0 s')
          end
      end
  end.

(** The pattern behind [m] has a match somewhere in [s]. *)
Fixpoint search_with (m : string -> option nat) (s : string) : bool :=
  match s with
  | EmptyString => false
  | String _ r =>
      match m s with
      | Some (S _) => true
      | _ => search_with m r
      end
  end.

(** No match of the pattern behind [m] starts inside [first], read in the
    text [first ++ rest]. *)
Fixpoint quiet_prefix (m : string -> option nat) (first rest : string) : bool :=
  match first with
  | EmptyString => true
  | String _ first' =>
      match m (first ++ rest) with
      | Some (S _) => false
      | _ => quiet_prefix m first' rest
      end
  end.

End Re.

(** ** utils.py *)

Module Utils.
Import PyStr.

(** The loop of [preserve_case] over the characters of [original], with its
    two variables [result] and [rep_index]. *)
Fixpoint preserve_case_loop (replacement original result : string)
    (rep_index : nat) : string * nat :=
  match original with
  | EmptyString => (result, rep_index)
  | String char rest =>
      if Nat.leb (length replacement) rep_index then
        preserve_case_loop replacement rest (result ++ String char EmptyString) rep_index
      else
        match get rep_index replacement with
        | Some r =>
            let r' :=
              if char_isupper char then char_upper r
              else if char_islower char then char_lower r
              else if char_isdigit char then r
              else r in
            preserve_case_loop replacement rest (result ++ String r' EmptyString) (S rep_index)
        | None => (result, rep_index)
        end
  end.

(** [preserve_case(original, replacement)]. *)
Definition preserve_case (original replacement : string) : string :=
  if isupper original then upper replacement
  else if islower original then lower replacement
  else if istitle original then title replacement
  else
    let '(result, rep_index) :=
      preserve_case_loop replacement original EmptyString 0 in
    if Nat.ltb rep_index (length replacement)
    then result ++ drop rep_index replacement
    else result.

End Utils.

(** ** The Python values and exceptions the handlers meet *)

Module Py.
Import PyStr.

Inductive exn : Type :=
  | TypeError | AttributeError | KeyError | IndexError
  | JSONDecodeError | YAMLError | ReError
  | FileExistsError | FileNotFoundError | OSError.

(** The outcome of a call: a value, or an exception on its way up. *)
Inductive Result (A : Type) : Type :=
  | Return (a : A)
  | Raise (e : exn).
Arguments Return {A} a.
Arguments Raise {A} e.

Definition bind {A B} (r : Result A) (k : A -> Result B) : Result B :=
  match r with
  | Return a => k a
  | Raise e => Raise e
  end.

Definition exn_eqb (a b : exn) : bool :=
  match a, b with
  | TypeError, TypeError | AttributeError, AttributeError | KeyError, KeyError
  | IndexError, IndexError | ReError, ReError
  | JSONDecodeError, JSONDecodeError | YAMLError, YAMLError
  | FileExistsError, FileExistsError | FileNotFoundError, FileNotFoundError
  | OSError, OSError => true
  | _, _ => false
  end.

(** [try: body except e: handler]. *)
Definition try_except {A} (body : Result A) (e : exn) (handler : Result A) : Result A :=
  match body with
  | Raise e' => if exn_eqb e e' then handler else Raise e'
  | r => r
  end.

(** What [json.loads] and [yaml.safe_load] build: [None], booleans, numbers,
    strings, lists, and dicts in insertion order with string keys.  A float is
    kept by its [repr]. *)
#[warnings="-register-all"]
Inductive pyval : Type :=
  | PNone
  | PBool (b : bool)
  | PInt (z : Z)
  | PFloat (repr : string)
  | PStr (s : string)
  | PList (items : list pyval)
  | PDict (items : list (string * pyval)).

Definition str_is (k : string) (v : pyval) : bool :=
  match v with PStr s => String.eqb s k | _ => false end.

Fixpoint dict_get (k : string) (d : list (string * pyval)) : option pyval :=
  match d with
  | [] => None
  | (k', v) :: r => if String.eqb k' k then Some v else dict_get k r
  end.

(** [d[k] = v]: an existing key keeps its place, a new one goes last. *)
Fixpoint dict_set (k : string) (v : pyval) (d : list (string * pyval)) :
    list (string * pyval) :=
  match d with
  | [] => [(k, v)]
  | (k', v') :: r =>
      if String.eqb k' k then (k', v) :: r else (k', v') :: dict_set k v r
  end.

Fixpoint dict_del (k : string) (d : list (string * pyval)) : list (string * pyval) :=
  match d with
  | [] => []
  | (k', v') :: r => if String.eqb k' k then r else (k', v') :: dict_del k r
  end.

(** [k in data] for a string [k]. *)
Definition py_in (k : string) (data : pyval) : Result bool :=
  match data with
  | PDict d => Return (match dict_get k d with Some _ => true | None => false end)
  | PList l => Return (existsb (str_is k) l)
  | PStr s => Return (contains k s)
  | _ => Raise TypeError
  end.

(** [data[k]] for a string [k]. *)
Definition getitem (data : pyval) (k : string) : Result pyval :=
  match data with
  | PDict d => match dict_get k d with Some v => Return v | None => Raise KeyError end
  | _ => Raise TypeError
  end.

(** [data[k] = v] for a string [k]; the result is the object after the
    assignment. *)
Definition setitem (data : pyval) (k : string) (v : pyval) : Result pyval :=
  match data with
  | PDict d => Return (PDict (dict_set k v d))
  | _ => Raise TypeError
  end.

(** [data.pop(k)] for a string [k]: the value and the object after the call. *)
Definition pop (data : pyval) (k : string) : Result (pyval * pyval) :=
  match data with
  | PDict d =>
      match dict_get k d with
      | Some v => Return (v, PDict (dict_del k d))
      | None => Raise KeyError
      end
  | PList _ => Raise TypeError
  | _ => Raise AttributeError
  end.

(** [v.replace(old, new)]. *)
Definition replace_method (v : pyval) (old new : string) : Result pyval :=
  match v with
  | PStr s => Return (PStr (replace old new s))
  | _ => Raise AttributeError
  end.

End Py.

(** ** The replacement templates of [re]

    [re.sub(pattern, repl, text)] and [pattern.sub(repl, text)] read a string
    [repl] as a template: before any matching it is parsed, and a template
    that does not parse raises, whether or not the pattern has a match.  The
    parser is that of Python 3.12 and later, for a pattern without groups,
    which is what the sources pass with a string replacement, and for ASCII
    group names.  (Earlier versions read a few more spellings of the number
    0 between the angle brackets as group 0, with a deprecation warning.) *)

Module ReTemplate.
Import PyStr Py.

(** A parsed template: literal characters and references to group 0, the
    whole match. *)
Inductive piece : Type :=
  | Lit (c : ascii)
  | Whole.

(** Where the parser stands: in plain text; after a backslash; after [\g];
    inside the angle brackets of a group name; after [\0] and [seen] octal
    digits more, of value [value]; after a backslash and a digit from 1 to
    9; after a second digit. *)
Inductive state : Type :=
  | Text
  | Escape
  | GroupOpen
  | GroupName (name : string)
  | Octal (seen value : nat)
  | Number (first : ascii)
  | Number2 (first second : ascii).

Definition char_isoctal : ascii -> bool := between 48 55.
Definition digit_value (c : ascii) : nat := code c - 48.

(** [name.isidentifier()] for an ASCII name. *)
Definition identifier_start (c : ascii) : bool :=
  char_iscased c || Nat.eqb (code c) 95.
Definition isidentifier (name : string) : bool :=
  match name with
  | EmptyString => false
  | String c r => identifier_start c && sforall char_isword r
  end.

(** The escapes that stand for one character: [a b f n r t v] and the
    backslash itself. *)
Definition escape_char (c : ascii) : option ascii :=
  match code c with
  | 97 => Some (ascii_of_nat 7)
  | 98 => Some (ascii_of_nat 8)
  | 102 => Some (ascii_of_nat 12)
  | 110 => Some (ascii_of_nat 10)
  | 114 => Some (ascii_of_nat 13)
  | 116 => Some (ascii_of_nat 9)
  | 118 => Some (ascii_of_nat 11)
  | 92 => Some backslash
  | _ => None
  end.

Definition emit (ps : list piece) (r : Result (list piece)) : Result (list piece) :=
  match r with
  | Return qs => Return (ps ++ qs)%list
  | Raise e => Raise e
  end.

(** The template from the state [st] on.  A pattern without groups has group
    0 only: every other numbered reference is an error, and a reference by a
    well-formed name raises [IndexError], but for one case: the tokenizer
    reads one token ahead, and a backslash that ends the template right
    after the reference is refused first. *)
Fixpoint parse_from (st : state) (s : string) : Result (list piece) :=
  match s with
  | EmptyString =>
      match st with
      | Text => Return []
      | Octal _ value => Return [Lit (ascii_of_nat value)]
      | _ => Raise ReError
      end
  | String c rest =>
      let in_text :=
        if Ascii.eqb c backslash then parse_from Escape rest
        else emit [Lit c] (parse_from Text rest) in
      match st with
      | Text => in_text
      | Escape =>
          if Ascii.eqb c "g" then parse_from GroupOpen rest
          else if Ascii.eqb c "0" then parse_from (Octal 0 0) rest
          else if char_isdigit c then parse_from (Number c) rest
          else
            match escape_char c with
            | Some e => emit [Lit e] (parse_from Text rest)
            | None =>
                if char_iscased c then Raise ReError
                else emit [Lit backslash; Lit c] (parse_from Text rest)
            end
      | GroupOpen =>
          if Ascii.eqb c "<" then parse_from (GroupName EmptyString) rest
          else Raise ReError
      | GroupName name =>
          if Ascii.eqb c ">" then
            match name with
            | EmptyString => Raise ReError
            | _ =>
                if sforall char_isdigit name then
                  if sforall (Ascii.eqb "0") name
                  then emit [Whole] (parse_from Text rest)
                  else Raise ReError
                else if isidentifier name then
                  if String.eqb rest (String backslash EmptyString)
                  then Raise ReError
                  else Raise IndexError
                else Raise ReError
            end
          else if Ascii.eqb c backslash then Raise ReError
          else parse_from (GroupName (name ++ String c EmptyString)) rest
      | Octal seen value =>
          if char_isoctal c && Nat.ltb seen 2
          then parse_from (Octal (S seen) (8 * value + digit_value c)) rest
          else emit [Lit (ascii_of_nat value)] in_text
      | Number first =>
          if char_isdigit c then parse_from (Number2 first c) rest
          else Raise ReError
      | Number2 first second =>
          if char_isoctal first && char_isoctal second && char_isoctal c then
            let value := 64 * digit_value first + 8 * digit_value second + digit_value c in
            if Nat.ltb 255 value then Raise ReError
            else emit [Lit (ascii_of_nat value)] (parse_from Text rest)
          else Raise ReError
      end
  end.

Definition parse_template (repl : string) : Result (list piece) := parse_from Text repl.

(** The text a parsed template gives for the match [matched]. *)
Fixpoint expand (pieces : list piece) (matched : string) : string :=
  match pieces with
  | [] => EmptyString
  | Lit c :: r => String c (expand r matched)
  | Whole :: r => matched ++ expand r matched
  end.

(** [re.sub(pattern, repl, s)] for a string [repl] and a pattern without
    groups that matches no empty string; [m] is the matcher of the pattern. *)
Definition sub (m : string -> option nat) (repl s : string) : Result string :=
  match parse_template repl with
  | Return pieces => Return (Re.sub_with m (expand pieces) 0 s)
  | Raise e => Raise e
  end.

(** [pattern.sub(repl, s)] for a string [repl] and a compiled
    [re.escape(text)].  An empty pattern matches before every character and
    at the end, each time the empty text. *)
Definition pattern_sub (p : Re.Pattern) (repl s : string) : Result string :=
  match parse_template repl with
  | Return pieces =>
      Return
        (match Re.literal p with
         | EmptyString => intersperse (expand pieces EmptyString) s
         | _ =>
             Re.sub_with
               (fun t => if Re.match_here p t then Some (length (Re.literal p)) else None)
               (expand pieces) 0 s
         end)
  | Raise e => Raise e
  end.

End ReTemplate.

(** ** pathlib: a path is the list of its components *)

Module PathLib.
Import PyStr.

Definition Path : Type := list string.

(** [path.name], [path.parent], [path / child]. *)
Definition name (p : Path) : string := last p EmptyString.
Definition parent (p : Path) : Path := removelast p.
Definition joinpath (p : Path) (child : string) : Path := (p ++ [child])%list.

(** [s.rfind('.')]. *)
Fixpoint rfind_dot (s : string) : option nat :=
  match s with
  | EmptyString => None
  | String c r =>
      match rfind_dot r with
      | Some i => Some (S i)
      | None => if Ascii.eqb c "."%char then Some 0 else None
      end
  end.

(** The index of the dot that starts the suffix: the last dot of the name,
    when it is neither its first nor its last character. *)
Definition suffix_index (n : string) : option nat :=
  match rfind_dot n with
  | Some i => if Nat.ltb 0 i && Nat.ltb i (length n - 1) then Some i else None
  | None => None
  end.

(** [path.suffix] and [path.stem]. *)
Definition suffix (p : Path) : string :=
  match suffix_index (name p) with
  | Some i => drop i (name p)
  | None => EmptyString
  end.

Definition stem (p : Path) : string :=
  match suffix_index (name p) with
  | Some i => take i (name p)
  | None => name p
  end.

End PathLib.

(** ** Backtracking matchers for the patterns of the Python handler

    A matcher takes the text at the current position and returns the length of
    the match that [re] finds there; the continuation is the rest of the
    pattern, so that a greedy or lazy repetition gives characters back, or
    takes more, until the rest matches. *)

Module Rx.
Import PyStr.

Definition matcher : Type := string -> option nat.

Definition advance (n : nat) (r : option nat) : option nat :=
  match r with
  | Some m => Some (n + m)
  | None => None
  end.

(** The end of the pattern. *)
Definition done : matcher := fun _ => Some 0.

(** A literal. *)
Definition lit (p : string) (k : matcher) : matcher :=
  fun s => if startswith p s then advance (length p) (k (drop (length p) s)) else None.

(** One character of a class. *)
Definition one (cls : ascii -> bool) (k : matcher) : matcher :=
  fun s =>
    match s with
    | String c r => if cls c then advance 1 (k r) else None
    | EmptyString => None
    end.

(** [cls*], greedy. *)
Fixpoint star (cls : ascii -> bool) (k : matcher) (s : string) : option nat :=
  match s with
  | String c r =>
      if cls c then
        match star cls k r with
        | Some n => Some (S n)
        | None => k s
        end
      else k s
  | EmptyString => k s
  end.

(** [cls+], greedy. *)
Definition plus (cls : ascii -> bool) (k : matcher) : matcher :=
  one cls (star cls k).

(** [cls*?], lazy. *)
Fixpoint lazy (cls : ascii -> bool) (k : matcher) (s : string) : option nat :=
  match k s with
  | Some n => Some n
  | None =>
      match s with
      | String c r => if cls c then advance 1 (lazy cls k r) else None
      | EmptyString => None
      end
  end.

(** [\b] after a character that is, or is not, a word character. *)
Definition wordb (previous_is_word : bool) (k : matcher) : matcher :=
  fun s =>
    let next_is_word :=
      match s with String c _ => char_isword c | EmptyString => false end in
    if xorb previous_is_word next_is_word then k s else None.

Definition any_char (c : ascii) : bool := true.
Definition not_newline (c : ascii) : bool := negb (Ascii.eqb c newline).
Definition is_quote (c : ascii) : bool := Ascii.eqb c squote || Ascii.eqb c dquote.

(** Whether the last character of [s] is a word character. *)
Fixpoint ends_with_word (s : string) : bool :=
  match s with
  | EmptyString => false
  | String c EmptyString => char_isword c
  | String _ r => ends_with_word r
  end.

(** [keyword\s+name\b], with [name] escaped: the shape of the import, class
    and def patterns. *)
Definition keyword_name (keyword name : string) : matcher :=
  lit keyword (plus char_isspace (lit name (wordb (ends_with_word name) done))).





(** A literal as a pattern: the matcher behind [str.replace]. *)
Definition literally (p : string) : matcher :=
  fun s => if startswith p s then Some (length p) else None.

End Rx.

(** ** file_handlers.py *)

Module FileHandlers.
Import PyStr Py PathLib.

Declare Scope py_scope.
Delimit Scope py_scope with py.
Notation "x <- e ;; k" := (bind e (fun x => k))
  (at level 61, e at next level, right associativity) : py_scope.
Local Open Scope py_scope.

(** A handler holds the identifier pair it was constructed with. *)
Record BaseFileHandler : Type := mkHandler { old_name : string; new_name : string }.

(** [BaseFileHandler.preserve_case(replacement, original)]. *)
Definition preserve_case (self : BaseFileHandler) (replacement original : string) : string :=
  if isupper original then upper replacement
  else if islower original then lower replacement
  else if istitle original then title replacement
  else replacement.

(** *** PythonFileHandler *)

Definition PythonFileHandler_can_handle (file_path : Path) : bool :=
  String.eqb (lower (suffix file_path)) ".py".

(** [(__version__\s*=\s*['\"].*?['\"])]. *)
Definition version_pattern : Rx.matcher :=
  Rx.lit "__version__"
    (Rx.star char_isspace
      (Rx.lit "="
        (Rx.star char_isspace
          (Rx.one Rx.is_quote
            (Rx.lazy Rx.not_newline (Rx.one Rx.is_quote Rx.done)))))).

(** The text [__version__ = ] followed by [new_name] in double quotes. *)
Definition version_line (self : BaseFileHandler) : string :=
  "__version__ = " ++ String dquote (new_name self ++ String dquote EmptyString).

Definition _handle_init_file (self : BaseFileHandler) (content : string) : string :=
  let content := Re.sub_with version_pattern (fun _ => version_line self) 0 content in
  if contains ("from " ++ old_name self) content
  then replace ("from " ++ old_name self) ("from " ++ new_name self) content
  else content.

(** The replacements [class new_name] and [def new_name] are templates of
    [re.sub]. *)
Definition _handle_definitions (self : BaseFileHandler) (content : string) : Result string :=
  content <-
    ReTemplate.sub (Rx.keyword_name "class" (old_name self))
                   ("class " ++ new_name self) content ;;
  ReTemplate.sub (Rx.keyword_name "def" (old_name self))
                 ("def " ++ new_name self) content.

Definition _replace_python_import (self : BaseFileHandler) (full_match : string) : string :=
  if startswith "import " full_match then replace (old_name self) (new_name self) full_match
  else if startswith "from " full_match then replace (old_name self) (new_name self) full_match
  else full_match.

(** The four patterns of [process], all compiled with [MULTILINE | DOTALL]:
    [import\s+old\b], [from\s+old\b], [__all__\s*=\s*\[.*?['\"]old['\"]] and
    [(?i)(["\']..*?["\'].*?)]. *)
Definition python_patterns (self : BaseFileHandler) : list Rx.matcher :=
  [ Rx.keyword_name "import" (old_name self);
    Rx.keyword_name "from" (old_name self);
    Rx.lit "__all__"
      (Rx.star char_isspace
        (Rx.lit "="
          (Rx.star char_isspace
            (Rx.lit "["
              (Rx.lazy Rx.any_char
                (Rx.one Rx.is_quote
                  (Rx.lit (old_name self) (Rx.one Rx.is_quote Rx.done))))))));
    Rx.one Rx.is_quote
      (Rx.one Rx.any_char
        (Rx.lazy Rx.any_char (Rx.one Rx.is_quote (Rx.lazy Rx.any_char Rx.done)))) ].

Definition PythonFileHandler_process (self : BaseFileHandler) (file_path : Path)
    (content : string) : Result string :=
  let modified_content := content in
  let modified_content :=
    if String.eqb (name file_path) "__init__.py"
    then _handle_init_file self modified_content
    else modified_content in
  modified_content <- _handle_definitions self modified_content ;;
  Return
    (fold_left
       (fun modified_content pattern =>
          Re.sub_with pattern (_replace_python_import self) 0 modified_content)
       (python_patterns self) modified_content).

(** *** JSONFileHandler and YAMLFileHandler

    The parsers and serializers are those of the [json] and [yaml] packages;
    the handlers are modelled over any such functions.  The boolean of a
    serializer is its [ensure_ascii] or [allow_unicode] flag. *)

Section Structured.

Variable json_loads : string -> Result pyval.
Variable json_dumps : bool -> pyval -> string.
Variable yaml_safe_load : string -> Result pyval.
Variable yaml_dump : bool -> pyval -> string.
(** [str(v)] for a value that is not a string. *)
Variable repr_of : pyval -> string.

Definition py_str (v : pyval) : string :=
  match v with
  | PStr s => s
  | _ => repr_of v
  end.

Definition JSONFileHandler_can_handle (file_path : Path) : bool :=
  String.eqb (lower (suffix file_path)) ".json".

Definition _handle_package_json (self : BaseFileHandler) (data : pyval) : Result pyval :=
  has_name <- py_in "name" data ;;
  data <- (if has_name : bool then setitem data "name" (PStr (new_name self))
           else Return data) ;;
  has_description <- py_in "description" data ;;
  data <- (if has_description : bool then
             description <- getitem data "description" ;;
             description <- replace_method description (old_name self) (new_name self) ;;
             setitem data "description" description
           else Return data) ;;
  Return (PStr (json_dumps false data)).

Definition _handle_config_json (self : BaseFileHandler) (data : pyval) : Result pyval :=
  has_options <- py_in "compilerOptions" data ;;
  data <- (if has_options : bool then
             opts <- getitem data "compilerOptions" ;;
             has_base <- py_in "baseUrl" opts ;;
             mentions <- (if has_base : bool then
                            base <- getitem opts "baseUrl" ;;
                            Return (contains (old_name self) (py_str base))
                          else Return false) ;;
             if mentions : bool then
               base <- getitem opts "baseUrl" ;;
               opts <- setitem opts "baseUrl"
                         (PStr (replace (old_name self) (new_name self) (py_str base))) ;;
               setitem data "compilerOptions" opts
             else Return data
           else Return data) ;;
  Return (PStr (json_dumps true data)).

Definition _handle_angular_json (self : BaseFileHandler) (data : pyval) : Result pyval :=
  has_projects <- py_in "projects" data ;;
  data <- (if has_projects : bool then
             projects <- getitem data "projects" ;;
             has_old <- py_in (old_name self) projects ;;
             if has_old : bool then
               popped <- pop projects (old_name self) ;;
               projects <- setitem (snd popped) (new_name self) (fst popped) ;;
               setitem data "projects" projects
             else Return data
           else Return data) ;;
  Return (PStr (json_dumps true data)).

Fixpoint _replace_in_json_data (data : pyval) (old new : string) : pyval :=
  match data with
  | PDict items =>
      PDict (map (fun kv => let '(k, v) := kv in (k, _replace_in_json_data v old new)) items)
  | PList items => PList (map (fun item => _replace_in_json_data item old new) items)
  | PStr s => PStr (replace old new s)
  | _ => data
  end.

Definition JSONFileHandler_process (self : BaseFileHandler) (file_path : Path)
    (content : string) : Result pyval :=
  try_except
    (data <- json_loads content ;;
     if String.eqb (name file_path) "package.json" then _handle_package_json self data
     else if String.eqb (name file_path) "tsconfig.json"
             || String.eqb (name file_path) "jsconfig.json"
     then _handle_config_json self data
     else if String.eqb (name file_path) "angular.json" then _handle_angular_json self data
     else Return (_replace_in_json_data data (old_name self) (new_name self)))
    JSONDecodeError
    (Return (PStr (replace (old_name self) (new_name self) content))).

Definition YAMLFileHandler_can_handle (file_path : Path) : bool :=
  String.eqb (lower (suffix file_path)) ".yaml"
  || String.eqb (lower (suffix file_path)) ".yml".

Definition _handle_docker_compose (self : BaseFileHandler) (data : pyval) : Result pyval :=
  has_services <- py_in "services" data ;;
  data <- (if has_services : bool then
             services <- getitem data "services" ;;
             has_old <- py_in (old_name self) services ;;
             if has_old : bool then
               popped <- pop services (old_name self) ;;
               services <- setitem (snd popped) (new_name self) (fst popped) ;;
               setitem data "services" services
             else Return data
           else Return data) ;;
  Return (PStr (yaml_dump false data)).

Definition _handle_k8s_yaml (self : BaseFileHandler) (data : pyval) : Result pyval :=
  has_metadata <- py_in "metadata" data ;;
  named <- (if has_metadata : bool then
              metadata <- getitem data "metadata" ;;
              py_in "name" metadata
            else Return false) ;;
  data <- (if named : bool then
             metadata <- getitem data "metadata" ;;
             current <- getitem metadata "name" ;;
             if str_is (old_name self) current then
               metadata <- setitem metadata "name" (PStr (new_name self)) ;;
               setitem data "metadata" metadata
             else Return data
           else Return data) ;;
  Return (PStr (yaml_dump false data)).

Fixpoint _replace_in_yaml_data (data : pyval) (old new : string) : pyval :=
  match data with
  | PDict items =>
      PDict (map (fun kv => let '(k, v) := kv in (k, _replace_in_yaml_data v old new)) items)
  | PList items => PList (map (fun item => _replace_in_yaml_data item old new) items)
  | PStr s => PStr (replace old new s)
  | _ => data
  end.

Definition YAMLFileHandler_process (self : BaseFileHandler) (file_path : Path)
    (content : string) : Result pyval :=
  try_except
    (data <- yaml_safe_load content ;;
     if contains "docker-compose" (lower content) then _handle_docker_compose self data
     else if contains "kubernetes" (lower content) || contains "k8s" (lower content)
     then _handle_k8s_yaml self data
     else
       Return (PStr (yaml_dump true
                       (_replace_in_yaml_data data (old_name self) (new_name self)))))
    YAMLError
    (Return (PStr (replace (old_name self) (new_name self) content))).

End Structured.

End FileHandlers.

(** ** The [json] package on ASCII texts

    [loads] and [dumps] stand for [json.loads] and [json.dumps(indent=2)] in
    the examples: objects, arrays, strings with the one-letter escapes and
    [\u00XX], numbers, [true], [false] and [null].  A float is kept as it is
    written. *)

Module Json.
Import PyStr Py.

Definition is_ws (c : ascii) : bool :=
  Nat.eqb (code c) 32 || Nat.eqb (code c) 9 || Nat.eqb (code c) 10 || Nat.eqb (code c) 13.

Fixpoint skip_ws (s : string) : string :=
  match s with
  | String c r => if is_ws c then skip_ws r else s
  | EmptyString => s
  end.

Definition hex_digit (c : ascii) : option nat :=
  if char_isdigit c then Some (code c - 48)
  else if between 97 102 c then Some (code c - 87)
  else if between 65 70 c then Some (code c - 55)
  else None.

(** The characters of a string after its opening quote, up to the closing
    one: the decoded text and what follows the string. *)
Fixpoint scan_string (s : string) : option (string * string) :=
  match s with
  | EmptyString => None
  | String c r =>
      if Ascii.eqb c dquote then Some (EmptyString, r)
      else if Nat.ltb (code c) 32 then None
      else if Ascii.eqb c backslash then
        match r with
        | String e r' =>
            let lit1 (x : ascii) :=
              match scan_string r' with
              | Some (t, rest) => Some (String x t, rest)
              | None => None
              end in
            if Ascii.eqb e dquote then lit1 dquote
            else if Ascii.eqb e backslash then lit1 backslash
            else if Ascii.eqb e "/"%char then lit1 "/"%char
            else if Ascii.eqb e "b"%char then lit1 "008"%char
            else if Ascii.eqb e "f"%char then lit1 "012"%char
            else if Ascii.eqb e "n"%char then lit1 "010"%char
            else if Ascii.eqb e "r"%char then lit1 "013"%char
            else if Ascii.eqb e "t"%char then lit1 "009"%char
            else if Ascii.eqb e "u"%char then
              match r' with
              | String "0" (String "0" (String h (String l r''))) =>
                  match hex_digit h, hex_digit l, scan_string r'' with
                  | Some a, Some b, Some (t, rest) =>
                      Some (String (ascii_of_nat (16 * a + b)) t, rest)
                  | _, _, _ => None
                  end
              | _ => None
              end
            else None
        | EmptyString => None
        end
      else
        match scan_string r with
        | Some (t, rest) => Some (String c t, rest)
        | None => None
        end
  end.

(** A maximal run of digits and what follows it. *)
Fixpoint span_digits (s : string) : string * string :=
  match s with
  | String c r =>
      if char_isdigit c then let '(d, rest) := span_digits r in (String c d, rest)
      else (EmptyString, s)
  | EmptyString => (EmptyString, EmptyString)
  end.

Definition digits_value (d : string) : Z :=
  (fix go (acc : Z) (d : string) : Z :=
     match d with
     | String c r => go (10 * acc + Z.of_nat (code c - 48))%Z r
     | EmptyString => acc
     end) 0%Z d.

(** A number: an optional minus, an integer part without leading zero, an
    optional fraction and an optional exponent. *)
Definition scan_number (s : string) : option (pyval * string) :=
  let '(neg, s1) :=
    match s with
    | String "-" r => (true, r)
    | _ => (false, s)
    end in
  let '(int_part, s2) :=
    match s1 with
    | String "0" r => ("0", r)
    | _ => span_digits s1
    end in
  match int_part with
  | EmptyString => None
  | _ =>
      let '(frac, s3) :=
        match s2 with
        | String "." r =>
            match span_digits r with
            | (EmptyString, _) => (EmptyString, s2)
            | (d, rest) => (String "." d, rest)
            end
        | _ => (EmptyString, s2)
        end in
      let '(expo, s4) :=
        match s3 with
        | String e r =>
            if Ascii.eqb e "e"%char || Ascii.eqb e "E"%char then
              let '(sign, r1) :=
                match r with
                | String "+" r1 => ("+", r1)
                | String "-" r1 => ("-", r1)
                | _ => (EmptyString, r)
                end in
              match span_digits r1 with
              | (EmptyString, _) => (EmptyString, s3)
              | (d, rest) => (String e (sign ++ d), rest)
              end
            else (EmptyString, s3)
        | EmptyString => (EmptyString, s3)
        end in
      match frac, expo with
      | EmptyString, EmptyString =>
          Some (PInt (if neg then - digits_value int_part else digits_value int_part)%Z, s4)
      | _, _ => Some (PFloat ((if neg then "-" else EmptyString) ++ int_part ++ frac ++ expo), s4)
      end
  end.

Section Containers.
Variable value : string -> option (pyval * string).

(** The items of an array after the first [value] is due. *)
Fixpoint elements (fuel : nat) (s : string) (acc : list pyval) :
    option (pyval * string) :=
  match fuel with
  | O => None
  | S fuel =>
      match value s with
      | Some (v, r) =>
          match skip_ws r with
          | String "," r' => elements fuel r' (acc ++ [v])%list
          | String "]" r' => Some (PList (acc ++ [v])%list, r')
          | _ => None
          end
      | None => None
      end
  end.

(** The members of an object after a key is due. *)
Fixpoint members (fuel : nat) (s : string) (acc : list (string * pyval)) :
    option (pyval * string) :=
  match fuel with
  | O => None
  | S fuel =>
      match skip_ws s with
      | String q r =>
          if Ascii.eqb q dquote then
            match scan_string r with
            | Some (k, r1) =>
                match skip_ws r1 with
                | String ":" r2 =>
                    match value r2 with
                    | Some (v, r3) =>
                        match skip_ws r3 with
                        | String "," r4 => members fuel r4 (dict_set k v acc)
                        | String "}" r4 => Some (PDict (dict_set k v acc), r4)
                        | _ => None
                        end
                    | None => None
                    end
                | _ => None
                end
            | None => None
            end
          else None
      | EmptyString => None
      end
  end.

End Containers.

Fixpoint value (fuel : nat) (s : string) : option (pyval * string) :=
  match fuel with
  | O => None
  | S fuel =>
      match skip_ws s with
      | EmptyString => None
      | String c r as t =>
          if Ascii.eqb c dquote then
            match scan_string r with
            | Some (x, rest) => Some (PStr x, rest)
            | None => None
            end
          else if Ascii.eqb c "["%char then
            match skip_ws r with
            | String "]" r' => Some (PList [], r')
            | _ => elements (value fuel) (length r) r []
            end
          else if Ascii.eqb c "{"%char then
            match skip_ws r with
            | String "}" r' => Some (PDict [], r')
            | _ => members (value fuel) (length r) r []
            end
          else if startswith "null" t then Some (PNone, drop 4 t)
          else if startswith "true" t then Some (PBool true, drop 4 t)
          else if startswith "false" t then Some (PBool false, drop 5 t)
          else if startswith "NaN" t then Some (PFloat "nan", drop 3 t)
          else if startswith "Infinity" t then Some (PFloat "inf", drop 8 t)
          else if startswith "-Infinity" t then Some (PFloat "-inf", drop 9 t)
          else scan_number t
      end
  end.

(** [json.loads(s)]. *)
Definition loads (s : string) : Result pyval :=
  match value (S (length s)) s with
  | Some (v, rest) =>
      match skip_ws rest with
      | EmptyString => Return v
      | _ => Raise JSONDecodeError
      end
  | None => Raise JSONDecodeError
  end.

Definition hex_char (n : nat) : ascii :=
  if Nat.ltb n 10 then ascii_of_nat (48 + n) else ascii_of_nat (87 + n).

(** The text of a string between its quotes. *)
Fixpoint escape (ensure_ascii : bool) (s : string) : string :=
  match s with
  | EmptyString => EmptyString
  | String c r =>
      let two (x : string) := String backslash x in
      (if Ascii.eqb c dquote then two (String dquote EmptyString)
       else if Ascii.eqb c backslash then two (String backslash EmptyString)
       else if Ascii.eqb c "010"%char then two "n"
       else if Ascii.eqb c "013"%char then two "r"
       else if Ascii.eqb c "009"%char then two "t"
       else if Ascii.eqb c "008"%char then two "b"
       else if Ascii.eqb c "012"%char then two "f"
       else if Nat.ltb (code c) 32 || (ensure_ascii && Nat.ltb 126 (code c)) then
         two ("u00" ++ String (hex_char (code c / 16))
                         (String (hex_char (code c mod 16)) EmptyString))
       else String c EmptyString) ++ escape ensure_ascii r
  end.

Definition quoted (ensure_ascii : bool) (s : string) : string :=
  String dquote (escape ensure_ascii s ++ String dquote EmptyString).

Definition decimal (z : Z) : string := NilEmpty.string_of_int (Z.to_int z).

Fixpoint join (sep : string) (l : list string) : string :=
  match l with
  | [] => EmptyString
  | [x] => x
  | x :: r => x ++ sep ++ join sep r
  end.

Definition nl : string := String newline EmptyString.

Fixpoint encode (ensure_ascii : bool) (indent : string) (v : pyval) : string :=
  match v with
  | PNone => "null"
  | PBool true => "true"
  | PBool false => "false"
  | PInt z => decimal z
  | PFloat r => r
  | PStr s => quoted ensure_ascii s
  | PList [] => "[]"
  | PList items =>
      "[" ++ nl ++ "  " ++ indent
      ++ join ("," ++ nl ++ "  " ++ indent)
           (map (encode ensure_ascii ("  " ++ indent)) items)
      ++ nl ++ indent ++ "]"
  | PDict [] => "{}"
  | PDict items =>
      "{" ++ nl ++ "  " ++ indent
      ++ join ("," ++ nl ++ "  " ++ indent)
           (map (fun kv => let '(k, x) := kv in
                   quoted ensure_ascii k ++ ": " ++ encode ensure_ascii ("  " ++ indent) x)
              items)
      ++ nl ++ indent ++ "}"
  end.

(** [json.dumps(v, indent=2, ensure_ascii=...)]. *)
Definition dumps (ensure_ascii : bool) (v : pyval) : string :=
  encode ensure_ascii EmptyString v.

End Json.

(** ** The file system, the clock and the root logger

    The world a run acts on: the file tree below the root directory, the
    clock as the run reads it, the standard error stream, and the root logger
    of the [logging] package.  Directory entries keep the order in which
    [os.scandir] lists them.  A name is one path component. *)

Module World.
Import PyStr Py PathLib.

#[warnings="-register-all"]
Inductive node : Type :=
  | File (file_name : string) (content : string)
  | Dir (dir_name : string) (children : list node).

Definition node_name (n : node) : string :=
  match n with
  | File f _ => f
  | Dir d _ => d
  end.

Definition is_dir (n : node) : bool :=
  match n with Dir _ _ => true | File _ _ => false end.

Fixpoint find_child (n : string) (entries : list node) : option node :=
  match entries with
  | [] => None
  | e :: r => if String.eqb (node_name e) n then Some e else find_child n r
  end.

(** The entries of the directory at [p], looked up from the entries of the
    root. *)
Fixpoint listdir (root : list node) (p : Path) : option (list node) :=
  match p with
  | [] => Some root
  | d :: p' =>
      match find_child d root with
      | Some (Dir _ entries) => listdir entries p'
      | _ => None
      end
  end.

Definition lookup (root : list node) (p : Path) : option node :=
  match p with
  | [] => Some (Dir EmptyString root)
  | _ =>
      match listdir root (parent p) with
      | Some entries => find_child (name p) entries
      | None => None
      end
  end.

(** Replace the entries of the directory at [p] by [f] of them. *)
Fixpoint update_dir (f : list node -> list node) (p : Path) (root : list node) :
    list node :=
  match p with
  | [] => f root
  | d :: p' =>
      map (fun e =>
             match e with
             | Dir n entries => if String.eqb n d then Dir n (update_dir f p' entries) else e
             | File _ _ => e
             end) root
  end.

(** In one directory: append [text] to the file [n], which is created at the
    end of the listing when it is missing; a directory of that name is left
    alone (the write fails). *)
Fixpoint append_entry (n text : string) (entries : list node) : list node :=
  match entries with
  | [] => [File n text]
  | e :: r =>
      if String.eqb (node_name e) n then
        match e with
        | File _ c => File n (c ++ text) :: r
        | Dir _ _ => e :: r
        end
      else e :: append_entry n text r
  end.

(** In one directory: set the content of the file [n], created when missing. *)
Fixpoint write_entry (n text : string) (entries : list node) : list node :=
  match entries with
  | [] => [File n text]
  | e :: r =>
      if String.eqb (node_name e) n then
        match e with
        | File _ _ => File n text :: r
        | Dir _ _ => e :: r
        end
      else e :: write_entry n text r
  end.

Definition remove_entry (n : string) (entries : list node) : list node :=
  filter (fun e => negb (String.eqb (node_name e) n)) entries.

Definition rename_node (n : string) (e : node) : node :=
  match e with
  | File _ c => File n c
  | Dir _ entries => Dir n entries
  end.

(** In one directory: the entry [src] takes the name [dst], at its place in
    the listing; an entry it replaces is removed. *)
Definition rename_entry (src dst : string) (entries : list node) : list node :=
  map (fun e => if String.eqb (node_name e) src then rename_node dst e else e)
      (if String.eqb src dst then entries else remove_entry dst entries).

(** A handler of the root logger. *)
Inductive Handler : Type :=
  | StreamHandler
  | FileHandler (log_file : Path).

Record State : Type := mkState {
  fs : list node;
  (** [datetime.now().strftime('%Y%m%d_%H%M%S')] and the [asctime] of a log
      record, as the run reads them. *)
  clock_stamp : string;
  clock_asctime : string;
  stderr : list string;
  root_level : nat;
  root_handlers : list Handler;
  (** The fields of the [ProjectRenamer] object. *)
  changed_files : list Path;
  backup_paths : list Path;
  errors : list string
}.

Definition set_fs (f : list node) (s : State) : State :=
  mkState f (clock_stamp s) (clock_asctime s) (stderr s) (root_level s)
          (root_handlers s) (changed_files s) (backup_paths s) (errors s).

Definition set_stderr (e : list string) (s : State) : State :=
  mkState (fs s) (clock_stamp s) (clock_asctime s) e (root_level s)
          (root_handlers s) (changed_files s) (backup_paths s) (errors s).

Definition set_logging (level : nat) (handlers : list Handler) (s : State) : State :=
  mkState (fs s) (clock_stamp s) (clock_asctime s) (stderr s) level handlers
          (changed_files s) (backup_paths s) (errors s).

Definition set_changed_files (l : list Path) (s : State) : State :=
  mkState (fs s) (clock_stamp s) (clock_asctime s) (stderr s) (root_level s)
          (root_handlers s) l (backup_paths s) (errors s).

Definition set_backup_paths (l : list Path) (s : State) : State :=
  mkState (fs s) (clock_stamp s) (clock_asctime s) (stderr s) (root_level s)
          (root_handlers s) (changed_files s) l (errors s).

Definition set_errors (l : list string) (s : State) : State :=
  mkState (fs s) (clock_stamp s) (clock_asctime s) (stderr s) (root_level s)
          (root_handlers s) (changed_files s) (backup_paths s) l.

(** A computation on the world: its outcome and the world it leaves, also
    when it raises. *)
Definition M (A : Type) : Type := State -> Result A * State.

Definition ret {A} (a : A) : M A := fun s => (Return a, s).
Definition raise {A} (e : exn) : M A := fun s => (Raise e, s).
Definition mbind {A B} (m : M A) (k : A -> M B) : M B :=
  fun s =>
    match m s with
    | (Return a, s') => k a s'
    | (Raise e, s') => (Raise e, s')
    end.

(** [try: body except Exception as e: handler(e)]. *)
Definition try_catch {A} (body : M A) (handler : exn -> M A) : M A :=
  fun s =>
    match body s with
    | (Raise e, s') => handler e s'
    | r => r
    end.

Definition get_state : M State := fun s => (Return s, s).
Definition modify (f : State -> State) : M unit := fun s => (Return tt, f s).

Declare Scope world_scope.
Delimit Scope world_scope with world.
Notation "x <- e ;; k" := (mbind e (fun x => k))
  (at level 61, e at next level, right associativity) : world_scope.
Notation "e ;; k" := (mbind e (fun _ => k))
  (at level 61, right associativity) : world_scope.
Local Open Scope world_scope.

(** [for x in l: body(x)]. *)
Fixpoint for_each {A} (l : list A) (body : A -> M unit) : M unit :=
  match l with
  | [] => ret tt
  | x :: r => body x ;; for_each r body
  end.

(** The text of a path and of an exception in a message. *)
Definition path_str (p : Path) : string :=
  fold_left (fun acc c => acc ++ "/" ++ c) p EmptyString.

Definition exn_str (e : exn) : string :=
  match e with
  | TypeError => "TypeError"
  | AttributeError => "AttributeError"
  | KeyError => "KeyError"
  | IndexError => "IndexError"
  | ReError => "re.error"
  | JSONDecodeError => "JSONDecodeError"
  | YAMLError => "YAMLError"
  | FileExistsError => "FileExistsError"
  | FileNotFoundError => "FileNotFoundError"
  | OSError => "OSError"
  end.

(** *** File operations *)

(** [open(p, 'r').read()]. *)
Definition read_file (p : Path) : M string :=
  fun s =>
    match lookup (fs s) p with
    | Some (File _ c) => (Return c, s)
    | Some (Dir _ _) => (Raise OSError, s)
    | None => (Raise FileNotFoundError, s)
    end.

(** [open(p, 'w').write(text)]. *)
Definition write_file (p : Path) (text : string) : M unit :=
  fun s =>
    match listdir (fs s) (parent p), lookup (fs s) p with
    | None, _ => (Raise FileNotFoundError, s)
    | Some _, Some (Dir _ _) => (Raise OSError, s)
    | Some _, _ =>
        (Return tt, set_fs (update_dir (write_entry (name p) text) (parent p) (fs s)) s)
    end.

(** [src.rename(src.parent / dst_name)], as [os.rename] does it on POSIX. *)
Definition rename (src : Path) (dst_name : string) : M unit :=
  fun s =>
    match lookup (fs s) src with
    | None => (Raise FileNotFoundError, s)
    | Some moved =>
        let target := lookup (fs s) (joinpath (parent src) dst_name) in
        let clash :=
          if String.eqb (name src) dst_name then false
          else
            match moved, target with
            | _, None => false
            | File _ _, Some (File _ _) => false
            | Dir _ _, Some (Dir _ []) => false
            | _, Some _ => true
            end in
        if clash then (Raise OSError, s)
        else
          (Return tt,
           set_fs (update_dir (rename_entry (name src) dst_name) (parent src) (fs s)) s)
    end.

(** [fnmatch] of a name against a pattern made of literal characters, [*]
    and [?]. *)
Fixpoint fnmatch (pattern : string) : string -> bool :=
  match pattern with
  | EmptyString => fun n => match n with EmptyString => true | _ => false end
  | String p pattern' =>
      if Ascii.eqb p "*"%char then
        fix any_run (n : string) : bool :=
          fnmatch pattern' n ||
          match n with
          | String _ n' => any_run n'
          | EmptyString => false
          end
      else
        fun n =>
          match n with
          | String c n' => (Ascii.eqb p "?"%char || Ascii.eqb p c) && fnmatch pattern' n'
          | EmptyString => false
          end
  end.

(** The copy [shutil.copytree] makes of a directory's entries, without the
    names that [shutil.ignore_patterns] selects for the patterns. *)
Fixpoint copy_node (patterns : list string) (e : node) : node :=
  match e with
  | File n c => File n c
  | Dir n entries =>
      Dir n ((fix copy_list (l : list node) : list node :=
                match l with
                | [] => []
                | x :: r =>
                    if existsb (fun p => fnmatch p (node_name x)) patterns
                    then copy_list r
                    else copy_node patterns x :: copy_list r
                end) entries)
  end.

Definition copy_entries (patterns : list string) (entries : list node) : list node :=
  match copy_node patterns (Dir EmptyString entries) with
  | Dir _ copied => copied
  | File _ _ => []
  end.

(** [shutil.copytree(src, src / dst_name, ignore=...)] with those patterns:
    the entries of [src] are listed first, then the target directory is made,
    which must not exist. *)
Definition copytree_into (src : Path) (dst_name : string) (patterns : list string) : M unit :=
  fun s =>
    match listdir (fs s) src with
    | None => (Raise FileNotFoundError, s)
    | Some entries =>
        match find_child dst_name entries with
        | Some _ => (Raise FileExistsError, s)
        | None =>
            (Return tt,
             set_fs (update_dir
                       (fun es => (es ++ [Dir dst_name (copy_entries patterns entries)])%list)
                       src (fs s)) s)
        end
    end.

(** *** Logging *)

Definition DEBUG : nat := 10.
Definition INFO : nat := 20.
Definition WARNING : nat := 30.
Definition ERROR : nat := 40.

Definition level_name (level : nat) : string :=
  if Nat.eqb level DEBUG then "DEBUG"
  else if Nat.eqb level INFO then "INFO"
  else if Nat.eqb level WARNING then "WARNING"
  else "ERROR".

(** One handler writes one formatted record. *)
Definition handle (line : string) (s : State) (h : Handler) : State :=
  match h with
  | StreamHandler => set_stderr (stderr s ++ [line])%list s
  | FileHandler p =>
      set_fs (update_dir (append_entry (name p) (line ++ String newline EmptyString))
                         (parent p) (fs s)) s
  end.

(** [logger.log(level, message)] with the format
    [%(asctime)s - %(levelname)s - %(message)s]: the record goes to every
    handler of the root logger when the level is enabled. *)
Definition log (level : nat) (message : string) : M unit :=
  fun s =>
    if Nat.leb (root_level s) level then
      (Return tt,
       fold_left (handle (clock_asctime s ++ " - " ++ level_name level ++ " - " ++ message))
                 (root_handlers s) s)
    else (Return tt, s).

(** The world after the handlers of the root logger have written these
    formatted records, one after the other: nothing changes but the standard
    error stream and the files of the file handlers, which grow. *)
Definition emit_records (records : list string) (s : State) : State :=
  fold_left (fun s line => fold_left (handle line) (root_handlers s) s) records s.

(** A computation that returns a value and has no effect but that of log
    records. *)
Definition logs_only {A} (m : M A) : Prop :=
  forall s, exists records a, m s = (Return a, emit_records records s).

(** A computation that returns a value, whatever it does to the world. *)
Definition returns {A} (m : M A) : Prop :=
  forall s, exists a s', m s = (Return a, s').

(** [logging.FileHandler(p)] opens the file for appending, which creates it. *)
Definition open_log_file (p : Path) : M unit :=
  fun s =>
    match listdir (fs s) (parent p), lookup (fs s) p with
    | None, _ => (Raise FileNotFoundError, s)
    | Some _, Some (Dir _ _) => (Raise OSError, s)
    | Some _, _ =>
        (Return tt,
         set_fs (update_dir (append_entry (name p) EmptyString) (parent p) (fs s)) s)
    end.

(** [logging.basicConfig(level=..., handlers=...)] configures the root logger
    only when it has no handler yet. *)
Definition basicConfig (level : nat) (handlers : list Handler) : M unit :=
  fun s =>
    match root_handlers s with
    | [] => (Return tt, set_logging level handlers s)
    | _ => (Return tt, s)
    end.

End World.

(** ** project_renamer.py *)

Module ProjectRenamer.
Import PyStr Py PathLib World.
Local Open Scope world_scope.

Record RenameConfig : Type := mkConfig {
  old_name : string;
  new_name : string;
  project_path : Path;
  backup_enabled : bool;
  dry_run : bool;
  file_types : list string;
  exclude_patterns : list string;
  case_sensitive : bool;
  preserve_case : bool
}.

(** The defaults of [__post_init__]. *)
Definition default_file_types : list string :=
  [ ".py"; ".js"; ".ts"; ".jsx"; ".tsx"; ".java"; ".cpp"; ".c"; ".h";
    ".cs"; ".php"; ".rb"; ".go"; ".rs"; ".swift"; ".kt"; ".scala";
    ".html"; ".htm"; ".css"; ".scss"; ".sass"; ".less";
    ".json"; ".xml"; ".yaml"; ".yml"; ".toml"; ".ini"; ".cfg"; ".conf";
    ".md"; ".txt"; ".rst"; ".adoc";
    ".sh"; ".bat"; ".ps1"; ".dockerfile"; ".dockerignore";
    ".gitignore"; ".gitattributes"; ".env"; ".env.example";
    "Dockerfile"; "docker-compose.yml"; "docker-compose.yaml";
    "package.json"; "requirements.txt"; "setup.py"; "pyproject.toml";
    "Makefile"; "CMakeLists.txt"; "pom.xml"; "build.gradle" ].

Definition default_exclude_patterns : list string :=
  [ ".git"; "__pycache__"; ".pytest_cache"; "node_modules";
    ".venv"; "venv"; "env"; ".env"; ".idea"; ".vscode";
    "*.egg-info"; "dist"; "build"; ".tox"; ".coverage";
    "*.pyc"; "*.pyo"; "*.pyd"; ".DS_Store"; "Thumbs.db" ].

(** The object: its configuration and its compiled patterns; the lists it
    fills are fields of the world. *)
Record ProjectRenamer : Type := mkRenamer {
  config : RenameConfig;
  patterns : list Re.Pattern
}.

(** [''.join(words)]. *)
Definition join_words (words : list string) : string :=
  fold_right append EmptyString words.

Definition _to_pascal_case (text : string) : string :=
  join_words (map capitalize (Re.split_seps false text)).

Definition _to_snake_case (text : string) : string :=
  let s1 := Re.sub_word_start false text in
  lower (Re.sub_hump s1).

Definition _to_kebab_case (text : string) : string :=
  Re.sub_seps false (lower text).

(** [_compile_patterns]: with [preserve_case] the first call of
    [_create_case_preserving_pattern] passes a [repl] argument that
    [re.compile] does not take. *)
Definition _compile_patterns (c : RenameConfig) : Result (list Re.Pattern) :=
  let flags := negb (case_sensitive c) in
  if preserve_case c then Raise TypeError
  else
    Return [ Re.mkPattern (old_name c) flags;
             Re.mkPattern (_to_pascal_case (old_name c)) flags;
             Re.mkPattern (_to_snake_case (old_name c)) flags;
             Re.mkPattern (_to_kebab_case (old_name c)) flags ].

Definition log_file (c : RenameConfig) : Path := joinpath (project_path c) "rename_log.txt".

Definition _setup_logging (c : RenameConfig) : M unit :=
  let log_level := if dry_run c then DEBUG else INFO in
  open_log_file (log_file c) ;;
  basicConfig log_level [StreamHandler; FileHandler (log_file c)].

(** [ProjectRenamer(config)]. *)
Definition __init__ (c : RenameConfig) : M ProjectRenamer :=
  modify (fun s => set_errors [] (set_backup_paths [] (set_changed_files [] s))) ;;
  _setup_logging c ;;
  match _compile_patterns c with
  | Return ps => ret (mkRenamer c ps)
  | Raise e => raise e
  end.

Definition _is_excluded (self : ProjectRenamer) (n : string) : bool :=
  existsb
    (fun pattern =>
       (startswith "*." pattern && endswith (drop 1 pattern) n)
       || String.eqb pattern n
       || contains pattern n)
    (exclude_patterns (config self)).

Definition _should_rename_file (self : ProjectRenamer) (file_path : Path) : bool :=
  if String.eqb (name file_path) (old_name (config self)) then true
  else if String.eqb (_to_snake_case (stem file_path))
                     (_to_snake_case (old_name (config self))) then true
  else if String.eqb (_to_pascal_case (stem file_path))
                     (_to_pascal_case (old_name (config self))) then true
  else false.

Definition _should_rename_directory (self : ProjectRenamer) (dir_path : Path) : bool :=
  if String.eqb (name dir_path) (old_name (config self)) then true
  else if String.eqb (_to_snake_case (name dir_path))
                     (_to_snake_case (old_name (config self))) then true
  else if String.eqb (_to_pascal_case (name dir_path))
                     (_to_pascal_case (name dir_path)) then true
  else false.

Definition _should_modify_file (self : ProjectRenamer) (file_path : Path) : bool :=
  existsb (String.eqb (lower (suffix file_path))) (file_types (config self)).

Definition _contains_target_text (self : ProjectRenamer) (file_path : Path) : M bool :=
  try_catch
    (content <- read_file file_path ;;
     ret (existsb (fun pattern => Re.search pattern content) (patterns self)))
    (fun e =>
       log WARNING ("Could not read file " ++ path_str file_path ++ ": " ++ exn_str e) ;;
       ret false).

Definition _generate_new_name (self : ProjectRenamer) (original_name : string) : string :=
  let c := config self in
  if String.eqb original_name (old_name c) then new_name c
  else if String.eqb (lower original_name) (lower (old_name c)) then lower (new_name c)
  else if String.eqb (upper original_name) (upper (old_name c)) then upper (new_name c)
  else if String.eqb (title original_name) (title (old_name c)) then title (new_name c)
  else if String.eqb (_to_snake_case original_name) (_to_snake_case (old_name c))
  then _to_snake_case (new_name c)
  else if String.eqb (_to_pascal_case original_name) (_to_pascal_case (old_name c))
  then _to_pascal_case (new_name c)
  else new_name c.

Record ScanResults : Type := mkScan {
  files_to_modify : list Path;
  files_to_rename : list Path;
  directories_to_rename : list Path;
  total_files : nat;
  total_directories : nat
}.

Definition no_results : ScanResults := mkScan [] [] [] 0 0.

Definition file_names (entries : list node) : list string :=
  map node_name (filter (fun e => negb (is_dir e)) entries).

Definition dir_names (entries : list node) : list string :=
  map node_name (filter is_dir entries).

(** The body of the loop of [scan_project] for one directory that [os.walk]
    yields: [root] with its entries. *)
Definition scan_directory (self : ProjectRenamer) (root : Path) (entries : list node)
    (results : ScanResults) : M ScanResults :=
  let dirs := filter (fun d => negb (_is_excluded self d)) (dir_names entries) in
  results <-
    fold_left
      (fun (acc : M ScanResults) (file : string) =>
         r <- acc ;;
         if _is_excluded self file then ret r
         else
           let file_path := joinpath root file in
           let r := mkScan (files_to_modify r) (files_to_rename r)
                      (directories_to_rename r) (S (total_files r)) (total_directories r) in
           let r :=
             if _should_rename_file self file_path
             then mkScan (files_to_modify r) (files_to_rename r ++ [file_path])%list
                    (directories_to_rename r) (total_files r) (total_directories r)
             else r in
           if _should_modify_file self file_path then
             found <- _contains_target_text self file_path ;;
             if found : bool
             then ret (mkScan (files_to_modify r ++ [file_path])%list (files_to_rename r)
                         (directories_to_rename r) (total_files r) (total_directories r))
             else ret r
           else ret r)
      (file_names entries) (ret results) ;;
  ret (fold_left
         (fun (r : ScanResults) (d : string) =>
            let dir_path := joinpath root d in
            let r := mkScan (files_to_modify r) (files_to_rename r)
                       (directories_to_rename r) (total_files r) (S (total_directories r)) in
            if _should_rename_directory self dir_path
            then mkScan (files_to_modify r) (files_to_rename r)
                   (directories_to_rename r ++ [dir_path])%list
                   (total_files r) (total_directories r)
            else r)
         dirs results).

(** [os.walk] from the directory [n] at [root], top down, descending into the
    directories that the loop body left in [dirs]. *)
Fixpoint walk (self : ProjectRenamer) (root : Path) (n : node) (results : ScanResults)
    {struct n} : M ScanResults :=
  match n with
  | File _ _ => ret results
  | Dir _ entries =>
      results <- scan_directory self root entries results ;;
      (fix descend (l : list node) (results : ScanResults) : M ScanResults :=
         match l with
         | [] => ret results
         | e :: r =>
             results <-
               (if is_dir e && negb (_is_excluded self (node_name e))
                then walk self (joinpath root (node_name e)) e results
                else ret results) ;;
             descend r results
         end) entries results
  end.

Definition scan_project (self : ProjectRenamer) : M ScanResults :=
  log INFO ("Scanning project at: " ++ path_str (project_path (config self))) ;;
  s <- get_state ;;
  match lookup (fs s) (project_path (config self)) with
  | Some (Dir _ _ as top) => walk self (project_path (config self)) top no_results
  | _ => ret no_results
  end.

Definition create_backup (self : ProjectRenamer) : M bool :=
  if negb (backup_enabled (config self)) then ret true
  else
    s <- get_state ;;
    let backup_name := "backup_" ++ clock_stamp s in
    let backup_dir := joinpath (project_path (config self)) backup_name in
    try_catch
      (log INFO ("Creating backup at: " ++ path_str backup_dir) ;;
       copytree_into (project_path (config self)) backup_name
                     (exclude_patterns (config self)) ;;
       modify (fun s => set_backup_paths (backup_paths s ++ [backup_dir])%list s) ;;
       ret true)
      (fun e =>
         log ERROR ("Failed to create backup: " ++ exn_str e) ;;
         ret false).

Definition _rename_file (self : ProjectRenamer) (file_path : Path) : M bool :=
  try_catch
    (let new_name := _generate_new_name self (name file_path) in
     let new_path := joinpath (parent file_path) new_name in
     (if negb (dry_run (config self)) then rename file_path new_name else ret tt) ;;
     log INFO ("Renamed file: " ++ path_str file_path ++ " -> " ++ path_str new_path) ;;
     modify (fun s => set_changed_files (changed_files s ++ [file_path])%list s) ;;
     ret true)
    (fun e =>
       let error_msg :=
         "Failed to rename file " ++ path_str file_path ++ ": " ++ exn_str e in
       log ERROR error_msg ;;
       modify (fun s => set_errors (errors s ++ [error_msg])%list s) ;;
       ret false).

Definition _rename_directory (self : ProjectRenamer) (dir_path : Path) : M bool :=
  try_catch
    (let new_name := _generate_new_name self (name dir_path) in
     let new_path := joinpath (parent dir_path) new_name in
     (if negb (dry_run (config self)) then rename dir_path new_name else ret tt) ;;
     log INFO ("Renamed directory: " ++ path_str dir_path ++ " -> " ++ path_str new_path) ;;
     modify (fun s => set_changed_files (changed_files s ++ [dir_path])%list s) ;;
     ret true)
    (fun e =>
       let error_msg :=
         "Failed to rename directory " ++ path_str dir_path ++ ": " ++ exn_str e in
       log ERROR error_msg ;;
       modify (fun s => set_errors (errors s ++ [error_msg])%list s) ;;
       ret false).

(** The loop of [_modify_file_content] over the patterns; the replacement
    [new_name] is a template of [re], parsed by every call of [pattern.sub]. *)
Definition rewrite (self : ProjectRenamer) (original_content : string) : Result string :=
  fold_left
    (fun modified_content pattern =>
       bind modified_content (ReTemplate.pattern_sub pattern (new_name (config self))))
    (patterns self) (Return original_content).

Definition _modify_file_content (self : ProjectRenamer) (file_path : Path) : M bool :=
  try_catch
    (original_content <- read_file file_path ;;
     modified_content <- (fun s => (rewrite self original_content, s)) ;;
     if negb (String.eqb modified_content original_content) then
       (if negb (dry_run (config self)) then write_file file_path modified_content
        else ret tt) ;;
       log INFO ("Modified content in: " ++ path_str file_path) ;;
       modify (fun s => set_changed_files (changed_files s ++ [file_path])%list s) ;;
       ret true
     else ret true)
    (fun e =>
       let error_msg :=
         "Failed to modify file " ++ path_str file_path ++ ": " ++ exn_str e in
       log ERROR error_msg ;;
       modify (fun s => set_errors (errors s ++ [error_msg])%list s) ;;
       ret false).

Definition str_of_nat (n : nat) : string := NilEmpty.string_of_uint (Nat.to_uint n).

Definition is_empty {A} (l : list A) : bool :=
  match l with [] => true | _ => false end.

Definition _log_dry_run_results (self : ProjectRenamer) (scan_results : ScanResults) : M unit :=
  log INFO "=== DRY RUN RESULTS ===" ;;
  log INFO ("Total files scanned: " ++ str_of_nat (total_files scan_results)) ;;
  log INFO ("Total directories scanned: " ++ str_of_nat (total_directories scan_results)) ;;
  log INFO ("Files to rename: "
            ++ str_of_nat (List.length (files_to_rename scan_results))) ;;
  log INFO ("Directories to rename: "
            ++ str_of_nat (List.length (directories_to_rename scan_results))) ;;
  log INFO ("Files to modify: "
            ++ str_of_nat (List.length (files_to_modify scan_results))) ;;
  (if negb (is_empty (files_to_rename scan_results)) then
     log INFO (String newline "Files to rename:") ;;
     for_each (files_to_rename scan_results)
       (fun file_path =>
          let new_name := _generate_new_name self (name file_path) in
          log INFO ("  " ++ path_str file_path ++ " -> "
                    ++ path_str (joinpath (parent file_path) new_name)))
   else ret tt) ;;
  (if negb (is_empty (directories_to_rename scan_results)) then
     log INFO (String newline "Directories to rename:") ;;
     for_each (directories_to_rename scan_results)
       (fun dir_path =>
          let new_name := _generate_new_name self (name dir_path) in
          log INFO ("  " ++ path_str dir_path ++ " -> "
                    ++ path_str (joinpath (parent dir_path) new_name)))
   else ret tt) ;;
  (if negb (is_empty (files_to_modify scan_results)) then
     log INFO (String newline "Files to modify:") ;;
     for_each (files_to_modify scan_results)
       (fun file_path => log INFO ("  " ++ path_str file_path))
   else ret tt).

(** [len(p)] for a [pathlib] path: the class defines no [__len__]. *)
Definition len_of_path (p : Path) : Result nat := Raise TypeError.

Fixpoint keys_of {A} (key : A -> Result nat) (l : list A) : Result (list (nat * A)) :=
  match l with
  | [] => Return []
  | x :: r =>
      match key x with
      | Raise e => Raise e
      | Return k =>
          match keys_of key r with
          | Raise e => Raise e
          | Return ks => Return ((k, x) :: ks)
          end
      end
  end.

(** Insert after the items whose key is at least [k]: equal keys keep the
    order of the input. *)
Fixpoint insert_reverse {A} (k : nat) (x : A) (sorted : list (nat * A)) : list (nat * A) :=
  match sorted with
  | [] => [(k, x)]
  | (k', y) :: r =>
      if Nat.ltb k' k then (k, x) :: sorted else (k', y) :: insert_reverse k x r
  end.

(** [sorted(l, key=key, reverse=True)]: the keys are computed first, for
    every item. *)
Definition sorted_reverse {A} (key : A -> Result nat) (l : list A) : Result (list A) :=
  match keys_of key l with
  | Raise e => Raise e
  | Return ks =>
      Return (map snd (fold_left (fun acc kx => insert_reverse (fst kx) (snd kx) acc) ks []))
  end.

(** [for x in l: if not step(x): success = False]. *)
Fixpoint all_steps {A} (step : A -> M bool) (l : list A) (success : bool) : M bool :=
  match l with
  | [] => ret success
  | x :: r =>
      ok <- step x ;;
      all_steps step r (if ok : bool then success else false)
  end.

Definition rename_project (self : ProjectRenamer) : M bool :=
  log INFO "Starting project rename operation" ;;
  backed_up <- create_backup self ;;
  if negb backed_up then ret false
  else
    scan_results <- scan_project self ;;
    if dry_run (config self) then
      _log_dry_run_results self scan_results ;;
      ret true
    else
      let success := true in
      success <- all_steps (_rename_file self) (files_to_rename scan_results) success ;;
      match sorted_reverse len_of_path (directories_to_rename scan_results) with
      | Raise e => raise e
      | Return ordered =>
          success <- all_steps (_rename_directory self) ordered success ;;
          success <- all_steps (_modify_file_content self)
                       (files_to_modify scan_results) success ;;
          (if success : bool then log INFO "Project rename completed successfully"
           else log ERROR "Project rename completed with errors") ;;
          ret success
      end.

End ProjectRenamer.

(** ** The wording of the specification, for comparison with the code *)

Module Spec.
Import PyStr.

(** The case of [char] copied onto [r], as one step of the loop of
    [preserve_case] does it. *)
Definition case_like (char r : ascii) : ascii :=
  if char_isupper char then char_upper r
  else if char_islower char then char_lower r
  else r.

(** The positions that [original] and [replacement] share. *)
Fixpoint copy_case (original replacement : string) : string :=
  match original, replacement with
  | String a o, String b r => String (case_like a b) (copy_case o r)
  | _, _ => EmptyString
  end.

(** [applyInferredCase] as the specification words its mixed case: the
    characters of the original beyond the replacement are dropped, those of
    the replacement beyond the original are appended. *)
Definition applyInferredCase (replacement observedOriginal : string) : string :=
  if isupper observedOriginal then upper replacement
  else if islower observedOriginal then lower replacement
  else if istitle observedOriginal then title replacement
  else copy_case observedOriginal replacement
       ++ drop (length observedOriginal) replacement.

(** [NameResolver.shouldRename(name, old)]. *)
Definition shouldRename (name old : string) : bool :=
  String.eqb name old
  || String.eqb (ProjectRenamer._to_snake_case name) (ProjectRenamer._to_snake_case old)
  || String.eqb (ProjectRenamer._to_pascal_case name) (ProjectRenamer._to_pascal_case old).

(** [NameResolver.generateNewName(name, old, new)] as the specification words
    it: an exact match gives [new]; else a name that is [old] folded to
    all-lower, all-upper or title case gives [new] folded to that same case;
    else the snake-case and then the Pascal-case comparison; else [new]. *)
Definition case_folds : list (string -> string) := [lower; upper; title].

Definition generateNewName (name old new : string) : string :=
  if String.eqb name old then new
  else
    match find (fun fold => String.eqb name (fold old)) case_folds with
    | Some fold => fold new
    | None =>
        if String.eqb (ProjectRenamer._to_snake_case name) (ProjectRenamer._to_snake_case old)
        then ProjectRenamer._to_snake_case new
        else if String.eqb (ProjectRenamer._to_pascal_case name)
                           (ProjectRenamer._to_pascal_case old)
        then ProjectRenamer._to_pascal_case new
        else new
    end.

(** The configuration [c] with other [backup_enabled] and [dry_run] flags. *)
Definition with_flags (c : ProjectRenamer.RenameConfig) (backup dry : bool) :
    ProjectRenamer.RenameConfig :=
  ProjectRenamer.mkConfig (ProjectRenamer.old_name c) (ProjectRenamer.new_name c)
    (ProjectRenamer.project_path c) backup dry
    (ProjectRenamer.file_types c) (ProjectRenamer.exclude_patterns c)
    (ProjectRenamer.case_sensitive c) (ProjectRenamer.preserve_case c).

(** An assignment to [__version__]: optional whitespace around the equals
    sign, then the text [v] between two quote characters. *)
Definition version_assignment (ws1 ws2 : string) (q1 : ascii) (v : string) (q2 : ascii) :
    string :=
  "__version__" ++ ws1 ++ "=" ++ ws2 ++ String q1 (v ++ String q2 EmptyString).




(** What [_handle_definitions] returns when its two templates need no
    parsing, [new_name] holding no backslash: every match of the class
    pattern becomes [class new_name], then every match of the def pattern
    [def new_name]. *)
Definition definitions_rewritten (self : FileHandlers.BaseFileHandler) (content : string) :
    string :=
  Re.sub_with (Rx.keyword_name "def" (FileHandlers.old_name self))
    (fun _ => "def " ++ FileHandlers.new_name self) 0
    (Re.sub_with (Rx.keyword_name "class" (FileHandlers.old_name self))
       (fun _ => "class " ++ FileHandlers.new_name self) 0 content).


(** The later passes of [PythonFileHandler.process] find nothing to rewrite
    in [content]: no [from old_name] text, and no match of the class, def,
    import and from patterns. *)
Definition no_reference (self : FileHandlers.BaseFileHandler) (content : string) : bool :=
  negb (contains ("from " ++ FileHandlers.old_name self) content)
  && forallb
       (fun keyword =>
          negb (Re.search_with (Rx.keyword_name keyword (FileHandlers.old_name self)) content))
       ["class"; "def"; "import"; "from"].

End Spec.

(** ** Concrete inputs for the examples *)

Module Examples.
Import PyStr Py PathLib.

(** A text written with a backquote where it holds a double quote. *)
Definition text (s : string) : string :=
  smap (fun c => if Ascii.eqb c "`"%char then dquote else c) s.

(** [yaml.safe_load] on a document in flow style with double-quoted strings,
    which YAML reads as JSON does. *)
Definition yaml_safe_load_flow (s : string) : Result pyval :=
  match Json.loads s with
  | Raise JSONDecodeError => Raise YAMLError
  | r => r
  end.

(** A serializer and a [repr] for runs that never reach them. *)
Definition unused_dump : bool -> pyval -> string := fun _ _ => EmptyString.
Definition unused_repr : pyval -> string := fun _ => EmptyString.

(** A configuration with the defaults of [RenameConfig]. *)
Definition default_config (old new : string) (project : Path) : ProjectRenamer.RenameConfig :=
  ProjectRenamer.mkConfig old new project true false
    ProjectRenamer.default_file_types ProjectRenamer.default_exclude_patterns false false.

(** The renamer that [__init__] builds when the patterns compile. *)
Definition renamer_of (c : ProjectRenamer.RenameConfig) : ProjectRenamer.ProjectRenamer :=
  ProjectRenamer.mkRenamer c
    (match ProjectRenamer._compile_patterns c with
     | Return ps => ps
     | Raise _ => []
     end).

(** A run in a process whose root logger is not configured yet. *)
Definition fresh_process (files : list World.node) : World.State :=
  World.mkState files "20240101_120000" "2024-01-01 12:00:00,000" []
    World.WARNING [] [] [] [].

(** A project with a directory named after the old name inside a directory
    named after it. *)
Definition nested_project : list World.node :=
  [ World.Dir "proj"
      [ World.File "README.md" "The old_app tool.";
        World.Dir "old_app"
          [ World.Dir "old_app" [ World.File "main.py" "import old_app" ] ] ] ].

Definition nested_config (backup dry : bool) : ProjectRenamer.RenameConfig :=
  Spec.with_flags (default_config "old_app" "new_app" ["proj"]) backup dry.

(** The world after [ProjectRenamer(config)]. *)
Definition constructed (c : ProjectRenamer.RenameConfig) (files : list World.node) :
    World.State :=
  snd (ProjectRenamer.__init__ c (fresh_process files)).

(** The text of the file at [p], when there is one. *)
Definition file_text (s : World.State) (p : Path) : option string :=
  match World.lookup (World.fs s) p with
  | Some (World.File _ c) => Some c
  | _ => None
  end.

Definition directory_exists (s : World.State) (p : Path) : bool :=
  match World.lookup (World.fs s) p with
  | Some (World.Dir _ _) => true
  | _ => false
  end.

(** The directories that the scan of [self] selects in the world [s]. *)
Definition selected_directories (self : ProjectRenamer.ProjectRenamer) (s : World.State) :
    list Path :=
  match fst (ProjectRenamer.scan_project self s) with
  | Return r => ProjectRenamer.directories_to_rename r
  | Raise _ => []
  end.

End Examples.

(** ** utils.py: the text helpers *)

Module TextUtils.
Import PyStr.

(** The exceptions these helpers and the configuration module raise. *)
Inductive error : Type := ValueError | NameError.

Inductive Outcome (A : Type) : Type :=
  | Returns (a : A)
  | Raises (e : error).
Arguments Returns {A} a.
Arguments Raises {A} e.

(** [convert_case(text, case_style)].  [re.split] returns at least one
    piece, so that [words[0]] is defined. *)
Definition convert_case (text case_style : string) : Outcome string :=
  let case_style := lower case_style in
  if String.eqb case_style "original" then Returns text
  else if String.eqb case_style "snake_case" then
    let s1 := Re.sub_word_start false text in
    Returns (lower (Re.sub_hump s1))
  else if String.eqb case_style "pascal_case" then
    Returns (ProjectRenamer.join_words (map capitalize (Re.split_seps false text)))
  else if String.eqb case_style "camel_case" then
    let words := Re.split_seps false text in
    Returns (lower (hd EmptyString words)
             ++ ProjectRenamer.join_words (map capitalize (tl words)))
  else if String.eqb case_style "kebab_case" then
    Returns (Re.sub_seps false (lower text))
  else if String.eqb case_style "upper_case" then Returns (upper text)
  else if String.eqb case_style "lower_case" then Returns (lower text)
  else Raises ValueError.

(** The first character of the text lower-cased, the rest as it is. *)
Definition lower_first (s : string) : string :=
  match s with
  | EmptyString => EmptyString
  | String c r => String (char_lower c) r
  end.

(** The text starts with a hyphen, an underscore or whitespace. *)
Definition starts_with_sep (s : string) : bool :=
  match s with
  | EmptyString => false
  | String c _ => Re.is_sep c
  end.

End TextUtils.

(** ** utils.py: name patterns and the file search *)

Module NamePatterns.
Import PyStr Py PathLib World.

(** The [patterns] argument: one string, or a list or set of strings. *)
Inductive PatternArg : Type :=
  | Str (pattern : string)
  | Seq (patterns : list string).

(** [re.match] of the text against [re.escape(pattern)] in which the escaped
    star has become [.*] and the escaped question mark [.]: every other
    character of the pattern stands for itself, a star for any run of
    characters other than a newline, a question mark for one such character,
    and the match may end before the text does. *)
Fixpoint wild_match (pattern : string) : string -> bool :=
  match pattern with
  | EmptyString => fun _ => true
  | String p pattern' =>
      if Ascii.eqb p "*"%char then
        fix any_run (t : string) : bool :=
          wild_match pattern' t ||
          match t with
          | String c t' => Rx.not_newline c && any_run t'
          | EmptyString => false
          end
      else
        fun t =>
          match t with
          | String c t' =>
              (if Ascii.eqb p "?"%char then Rx.not_newline c else Ascii.eqb p c)
              && wild_match pattern' t'
          | EmptyString => false
          end
  end.

(** ['*' in pattern or '?' in pattern]. *)
Definition has_wildcard (pattern : string) : bool :=
  contains "*" pattern || contains "?" pattern.

(** [_matches_any_pattern(text, patterns, case_sensitive)]. *)
Definition _matches_any_pattern (text : string) (patterns : PatternArg)
    (case_sensitive : bool) : bool :=
  let patterns :=
    match patterns with
    | Str pattern => [pattern]
    | Seq patterns => patterns
    end in
  let text_to_check := if case_sensitive then text else lower text in
  existsb
    (fun pattern =>
       let pattern_to_check := if case_sensitive then pattern else lower pattern in
       if has_wildcard pattern then wild_match pattern text_to_check
       else String.eqb text_to_check pattern_to_check)
    patterns.

(** The loop of [find_files_by_pattern] from the directory [n] at [root],
    [depth] levels below the directory of the search, as [os.walk] yields the
    directories top down.  Nothing in the loop raises on this file system, so
    that the handler of the function's [try] is never entered. *)
Fixpoint find_walk (patterns exclude_patterns : PatternArg) (case_sensitive : bool)
    (max_depth : Z) (current_depth : nat) (root : Path) (n : node)
    (matched_files : list Path) {struct n} : list Path :=
  match n with
  | File _ _ => matched_files
  | Dir _ entries =>
      if (max_depth <? Z.of_nat current_depth)%Z then matched_files
      else
        let matched_files :=
          fold_left
            (fun (matched_files : list Path) (file : string) =>
               if _matches_any_pattern file exclude_patterns case_sensitive
               then matched_files
               else
                 let file_path := joinpath root file in
                 if _matches_any_pattern file patterns case_sensitive
                 then (matched_files ++ [file_path])%list
                 else matched_files)
            (ProjectRenamer.file_names entries) matched_files in
        (fix descend (l : list node) (matched_files : list Path) : list Path :=
           match l with
           | [] => matched_files
           | e :: r =>
               descend r
                 (if is_dir e
                     && negb (_matches_any_pattern (node_name e) exclude_patterns
                                case_sensitive)
                  then find_walk patterns exclude_patterns case_sensitive max_depth
                         (S current_depth) (joinpath root (node_name e)) e matched_files
                  else matched_files)
           end) entries matched_files
  end.

(** [find_files_by_pattern(directory, patterns, exclude_patterns,
    case_sensitive, max_depth)]; no [exclude_patterns] is the empty set. *)
Definition find_files_by_pattern (directory : Path) (patterns : PatternArg)
    (exclude_patterns : option PatternArg) (case_sensitive : bool) (max_depth : Z) :
    M (list Path) :=
  fun s =>
    let exclude_patterns :=
      match exclude_patterns with
      | None => Seq []
      | Some given => given
      end in
    match lookup (fs s) directory with
    | Some (Dir _ _ as top) =>
        (Return (find_walk patterns exclude_patterns case_sensitive max_depth 0
                   directory top []), s)
    | _ => (Return [], s)
    end.

(** The character is a wildcard of a name pattern or occurs in the text. *)
Definition occurs_or_wild (t : string) (c : ascii) : bool :=
  Ascii.eqb c "*" || Ascii.eqb c "?" || sexists (Ascii.eqb c) t.

(** What holds of a path that the search returns. *)
Definition found_as_asked (directory : Path) (patterns exclude_patterns : PatternArg)
    (case_sensitive : bool) (max_depth : Z) (file_path : Path) : Prop :=
  exists below : Path,
    file_path = (directory ++ below)%list
    /\ below <> []
    /\ (Z.of_nat (List.length below) <= max_depth + 1)%Z
    /\ _matches_any_pattern (name file_path) patterns case_sensitive = true
    /\ Forall (fun component =>
                 _matches_any_pattern component exclude_patterns case_sensitive = false)
              below.

End NamePatterns.

(** ** utils.py: file names *)

Module FileNames.
Import PyStr.

(** The character class of [invalid_chars]: the two angle brackets, the
    colon, the double quote, the slash, the backslash, the bar, the question
    mark and the star. *)
Definition invalid_char (c : ascii) : bool :=
  sexists (Ascii.eqb c) ("<>:" ++ String dquote ("/" ++ String backslash "|?*")).

(** [re.sub] of a character class by a replacement that holds no backslash,
    which [re] then inserts as it is. *)
Fixpoint sub_class (cls : ascii -> bool) (repl s : string) : string :=
  match s with
  | EmptyString => EmptyString
  | String c r => (if cls c then repl else String c EmptyString) ++ sub_class cls repl r
  end.

(** [s.rstrip(chars)]. *)
Fixpoint rstrip (chars : ascii -> bool) (s : string) : string :=
  match s with
  | EmptyString => EmptyString
  | String c r =>
      match rstrip chars r with
      | EmptyString => if chars c then EmptyString else String c EmptyString
      | kept => String c kept
      end
  end.

(** [sanitize_filename(filename, replacement)]. *)
Definition sanitize_filename (filename replacement : string) : string :=
  let sanitized := sub_class invalid_char replacement filename in
  let sanitized :=
    rstrip (fun c => Ascii.eqb c "."%char || Ascii.eqb c " "%char) sanitized in
  match sanitized with
  | EmptyString => "unnamed"
  | _ => sanitized
  end.

End FileNames.

(** ** utils.py: the binary-file test

    A file read in binary mode gives its content, one character for a byte. *)

Module FileKinds.
Import PyStr Py PathLib World.
Local Open Scope world_scope.

(** The bytes of [text_chars]: 7, 8, 9, 10, 12, 13, 27 and [range(0x20, 0x7e)],
    which ends with 0x7d. *)
Definition text_char (c : ascii) : bool :=
  existsb (Nat.eqb (code c)) [7; 8; 9; 10; 12; 13; 27] || between 32 125 c.

(** [chunk.translate(None, delete)]: the bytes of the chunk that are not in
    [delete], unchanged. *)
Fixpoint translate_delete (delete : ascii -> bool) (chunk : string) : string :=
  match chunk with
  | EmptyString => EmptyString
  | String c r =>
      if delete c then translate_delete delete r else String c (translate_delete delete r)
  end.

(** [is_binary_file(file_path)].  The quotient [non_text / len(chunk)] of two
    integers up to 1024 is above the float [0.3] exactly when it is above
    3/10, that is when [10 * non_text > 3 * len(chunk)]. *)
Definition is_binary_file (file_path : Path) : M bool :=
  try_catch
    (content <- read_file file_path ;;
     let chunk := take 1024 content in
     if contains (String Ascii.zero EmptyString) chunk then ret true
     else if Nat.ltb 0 (length chunk) then
       let non_text := length chunk - length (translate_delete text_char chunk) in
       ret (Nat.ltb (3 * length chunk) (10 * non_text))
     else ret false)
    (fun _ => ret true).

End FileKinds.

(** ** What a scan selects *)

Module ScanSpec.
Import PyStr Py PathLib World ProjectRenamer.

(** When the computation returns, its value satisfies [Q]. *)
Definition ensures {A} (m : M A) (Q : A -> Prop) : Prop :=
  forall s, match fst (m s) with Return a => Q a | Raise _ => True end.

(** The path lies below the project directory and none of its components
    below that directory is excluded. *)
Definition below_project (self : ProjectRenamer) (p : Path) : Prop :=
  exists below : Path,
    p = (project_path (config self) ++ below)%list
    /\ below <> []
    /\ Forall (fun component => _is_excluded self component = false) below.

(** The lists of a scan hold no more entries than the scan counted. *)
Definition counts_add_up (r : ScanResults) : Prop :=
  List.length (directories_to_rename r) = total_directories r
  /\ List.length (files_to_rename r) <= total_files r
  /\ List.length (files_to_modify r) <= total_files r.

(** Every entry of the lists is a path of the project that the scan was
    allowed to visit, and the files are those the two file predicates pick. *)
Definition selected_as_asked (self : ProjectRenamer) (r : ScanResults) : Prop :=
  Forall (fun p => below_project self p /\ _should_rename_file self p = true)
         (files_to_rename r)
  /\ Forall (fun p => below_project self p /\ _should_modify_file self p = true)
            (files_to_modify r)
  /\ Forall (below_project self) (directories_to_rename r).

End ScanSpec.

(** ** The summary of a run *)

Module Report.
Import PyStr Py PathLib World ProjectRenamer.

(** The dict that [get_summary] returns, key by key. *)
Record Summary : Type := mkSummary {
  summary_old_name : string;
  summary_new_name : string;
  summary_project_path : string;
  backup_created : bool;
  summary_backup_paths : list string;
  files_changed : nat;
  summary_changed_files : list string;
  summary_errors : list string;
  summary_dry_run : bool
}.

Definition get_summary (self : ProjectRenamer) : M Summary :=
  fun s =>
    (Return
       (mkSummary
          (old_name (config self))
          (new_name (config self))
          (path_str (project_path (config self)))
          (Nat.ltb 0 (List.length (backup_paths s)))
          (map path_str (backup_paths s))
          (List.length (changed_files s))
          (map path_str (changed_files s))
          (errors s)
          (dry_run (config self))),
     s).

(** The directory at [p] exists and lists a directory named [b]. *)
Definition has_subdirectory (files : list node) (p : Path) (b : string) : Prop :=
  exists entries, listdir files p = Some entries /\ In b (dir_names entries).

(** The name of the backup directory of a run that starts in the world [s]. *)
Definition backup_name (s : State) : string := "backup_" ++ clock_stamp s.

End Report.

(** ** Names made of some characters only *)

Module NameShape.
Import PyStr.

(** The characters of [backup_] followed by a time stamp of [strftime] with
    the format [%Y%m%d_%H%M%S]: the letters of the word [backup], the digits
    and the underscore. *)
Definition backup_char (c : ascii) : bool :=
  sexists (Ascii.eqb c) "backup_" || char_isdigit c.

(** A time stamp of that format: digits and underscores. *)
Definition stamp_char (c : ascii) : bool := char_isdigit c || Ascii.eqb c "_"%char.

End NameShape.

(** ** file_handlers.py: the JavaScript handler and the registry *)

Module ScriptHandlers.
Import PyStr Py PathLib FileHandlers.
Local Open Scope py_scope.

(** [a|b] followed by the rest of the pattern, which both branches carry:
    the second branch is tried when the first, with the rest, fails. *)
Definition alt (first second : Rx.matcher) : Rx.matcher :=
  fun s =>
    match first s with
    | Some n => Some n
    | None => second s
    end.

(** [c?], greedy, for one character [c]. *)
Definition opt (c : ascii) (k : Rx.matcher) : Rx.matcher :=
  alt (Rx.one (Ascii.eqb c) k) k.

Definition JavaScriptFileHandler_can_handle (file_path : Path) : bool :=
  existsb (String.eqb (lower (suffix file_path))) [".js"; ".jsx"; ".ts"; ".tsx"].

(** The quoted module reference of an import: a quote, [.], [.?], [/?], the
    old name, a quote. *)
Definition module_reference (old : string) : Rx.matcher :=
  Rx.one Rx.is_quote
    (Rx.lit "."
      (opt "." (opt "/" (Rx.lit old (Rx.one Rx.is_quote Rx.done))))).

(** The three patterns of [process], compiled without flags:
    [import.*?from\s+] and the module reference, [import\s*old], and
    [from\s*] and the module reference. *)
Definition javascript_patterns (self : BaseFileHandler) : list Rx.matcher :=
  [ Rx.lit "import"
      (Rx.lazy Rx.not_newline
        (Rx.lit "from" (Rx.plus char_isspace (module_reference (old_name self)))));
    Rx.lit "import" (Rx.star char_isspace (Rx.lit (old_name self) Rx.done));
    Rx.lit "from" (Rx.star char_isspace (module_reference (old_name self))) ].

(** [(?:function|const)\s+old\s*(?:=|Component)]. *)
Definition component_pattern (old : string) : Rx.matcher :=
  let rest :=
    Rx.plus char_isspace
      (Rx.lit old
        (Rx.star char_isspace (alt (Rx.lit "=" Rx.done) (Rx.lit "Component" Rx.done)))) in
  alt (Rx.lit "function" rest) (Rx.lit "const" rest).

(** The replacement [const new_name =] is a template of [re.sub]. *)
Definition _handle_react_components (self : BaseFileHandler) (content : string) :
    Result string :=
  ReTemplate.sub (component_pattern (old_name self))
                 ("const " ++ new_name self ++ " =") content.

Definition _replace_js_import (self : BaseFileHandler) (full_match : string) : string :=
  replace (old_name self) (new_name self) full_match.

Definition JavaScriptFileHandler_process (self : BaseFileHandler) (file_path : Path)
    (content : string) : Result string :=
  let modified_content := content in
  modified_content <-
    (if existsb (String.eqb (lower (suffix file_path))) [".jsx"; ".tsx"]
     then _handle_react_components self modified_content
     else Return modified_content) ;;
  Return
    (fold_left
       (fun modified_content pattern =>
          Re.sub_with pattern (_replace_js_import self) 0 modified_content)
       (javascript_patterns self) modified_content).

Definition XMLFileHandler_can_handle (file_path : Path) : bool :=
  String.eqb (lower (suffix file_path)) ".xml".

Definition MarkdownFileHandler_can_handle (file_path : Path) : bool :=
  existsb (String.eqb (lower (suffix file_path))) [".md"; ".rst"; ".adoc"].

(** *** FileHandlerRegistry

    The six handlers in the order of [self.handlers].  The [process] methods
    of the XML and Markdown handlers are parameters of the registry, as the
    parsers are of the JSON and YAML handlers. *)

Inductive HandlerClass : Type :=
  | PythonFileHandler | JavaScriptFileHandler | JSONFileHandler
  | YAMLFileHandler | XMLFileHandler | MarkdownFileHandler.

Definition handlers : list HandlerClass :=
  [ PythonFileHandler; JavaScriptFileHandler; JSONFileHandler;
    YAMLFileHandler; XMLFileHandler; MarkdownFileHandler ].

Definition can_handle (handler : HandlerClass) (file_path : Path) : bool :=
  match handler with
  | PythonFileHandler => PythonFileHandler_can_handle file_path
  | JavaScriptFileHandler => JavaScriptFileHandler_can_handle file_path
  | JSONFileHandler => JSONFileHandler_can_handle file_path
  | YAMLFileHandler => YAMLFileHandler_can_handle file_path
  | XMLFileHandler => XMLFileHandler_can_handle file_path
  | MarkdownFileHandler => MarkdownFileHandler_can_handle file_path
  end.

(** [FileHandlerRegistry.get_handler(file_path)]. *)
Definition get_handler (file_path : Path) : option HandlerClass :=
  find (fun handler => can_handle handler file_path) handlers.

Section Registry.

Variable json_loads : string -> Result pyval.
Variable json_dumps : bool -> pyval -> string.
Variable yaml_safe_load : string -> Result pyval.
Variable yaml_dump : bool -> pyval -> string.
Variable repr_of : pyval -> string.
Variable xml_process : BaseFileHandler -> Path -> string -> Result pyval.
Variable markdown_process : BaseFileHandler -> Path -> string -> Result pyval.

Definition process (handler : HandlerClass) (self : BaseFileHandler) (file_path : Path)
    (content : string) : Result pyval :=
  match handler with
  | PythonFileHandler =>
      bind (PythonFileHandler_process self file_path content) (fun text => Return (PStr text))
  | JavaScriptFileHandler =>
      bind (JavaScriptFileHandler_process self file_path content)
           (fun text => Return (PStr text))
  | JSONFileHandler => JSONFileHandler_process json_loads json_dumps repr_of self file_path content
  | YAMLFileHandler => YAMLFileHandler_process yaml_safe_load yaml_dump self file_path content
  | XMLFileHandler => xml_process self file_path content
  | MarkdownFileHandler => markdown_process self file_path content
  end.

(** [FileHandlerRegistry.process_file(file_path, content)], for the registry
    constructed with the names of [self].  The registry keeps its handlers
    only: it has no attribute [old_name], which the last line reads. *)
Definition process_file (self : BaseFileHandler) (file_path : Path) (content : string) :
    Result pyval :=
  match get_handler file_path with
  | Some handler => process handler self file_path content
  | None => Raise AttributeError
  end.

End Registry.

(** The suffixes, in lower case, that some handler of the registry takes. *)
Definition handled_suffixes : list string :=
  [".py"; ".js"; ".jsx"; ".ts"; ".tsx"; ".json"; ".yaml"; ".yml"; ".xml";
   ".md"; ".rst"; ".adoc"].

(** The old name occurs in the text. *)
Definition mentions (old text : string) : bool := contains old text.

End ScriptHandlers.

Module HandlerSpec.
Import PyStr.

(** Every match of the matcher holds the text [old]. *)
Definition needs (old : string) (k : Rx.matcher) : Prop :=
  forall s n, k s = Some n -> contains old s = true.

End HandlerSpec.

(** ** config.py: the validator of names *)

Module ConfigValidator.
Import PyStr TextUtils.

(** [s.lstrip()] and [s.strip()], of whitespace. *)
Fixpoint lstrip (s : string) : string :=
  match s with
  | String c r => if char_isspace c then lstrip r else s
  | EmptyString => EmptyString
  end.


(** A string is true when it is not empty. *)
Definition truthy (s : string) : bool :=
  match s with
  | EmptyString => false
  | String _ _ => true
  end.



End ConfigValidator.

(** ** Shapes of patterns and configurations *)

Module PatternShape.
Import PyStr.

(** The characters that [fnmatch] reads as the start of a wildcard. *)
Definition wild_char (c : ascii) : bool :=
  Ascii.eqb c "*"%char || Ascii.eqb c "?"%char || Ascii.eqb c "["%char.

Definition literal_pattern (pattern : string) : bool := negb (sexists wild_char pattern).

(** A pattern without wildcard, or [*.] followed by text without
    wildcard: the two shapes of the default exclusion list. *)
Definition simple_pattern (pattern : string) : bool :=
  literal_pattern pattern
  || (startswith "*." pattern && literal_pattern (drop 1 pattern)).

(** The configuration [c] with other file types. *)
Definition with_file_types (c : ProjectRenamer.RenameConfig) (types : list string) :
    ProjectRenamer.RenameConfig :=
  ProjectRenamer.mkConfig (ProjectRenamer.old_name c) (ProjectRenamer.new_name c)
    (ProjectRenamer.project_path c) (ProjectRenamer.backup_enabled c)
    (ProjectRenamer.dry_run c) types (ProjectRenamer.exclude_patterns c)
    (ProjectRenamer.case_sensitive c) (ProjectRenamer.preserve_case c).

(** A file type that can be the suffix of a path: empty, or starting with a
    period. *)
Definition suffix_shaped (file_type : string) : bool :=
  String.eqb file_type EmptyString || startswith "." file_type.

End PatternShape.

(** ** utils.py: backup and recovery

    [shutil.copytree] lists the source, makes the target directory with
    [os.makedirs], then copies entry by entry.  Copying a directory into one of
    its own subdirectories goes on until the system refuses a path; of that
    case the model keeps the exception only, and the target directory as
    [os.makedirs] left it. *)

Module Backups.
Import PyStr Py PathLib World.
Local Open Scope world_scope.

Fixpoint path_eqb (p q : Path) : bool :=
  match p, q with
  | [], [] => true
  | a :: p', b :: q' => String.eqb a b && path_eqb p' q'
  | _, _ => false
  end.

(** What is left of [q] below [p], when [q] is [p] or lies below it. *)
Fixpoint below (p q : Path) : option Path :=
  match p, q with
  | [], _ => Some q
  | a :: p', b :: q' => if String.eqb a b then below p' q' else None
  | _ :: _, [] => None
  end.

(** [path.is_file()] and [path.exists()]. *)
Definition is_file (p : Path) : M bool :=
  fun s => (Return (match lookup (fs s) p with Some (File _ _) => true | _ => false end), s).

Definition exists_ (p : Path) : M bool :=
  fun s => (Return (match lookup (fs s) p with Some _ => true | None => false end), s).

(** [shutil.copy2(src, dst)]: the content of the file [src] goes to [dst],
    or into [dst] under the name of [src] when [dst] is a directory; a file
    is not copied onto itself. *)
Definition copy2 (src dst : Path) : M unit :=
  fun s =>
    match lookup (fs s) src with
    | Some (File _ content) =>
        let target :=
          match lookup (fs s) dst with
          | Some (Dir _ _) => joinpath dst (name src)
          | _ => dst
          end in
        if path_eqb src target then (Raise OSError, s)
        else write_file target content s
    | Some (Dir _ _) => (Raise OSError, s)
    | None => (Raise FileNotFoundError, s)
    end.

(** [path.unlink()] of a file and [shutil.rmtree(path)] of a directory: the
    entry leaves its directory.  The root directory loses its entries and
    stays. *)
Definition unlink (p : Path) : M unit :=
  fun s =>
    match lookup (fs s) p with
    | Some (File _ _) =>
        (Return tt, set_fs (update_dir (remove_entry (name p)) (parent p) (fs s)) s)
    | Some (Dir _ _) => (Raise OSError, s)
    | None => (Raise FileNotFoundError, s)
    end.

Definition rmtree (p : Path) : M unit :=
  fun s =>
    match lookup (fs s) p with
    | Some (Dir _ _) =>
        match p with
        | [] => (Raise OSError, set_fs [] s)
        | _ =>
            (Return tt, set_fs (update_dir (remove_entry (name p)) (parent p) (fs s)) s)
        end
    | Some (File _ _) => (Raise OSError, s)
    | None => (Raise FileNotFoundError, s)
    end.

(** [os.makedirs(dst)] followed by the filling of the new directory with
    [content]: the directories missing on the way are made; the call fails,
    with nothing made, when [dst] exists or the way runs through a file. *)
Fixpoint put_tree (dst : Path) (content : list node) (files : list node) :
    Result (list node) :=
  match dst with
  | [] => Raise FileExistsError
  | d :: rest =>
      match rest with
      | [] =>
          match find_child d files with
          | Some _ => Raise FileExistsError
          | None => Return (files ++ [Dir d content])%list
          end
      | _ :: _ =>
          match find_child d files with
          | Some (Dir _ entries) =>
              match put_tree rest content entries with
              | Return entries' =>
                  Return (map (fun e =>
                                 match e with
                                 | Dir n _ => if String.eqb n d then Dir n entries' else e
                                 | File _ _ => e
                                 end) files)
              | Raise e => Raise e
              end
          | Some (File _ _) => Raise OSError
          | None =>
              match put_tree rest content [] with
              | Return entries' => Return (files ++ [Dir d entries'])%list
              | Raise e => Raise e
              end
          end
      end
  end.

(** The target lies inside a directory of the source that the copy takes. *)
Definition copies_into_itself (patterns : list string) (src dst : Path)
    (entries : list node) : bool :=
  match below src dst with
  | Some (a :: _ :: _) =>
      match find_child a entries with
      | Some (Dir _ _) => negb (existsb (fun p => fnmatch p a) patterns)
      | _ => false
      end
  | _ => false
  end.

(** [shutil.copytree(src, dst, ignore=...)] with the names that
    [shutil.ignore_patterns] selects for the patterns left out. *)
Definition copytree (src dst : Path) (patterns : list string) : M unit :=
  fun s =>
    match lookup (fs s) src with
    | Some (Dir _ entries) =>
        if copies_into_itself patterns src dst entries then
          match put_tree dst [] (fs s) with
          | Return files => (Raise OSError, set_fs files s)
          | Raise e => (Raise e, s)
          end
        else
          match put_tree dst (copy_entries patterns entries) (fs s) with
          | Return files => (Return tt, set_fs files s)
          | Raise e => (Raise e, s)
          end
    | Some (File _ _) => (Raise OSError, s)
    | None => (Raise FileNotFoundError, s)
    end.

(** [create_backup_directory(source_path, backup_base)]. *)
Definition create_backup_directory (source_path : Path) (backup_base : option Path) :
    M Path :=
  let backup_base :=
    match backup_base with
    | None => parent source_path
    | Some given => given
    end in
  s <- get_state ;;
  let timestamp := clock_stamp s in
  let backup_name := name source_path ++ "_backup_" ++ timestamp in
  let backup_path := joinpath backup_base backup_name in
  source_is_file <- is_file source_path ;;
  (if source_is_file : bool then copy2 source_path backup_path
   else copytree source_path backup_path [".git"]) ;;
  ret backup_path.

(** [restore_from_backup(backup_path, original_path)]. *)
Definition restore_from_backup (backup_path original_path : Path) : M bool :=
  try_catch
    (backup_is_file <- is_file backup_path ;;
     (if backup_is_file : bool then copy2 backup_path original_path
      else
        original_exists <- exists_ original_path ;;
        (if original_exists : bool then
           original_is_file <- is_file original_path ;;
           if original_is_file : bool then unlink original_path
           else rmtree original_path
         else ret tt) ;;
        copytree backup_path original_path []) ;;
     ret true)
    (fun e =>
       log ERROR ("Failed to restore from backup " ++ path_str backup_path ++ ": "
                  ++ exn_str e) ;;
       ret false).

(** The path of the backup that [create_backup_directory] makes of
    [source_path] beside it, in the world [s]. *)
Definition backup_beside (source_path : Path) (s : State) : Path :=
  joinpath (parent source_path) (name source_path ++ "_backup_" ++ clock_stamp s).

End Backups.

(** * Properties of the embedding *)

Import PyStr Py PathLib.

(** ** Strings *)

Section StringFacts.

Lemma append_nil_r (s : string) : s ++ EmptyString = s.
Proof. induction s as [|c s IH]; simpl; [reflexivity | now rewrite IH]. Qed.

Lemma append_assoc (a b c : string) : (a ++ b) ++ c = a ++ (b ++ c).
Proof. induction a as [|x a IH]; simpl; [reflexivity | now rewrite IH]. Qed.

Lemma length_append (a b : string) : length (a ++ b) = length a + length b.
Proof. induction a as [|x a IH]; simpl; [reflexivity | now rewrite IH]. Qed.

Lemma drop_0 (s : string) : drop 0 s = s.
Proof. now destruct s. Qed.

Lemma drop_all (n : nat) (s : string) : length s <= n -> drop n s = EmptyString.
Proof.
  revert n; induction s as [|c s IH]; intros [|n] H; simpl in *; try reflexivity; try lia.
  apply IH; lia.
Qed.

Lemma take_drop (n : nat) (s : string) : take n s ++ drop n s = s.
Proof.
  revert n; induction s as [|c s IH]; intros [|n]; simpl; try reflexivity.
  now rewrite IH.
Qed.

Lemma drop_append (a b : string) : drop (length a) (a ++ b) = b.
Proof. induction a as [|x a IH]; simpl; [apply drop_0 | exact IH]. Qed.

Lemma get_drop (i : nat) (s : string) (b : ascii) :
  get i s = Some b -> drop i s = String b (drop (S i) s).
Proof.
  revert i; induction s as [|c s IH]; intros [|i] H; simpl in *; try discriminate.
  - injection H as ->. reflexivity.
  - now apply IH.
Qed.

Lemma get_some (i : nat) (s : string) : i < length s -> exists b, get i s = Some b.
Proof.
  revert i; induction s as [|c s IH]; intros [|i] H; simpl in *; try lia.
  - now exists c.
  - apply IH; lia.
Qed.

Lemma startswith_refl (s t : string) : startswith s (s ++ t) = true.
Proof.
  induction s as [|c s IH]; simpl; [reflexivity|].
  now rewrite Ascii.eqb_refl, IH.
Qed.

Lemma startswith_split (p s : string) :
  startswith p s = true -> s = p ++ drop (length p) s.
Proof.
  revert s; induction p as [|a p IH]; intros s H; simpl in *.
  - reflexivity.
  - destruct s as [|b s]; [discriminate|].
    apply andb_prop in H as [Hab Hps].
    apply Ascii.eqb_eq in Hab as ->. simpl. now rewrite <- IH.
Qed.

Lemma smap_append (f : ascii -> ascii) (a b : string) :
  smap f (a ++ b) = smap f a ++ smap f b.
Proof. induction a as [|x a IH]; simpl; [reflexivity | now rewrite IH]. Qed.

Lemma sforall_append (p : ascii -> bool) (a b : string) :
  sforall p (a ++ b) = sforall p a && sforall p b.
Proof. induction a as [|x a IH]; simpl; [reflexivity | now rewrite IH, andb_assoc]. Qed.

Lemma sforall_smap (p : ascii -> bool) (f : ascii -> ascii) (s : string) :
  (forall c, p c = true -> p (f c) = true) ->
  sforall p s = true -> sforall p (smap f s) = true.
Proof.
  intros Hf; induction s as [|c s IH]; simpl; [reflexivity|].
  intros H; apply andb_prop in H as [Hc Hs].
  now rewrite (Hf _ Hc), IH.
Qed.

End StringFacts.

(** Facts about single characters are decided on the 256 of them. *)
Ltac by_cases_on_char c :=
  destruct c as [[] [] [] [] [] [] [] []]; vm_compute; try reflexivity; try discriminate.

Lemma char_upper_lower_upper (c : ascii) : char_upper (char_lower (char_upper c)) = char_upper c.
Proof. by_cases_on_char c. Qed.

Lemma char_lower_idem (c : ascii) : char_lower (char_lower c) = char_lower c.
Proof. by_cases_on_char c. Qed.

Lemma char_upper_keeps_word (c : ascii) :
  negb (Re.is_sep c) = true -> negb (Re.is_sep (char_upper c)) = true.
Proof. by_cases_on_char c. Qed.

Lemma char_lower_keeps_word (c : ascii) :
  negb (Re.is_sep c) = true -> negb (Re.is_sep (char_lower c)) = true.
Proof. by_cases_on_char c. Qed.

Lemma lower_idem (s : string) : lower (lower s) = lower s.
Proof.
  induction s as [|c s IH]; simpl; [reflexivity|].
  unfold lower in *; simpl. now rewrite char_lower_idem, IH.
Qed.

(** ** utils.py: the case-preserving replacement *)

Module UtilsFacts.
Import Utils Spec.

Lemma copy_case_nil_r (o : string) : copy_case o EmptyString = EmptyString.
Proof. now destruct o. Qed.

Lemma preserve_case_loop_spec (replacement : string) :
  forall original result rep_index,
    rep_index <= length replacement ->
    preserve_case_loop replacement original result rep_index =
      (result ++ copy_case original (drop rep_index replacement)
              ++ drop (length replacement - rep_index) original,
       Nat.min (length replacement) (rep_index + length original)).
Proof.
  induction original as [|char rest IH]; intros result i Hi; simpl.
  - rewrite Nat.add_0_r, Nat.min_r by lia.
    destruct (length replacement - i); now rewrite append_nil_r.
  - destruct (Nat.leb (length replacement) i) eqn:Hle.
    + apply Nat.leb_le in Hle. assert (i = length replacement) as -> by lia.
      rewrite IH by lia. rewrite Nat.sub_diag, !drop_0.
      rewrite (drop_all (length replacement)) by lia.
      rewrite !copy_case_nil_r. simpl. rewrite append_assoc. simpl.
      f_equal. lia.
    + apply Nat.leb_gt in Hle.
      destruct (get_some i replacement Hle) as [b Hb].
      rewrite Hb. rewrite (get_drop _ _ _ Hb).
      rewrite IH by lia.
      replace (length replacement - i) with (S (length replacement - S i)) by lia.
      simpl. rewrite append_assoc. simpl.
      f_equal.
      * unfold case_like.
        destruct (char_isupper char); [reflexivity|].
        destruct (char_islower char); [reflexivity|].
        now destruct (char_isdigit char).
      * lia.
Qed.

Lemma preserve_case_mixed (original replacement : string) :
  isupper original = false -> islower original = false -> istitle original = false ->
  preserve_case original replacement =
    copy_case original replacement
    ++ drop (length replacement) original
    ++ drop (length original) replacement.
Proof.
  intros Hu Hl Ht. unfold preserve_case. rewrite Hu, Hl, Ht.
  rewrite preserve_case_loop_spec by lia.
  rewrite drop_0, Nat.sub_0_r. simpl.
  destruct (Nat.ltb _ _) eqn:Hlt.
  - apply Nat.ltb_lt in Hlt.
    assert (length original < length replacement) by lia.
    rewrite Nat.min_r by lia. now rewrite append_assoc.
  - apply Nat.ltb_ge in Hlt.
    assert (length replacement <= length original) by lia.
    rewrite (drop_all (length original)) by lia.
    now rewrite append_nil_r.
Qed.

End UtilsFacts.

(** C8, as the claim states it, fails: on a mixed-case original longer than
    the replacement, [preserve_case] keeps the trailing characters of the
    original, which the claim says are dropped. *)
Lemma preserve_case_keeps_original_tail :
  Utils.preserve_case "aBcde" "xy" = "xYcde"
  /\ Spec.applyInferredCase "xy" "aBcde" = "xY"
  /\ Utils.preserve_case "aBcde" "xy"
     <> Spec.applyInferredCase "xy" "aBcde".
Proof. repeat split; vm_compute; congruence. Qed.

(** C8 (amended): for every replacement [r] and observed original [o],
    [utils.preserve_case] returns [r] upper-cased when [o] is all upper,
    lower-cased when [o] is all lower, title-cased when [o] is title-cased;
    otherwise it copies the case position by position from [o] onto [r], then
    appends the characters of [o] beyond [r] unchanged, or the characters of
    [r] beyond [o] unchanged.  [BaseFileHandler.preserve_case] agrees on the
    three uniform cases and returns [r] itself in the mixed case.  With
    replacement [myNewProject] and original [MYOLDPROJECT] both give
    [MYNEWPROJECT]. *)
Theorem preserve_case_by_inferred_case :
  (forall o r : string,
      Utils.preserve_case o r =
        if isupper o then upper r
        else if islower o then lower r
        else if istitle o then title r
        else Spec.copy_case o r ++ drop (length r) o ++ drop (length o) r)
  /\ (forall (self : FileHandlers.BaseFileHandler) (o r : string),
         FileHandlers.preserve_case self r o =
           if isupper o then upper r
           else if islower o then lower r
           else if istitle o then title r
           else r)
  /\ Utils.preserve_case "MYOLDPROJECT" "myNewProject" = "MYNEWPROJECT"
  /\ FileHandlers.preserve_case (FileHandlers.mkHandler "MyOldProject" "myNewProject")
       "myNewProject" "MYOLDPROJECT" = "MYNEWPROJECT".
Proof.
  split; [|split; [|split]]; try reflexivity.
  intros o r.
  destruct (isupper o) eqn:Hu; [unfold Utils.preserve_case; now rewrite Hu|].
  destruct (islower o) eqn:Hl; [unfold Utils.preserve_case; now rewrite Hu, Hl|].
  destruct (istitle o) eqn:Ht; [unfold Utils.preserve_case; now rewrite Hu, Hl, Ht|].
  now apply UtilsFacts.preserve_case_mixed.
Qed.

(** ** project_renamer.py: case styles and name resolution *)

Module NameFacts.
Import ProjectRenamer Re.

Lemma split_no_sep (s : string) (in_sep : bool) :
  no_sep s -> Re.split_seps in_sep s = [s].
Proof.
  unfold no_sep; revert in_sep; induction s as [|c s IH]; intros b H; simpl in *.
  - reflexivity.
  - apply andb_prop in H as [Hc Hs].
    apply negb_true_iff in Hc. rewrite Hc. now rewrite (IH false Hs).
Qed.

Lemma sub_seps_no_sep (s : string) (in_sep : bool) :
  no_sep s -> Re.sub_seps in_sep s = s.
Proof.
  unfold no_sep; revert in_sep; induction s as [|c s IH]; intros b H; simpl in *.
  - reflexivity.
  - apply andb_prop in H as [Hc Hs].
    apply negb_true_iff in Hc. rewrite Hc. now rewrite (IH false Hs).
Qed.

Lemma no_sep_lower (s : string) : no_sep s -> no_sep (lower s).
Proof. apply sforall_smap, char_lower_keeps_word. Qed.

Lemma no_sep_capitalize (s : string) : no_sep s -> no_sep (capitalize s).
Proof.
  destruct s as [|c s]; [trivial|]. unfold no_sep; simpl.
  intros H; apply andb_prop in H as [Hc Hs].
  rewrite (char_upper_keeps_word _ Hc). now apply no_sep_lower.
Qed.

(** Every piece that the split returns is free of separators. *)
Lemma split_pieces_no_sep (s : string) (in_sep : bool) :
  Forall no_sep (Re.split_seps in_sep s).
Proof.
  revert in_sep; induction s as [|c s IH]; intros b; simpl.
  - now constructor.
  - destruct (Re.is_sep c) eqn:Hc.
    + destruct b; [apply IH|]. constructor; [reflexivity | apply IH].
    + specialize (IH false). destruct (Re.split_seps false s) as [|w ws].
      * constructor; [|constructor]. unfold no_sep; simpl. now rewrite Hc.
      * inversion IH; subst. constructor; [|assumption].
        unfold no_sep in *; simpl. now rewrite Hc.
Qed.

Lemma no_sep_join (words : list string) :
  Forall no_sep words -> no_sep (join_words words).
Proof.
  induction 1 as [|w ws Hw _ IH]; [reflexivity|].
  unfold no_sep in *; simpl. now rewrite sforall_append, Hw, IH.
Qed.

Lemma no_sep_pascal (s : string) : no_sep (_to_pascal_case s).
Proof.
  apply no_sep_join, Forall_map.
  eapply Forall_impl; [|apply split_pieces_no_sep].
  intros w; apply no_sep_capitalize.
Qed.

Lemma pascal_no_sep (s : string) : no_sep s -> _to_pascal_case s = capitalize s.
Proof.
  intros H. unfold _to_pascal_case. rewrite split_no_sep by assumption.
  simpl. apply append_nil_r.
Qed.

Lemma capitalize_lower (s : string) : capitalize (lower s) = capitalize s.
Proof.
  destruct s as [|c s]; [reflexivity|]. unfold lower; simpl.
  f_equal; [by_cases_on_char c | apply lower_idem].
Qed.

Lemma capitalize_idem (s : string) : capitalize (capitalize s) = capitalize s.
Proof.
  destruct s as [|c s]; [reflexivity|]. simpl.
  f_equal; [by_cases_on_char c | apply lower_idem].
Qed.

(** The round trip keeps the first capital of the Pascal form only. *)
Lemma pascal_kebab_pascal (s : string) :
  _to_pascal_case (_to_kebab_case (_to_pascal_case s)) = capitalize (_to_pascal_case s).
Proof.
  pose proof (no_sep_pascal s) as H.
  unfold _to_kebab_case. rewrite sub_seps_no_sep by now apply no_sep_lower.
  rewrite pascal_no_sep by now apply no_sep_lower.
  apply capitalize_lower.
Qed.

End NameFacts.

(** C9, as the claim states it, fails: the kebab form of a Pascal-case
    identifier has lost the word boundaries, and the second Pascal conversion
    cannot restore the inner capitals. *)
Lemma pascal_round_trip_loses_words :
  ProjectRenamer._to_pascal_case "my_old_project" = "MyOldProject"
  /\ ProjectRenamer._to_pascal_case
       (ProjectRenamer._to_kebab_case (ProjectRenamer._to_pascal_case "my_old_project"))
     = "Myoldproject"
  /\ ProjectRenamer._to_pascal_case
       (ProjectRenamer._to_kebab_case (ProjectRenamer._to_pascal_case "my_old_project"))
     <> ProjectRenamer._to_pascal_case "my_old_project".
Proof. repeat split; vm_compute; congruence. Qed.

(** C9 (amended): for every identifier [s] of ASCII characters that is one
    word, holding no hyphen, underscore or whitespace (a word of ASCII
    letters and digits is one),
    [toPascalCase(toKebabCase(toPascalCase(s))) = toPascalCase(s)]. *)
Theorem pascal_round_trip_one_word (s : string) :
  is_ascii s = true ->
  Re.no_sep s ->
  ProjectRenamer._to_pascal_case
    (ProjectRenamer._to_kebab_case (ProjectRenamer._to_pascal_case s))
  = ProjectRenamer._to_pascal_case s.
Proof.
  intros _ H. rewrite NameFacts.pascal_kebab_pascal.
  rewrite (NameFacts.pascal_no_sep s H). apply NameFacts.capitalize_idem.
Qed.

Lemma pascal_round_trip_one_word_witness :
  is_ascii "myProject2" = true
  /\ Re.no_sep "myProject2"
  /\ ProjectRenamer._to_pascal_case
       (ProjectRenamer._to_kebab_case (ProjectRenamer._to_pascal_case "myProject2"))
     = ProjectRenamer._to_pascal_case "myProject2".
Proof.
  split; [reflexivity|].
  split; [reflexivity | apply (pascal_round_trip_one_word "myProject2"); reflexivity].
Defined.

(** ** project_renamer.py: the generated name *)

Module GenerateFacts.
Import ProjectRenamer.

Lemma char_lower_of_upper (c : ascii) : char_lower (char_upper c) = char_lower c.
Proof. by_cases_on_char c. Qed.

Lemma lower_upper (s : string) : lower (upper s) = lower s.
Proof.
  induction s as [|c s IH]; [reflexivity|].
  unfold lower, upper in *. cbn [smap]. now rewrite char_lower_of_upper, IH.
Qed.

Lemma lower_title_from (s : string) : forall b, lower (title_from b s) = lower s.
Proof.
  induction s as [|c s IH]; intros b; [reflexivity|].
  cbn [title_from]. unfold lower in *. cbn [smap]. rewrite IH.
  destruct b; now rewrite ?char_lower_idem, ?char_lower_of_upper.
Qed.

(** For ASCII names the tests of [_generate_new_name] on the upper and on
    the title fold never decide: two names that agree under one of these
    folds agree under the lower fold, which is tested first and answers with
    the lower-case form of the new name. *)
Lemma upper_and_title_tests_never_decide (self : ProjectRenamer) (n : string) :
  is_ascii n = true -> is_ascii (old_name (config self)) = true ->
  _generate_new_name self n
  = if String.eqb n (old_name (config self)) then new_name (config self)
    else if String.eqb (lower n) (lower (old_name (config self)))
    then lower (new_name (config self))
    else if String.eqb (_to_snake_case n) (_to_snake_case (old_name (config self)))
    then _to_snake_case (new_name (config self))
    else if String.eqb (_to_pascal_case n) (_to_pascal_case (old_name (config self)))
    then _to_pascal_case (new_name (config self))
    else new_name (config self).
Proof.
  intros _ _. unfold _generate_new_name. cbv zeta.
  destruct (String.eqb n _); [reflexivity|].
  destruct (String.eqb (lower n) _) eqn:Hlower; [reflexivity|].
  destruct (String.eqb (upper n) _) eqn:Hupper.
  - apply String.eqb_eq in Hupper. apply (f_equal lower) in Hupper.
    rewrite !lower_upper in Hupper. rewrite Hupper, String.eqb_refl in Hlower.
    discriminate.
  - destruct (String.eqb (title n) _) eqn:Htitle; [|reflexivity].
    apply String.eqb_eq in Htitle. apply (f_equal lower) in Htitle.
    unfold title in Htitle. rewrite !lower_title_from in Htitle.
    rewrite Htitle, String.eqb_refl in Hlower. discriminate.
Qed.

End GenerateFacts.

(** C5: [_generate_new_name] does not fold the new name to the case of the
    name it is given.  With old [MyOldProject] and new [MyNewProject], the
    all-upper name [MYOLDPROJECT] and the title-case name [Myoldproject]
    both come back as the all-lower [mynewproject], where the specification
    gives [MYNEWPROJECT] and [Mynewproject]: the test on the lower fold
    compares the two names folded, so it holds of every name that matches
    under the upper or the title fold, and the branches for these are never
    reached.  The exact match, the all-lower name and the snake-case
    example [my_old_project] resolve as the specification says. *)
Theorem generate_new_name_folds_to_lower_only :
  forall project_path backup_enabled dry_run file_types exclude_patterns
         case_sensitive preserve_case patterns,
    let self :=
      ProjectRenamer.mkRenamer
        (ProjectRenamer.mkConfig "MyOldProject" "MyNewProject" project_path
           backup_enabled dry_run file_types exclude_patterns
           case_sensitive preserve_case)
        patterns in
    ProjectRenamer._generate_new_name self "MYOLDPROJECT" = "mynewproject"
    /\ Spec.generateNewName "MYOLDPROJECT" "MyOldProject" "MyNewProject" = "MYNEWPROJECT"
    /\ ProjectRenamer._generate_new_name self "Myoldproject" = "mynewproject"
    /\ Spec.generateNewName "Myoldproject" "MyOldProject" "MyNewProject" = "Mynewproject"
    /\ ProjectRenamer._generate_new_name self "MyOldProject" = "MyNewProject"
    /\ Spec.generateNewName "MyOldProject" "MyOldProject" "MyNewProject" = "MyNewProject"
    /\ ProjectRenamer._generate_new_name self "myoldproject" = "mynewproject"
    /\ Spec.generateNewName "myoldproject" "MyOldProject" "MyNewProject" = "mynewproject"
    /\ ProjectRenamer._generate_new_name self "my_old_project" = "my_new_project"
    /\ Spec.generateNewName "my_old_project" "MyOldProject" "MyNewProject"
       = "my_new_project".
Proof. intros. repeat split. Qed.

(** The directory predicate compares the Pascal form of the name with itself:
    it holds of every directory. *)
Lemma should_rename_directory_always (self : ProjectRenamer.ProjectRenamer)
    (dir_path : Path) :
  ProjectRenamer._should_rename_directory self dir_path = true.
Proof.
  unfold ProjectRenamer._should_rename_directory.
  destruct (String.eqb (name dir_path) _); [reflexivity|].
  destruct (String.eqb (ProjectRenamer._to_snake_case (name dir_path)) _); [reflexivity|].
  now rewrite String.eqb_refl.
Qed.

(** C2 (defect of the code): the claim asks that a directory is selected
    exactly when its name matches the old identifier, verbatim or in snake or
    Pascal form.  For the old name [MyOldProject] the directory [src] matches
    in none of the three ways, and [_should_rename_directory] selects it; the
    file predicate, which compares with the old name, does not select a file
    of that name. *)
Theorem should_rename_directory_selects_unrelated :
  forall project_path backup_enabled dry_run file_types exclude_patterns
         case_sensitive preserve_case patterns,
    let self :=
      ProjectRenamer.mkRenamer
        (ProjectRenamer.mkConfig "MyOldProject" "MyNewProject" project_path
           backup_enabled dry_run file_types exclude_patterns
           case_sensitive preserve_case)
        patterns in
    Spec.shouldRename "src" "MyOldProject" = false
    /\ ProjectRenamer._should_rename_directory self ["proj"; "src"] = true
    /\ ProjectRenamer._should_rename_file self ["proj"; "src"] = false.
Proof. intros. repeat split. Qed.

(** ** The replacement templates *)

Module TemplateFacts.
Import ReTemplate.

(** A template without backslash parses, to the characters it holds. *)
Lemma parse_plain (repl : string) :
  Re.plain_template repl = true ->
  exists pieces,
    parse_template repl = Return pieces /\ forall matched, expand pieces matched = repl.
Proof.
  unfold Re.plain_template, parse_template. intros H. apply negb_true_iff in H.
  induction repl as [|c repl IH].
  - exists []. now split.
  - cbn [sexists] in H. apply orb_false_elim in H as [Hc H].
    destruct (IH H) as (pieces & E & Hexp).
    exists (Lit c :: pieces). cbn [parse_from]. rewrite Ascii.eqb_sym, Hc, E. split.
    + reflexivity.
    + intros matched. cbn [expand]. now rewrite Hexp.
Qed.

Lemma sub_with_ext (m : string -> option nat) (f g : string -> string) :
  (forall x, f x = g x) ->
  forall s k, Re.sub_with m f k s = Re.sub_with m g k s.
Proof.
  intros Hfg. induction s as [|c s IH]; intros k; [reflexivity|].
  cbn [Re.sub_with]. destruct k as [|k]; [|apply IH].
  destruct (m (String c s)) as [[|n]|]; now rewrite ?Hfg, IH.
Qed.

(** With a template without backslash, [re.sub] raises nothing and inserts
    the template as it is. *)
Lemma sub_plain (m : string -> option nat) (repl s : string) :
  Re.plain_template repl = true ->
  sub m repl s = Return (Re.sub_with m (fun _ => repl) 0 s).
Proof.
  intros H. destruct (parse_plain repl H) as (pieces & E & Hexp).
  unfold sub. rewrite E. f_equal. now apply sub_with_ext.
Qed.

Lemma scan_replace_as_sub_with (here : string -> bool) (n : nat) (r : string) :
  forall s k,
    scan_replace here (S n) r k s
    = Re.sub_with (fun t => if here t then Some (S n) else None) (fun _ => r) k s.
Proof.
  induction s as [|c s IH]; intros k; [reflexivity|].
  destruct k as [|k]; cbn [scan_replace Re.sub_with]; [|apply IH].
  destruct (here (String c s)).
  - rewrite Nat.sub_1_r. cbn [Nat.pred]. now rewrite IH.
  - now rewrite IH.
Qed.

Lemma pattern_sub_plain (p : Re.Pattern) (repl s : string) :
  Re.plain_template repl = true ->
  pattern_sub p repl s = Return (Re.sub p repl s).
Proof.
  intros H. destruct (parse_plain repl H) as (pieces & E & Hexp).
  unfold pattern_sub, Re.sub. rewrite E. f_equal.
  destruct (Re.literal p) as [|a l]; [now rewrite Hexp|].
  cbn [length]. rewrite scan_replace_as_sub_with. now apply sub_with_ext.
Qed.

(** A template with a backslash before an ASCII letter that names no
    escape, and a template that ends in a single backslash, do not parse. *)
Lemma parse_bad_escape (text rest : string) (c : ascii) :
  Re.plain_template text = true ->
  char_iscased c = true -> escape_char c = None -> Ascii.eqb c "g" = false ->
  parse_template (text ++ String backslash (String c rest)) = Raise ReError.
Proof.
  unfold Re.plain_template, parse_template. intros H Hc He Hg. apply negb_true_iff in H.
  induction text as [|x text IH].
  - cbn [append parse_from]. rewrite Ascii.eqb_refl. cbn [parse_from].
    rewrite Hg, He, Hc.
    replace (Ascii.eqb c "0") with false by (revert Hc; by_cases_on_char c).
    replace (char_isdigit c) with false by (revert Hc; by_cases_on_char c).
    reflexivity.
  - cbn [sexists] in H. apply orb_false_elim in H as [Hx H].
    cbn [append parse_from]. rewrite Ascii.eqb_sym, Hx. now rewrite (IH H).
Qed.

Lemma parse_trailing_backslash (text : string) :
  Re.plain_template text = true ->
  parse_template (text ++ String backslash EmptyString) = Raise ReError.
Proof.
  unfold Re.plain_template, parse_template. intros H. apply negb_true_iff in H.
  induction text as [|x text IH].
  - reflexivity.
  - cbn [sexists] in H. apply orb_false_elim in H as [Hx H].
    cbn [append parse_from]. rewrite Ascii.eqb_sym, Hx. now rewrite (IH H).
Qed.

(** What the parser makes of some templates, for the match [old]: the
    escapes of one character, an octal escape, the whole match by number, a
    backslash kept before a character that is no letter; and the templates
    it refuses. *)
Lemma template_examples :
  sub (Rx.literally "old") "new" "an old name" = Return "an new name"
  /\ sub (Rx.literally "old") "<\g<0>>" "an old name" = Return "an <old> name"
  /\ sub (Rx.literally "old") "a\\b" "old" = Return "a\b"
  /\ sub (Rx.literally "old") "a\101b" "old" = Return "aAb"
  /\ sub (Rx.literally "old") "a\.b" "old" = Return "a\.b"
  /\ sub (Rx.literally "old") "my\project" "nothing" = Raise ReError
  /\ sub (Rx.literally "old") "C:\" "nothing" = Raise ReError
  /\ sub (Rx.literally "old") "\1" "nothing" = Raise ReError
  /\ sub (Rx.literally "old") "\g<name>" "nothing" = Raise IndexError.
Proof. repeat split. Qed.

End TemplateFacts.

(** ** project_renamer.py: the content rewrite *)

Module RewriteFacts.
Import ProjectRenamer.

Lemma scan_replace_no_match (here : string -> bool) (n : nat) (r s : string) :
  (fix nowhere (s : string) : bool :=
     negb (here s) && match s with String _ t => nowhere t | EmptyString => true end) s = true ->
  scan_replace here n r 0 s = s.
Proof.
  induction s as [|c s IH]; intros H; [reflexivity|].
  apply andb_prop in H as [Hc Hs]. apply negb_true_iff in Hc.
  simpl. rewrite Hc. now rewrite IH.
Qed.

(** A pattern that is found nowhere leaves the text as it is. *)
Lemma sub_no_match (p : Re.Pattern) (repl s : string) :
  Re.search p s = false -> Re.sub p repl s = s.
Proof.
  intros H. unfold Re.sub.
  destruct (Re.literal p) as [|a l] eqn:Hl.
  - destruct s; simpl in H; unfold Re.match_here in H; rewrite Hl in H;
      destruct (Re.ignorecase p); discriminate.
  - apply scan_replace_no_match.
    induction s as [|c s IH]; simpl in *.
    + apply orb_false_elim in H as [H _]. now rewrite H.
    + apply orb_false_elim in H as [H1 H2]. rewrite H1. simpl. now apply IH.
Qed.

Lemma rewrite_no_match (new : string) (ps : list Re.Pattern) (s : string) :
  forallb (fun p => negb (Re.search p s)) ps = true ->
  fold_left (fun m p => Re.sub p new m) ps s = s.
Proof.
  induction ps as [|p ps IH]; intros H; [reflexivity|].
  simpl in *. apply andb_prop in H as [Hp Hps]. apply negb_true_iff in Hp.
  rewrite sub_no_match by assumption. now apply IH.
Qed.

(** With a new name without backslash the loop raises nothing and inserts
    the new name as it is. *)
Lemma rewrite_plain (self : ProjectRenamer) (T : string) :
  Re.plain_template (new_name (config self)) = true ->
  rewrite self T
  = Return (fold_left (fun m p => Re.sub p (new_name (config self)) m) (patterns self) T).
Proof.
  intros H. unfold rewrite. generalize T.
  induction (patterns self) as [|p ps IH]; intros T0; [reflexivity|].
  cbn [fold_left bind]. rewrite (TemplateFacts.pattern_sub_plain p _ T0 H). apply IH.
Qed.

End RewriteFacts.

(** C6, as the claim states it, fails: with old [ab] and new [a], which differ
    and of which the new one does not contain the old one, each of the four
    patterns removes one [b] after the [a], so a second rewrite goes on where
    the first one stopped. *)
Lemma rewrite_not_idempotent :
  let c := Examples.default_config "ab" "a" ["proj"] in
  let self := Examples.renamer_of c in
  ProjectRenamer._compile_patterns c
    = Return [Re.mkPattern "ab" true; Re.mkPattern "Ab" true;
              Re.mkPattern "ab" true; Re.mkPattern "ab" true]
  /\ String.eqb "ab" "a" = false
  /\ contains "ab" "a" = false
  /\ ProjectRenamer.rewrite self "abbbbbbb" = Return "abbb"
  /\ bind (ProjectRenamer.rewrite self "abbbbbbb") (ProjectRenamer.rewrite self)
     = Return "a"
  /\ bind (ProjectRenamer.rewrite self "abbbbbbb") (ProjectRenamer.rewrite self)
     <> ProjectRenamer.rewrite self "abbbbbbb".
Proof. repeat split; vm_compute; congruence. Qed.

(** C6 (amended): for all text [T] and every identifier pair, the new name
    being a replacement without backslash, the rewrite returns a text, and
    once that text holds no match of any of the compiled patterns (the old
    name and its Pascal, snake and kebab forms), rewriting it again yields
    the same text. *)
Theorem rewrite_idempotent_once_clean (self : ProjectRenamer.ProjectRenamer) (T : string) :
  Re.plain_template (ProjectRenamer.new_name (ProjectRenamer.config self)) = true ->
  exists T1,
    ProjectRenamer.rewrite self T = Return T1
    /\ (forallb (fun p => negb (Re.search p T1)) (ProjectRenamer.patterns self) = true ->
        ProjectRenamer.rewrite self T1 = Return T1).
Proof.
  intros Hplain. rewrite (RewriteFacts.rewrite_plain self T Hplain).
  eexists. split; [reflexivity|]. intros H.
  rewrite (RewriteFacts.rewrite_plain self _ Hplain). f_equal.
  now apply RewriteFacts.rewrite_no_match.
Qed.

Lemma rewrite_idempotent_once_clean_witness :
  let self := Examples.renamer_of (Examples.default_config "MyOldProject" "MyNewProject" ["proj"]) in
  let T := "class MyOldProject: my_old_project, myoldproject" in
  Re.plain_template "MyNewProject" = true
  /\ exists T1,
       ProjectRenamer.rewrite self T = Return T1
       /\ (forallb (fun p => negb (Re.search p T1)) (ProjectRenamer.patterns self) = true ->
           ProjectRenamer.rewrite self T1 = Return T1).
Proof.
  split; [reflexivity|].
  apply (rewrite_idempotent_once_clean
           (Examples.renamer_of (Examples.default_config "MyOldProject" "MyNewProject" ["proj"]))
           "class MyOldProject: my_old_project, myoldproject");
    reflexivity.
Defined.

(** ** file_handlers.py: the structured handlers *)

(** C4, as the claim states it, fails: a [package.json] whose text parses to
    a list holding the string [name] makes [_handle_package_json] assign to
    an index of that list, and the [TypeError] leaves [process]; only a parse
    error is caught. *)
Lemma json_process_raises_on_parsed_list :
  Json.loads (Examples.text "[`name`]") = Return (PList [PStr "name"])
  /\ FileHandlers.JSONFileHandler_process Json.loads Json.dumps Examples.unused_repr
       (FileHandlers.mkHandler "old-app" "new-app") ["proj"; "package.json"]
       (Examples.text "[`name`]")
     = Raise TypeError.
Proof. split; reflexivity. Qed.

(** C4 (amended): for every file path and every content string, when the
    content fails to parse in the handler's format, [process] of the JSON and
    of the YAML handler raises nothing and returns exactly the content with
    every literal occurrence of [old_name] replaced by [new_name]. *)
Theorem structured_parse_failure_falls_back
    (json_loads : string -> Result pyval) (json_dumps : bool -> pyval -> string)
    (yaml_safe_load : string -> Result pyval) (yaml_dump : bool -> pyval -> string)
    (repr_of : pyval -> string)
    (self : FileHandlers.BaseFileHandler) (file_path : Path) (content : string) :
  (json_loads content = Raise JSONDecodeError ->
   FileHandlers.JSONFileHandler_process json_loads json_dumps repr_of self file_path content
   = Return (PStr (replace (FileHandlers.old_name self) (FileHandlers.new_name self) content)))
  /\ (yaml_safe_load content = Raise YAMLError ->
      FileHandlers.YAMLFileHandler_process yaml_safe_load yaml_dump self file_path content
      = Return (PStr (replace (FileHandlers.old_name self) (FileHandlers.new_name self) content))).
Proof.
  split; intros H.
  - unfold FileHandlers.JSONFileHandler_process. now rewrite H.
  - unfold FileHandlers.YAMLFileHandler_process. now rewrite H.
Qed.

Lemma structured_parse_failure_falls_back_witness :
  let self := FileHandlers.mkHandler "old-app" "new-app" in
  (Json.loads (Examples.text "{`name`: `old-app`, ") = Raise JSONDecodeError
   /\ FileHandlers.JSONFileHandler_process Json.loads Json.dumps Examples.unused_repr
        self ["proj"; "package.json"] (Examples.text "{`name`: `old-app`, ")
      = Return (PStr (Examples.text "{`name`: `new-app`, ")))
  /\ (Examples.yaml_safe_load_flow (Examples.text "[`old-app`, ") = Raise YAMLError
      /\ FileHandlers.YAMLFileHandler_process Examples.yaml_safe_load_flow
           Examples.unused_dump self ["proj"; "ci.yml"] (Examples.text "[`old-app`, ")
         = Return (PStr (Examples.text "[`new-app`, "))).
Proof.
  split; (split; [reflexivity|]).
  - apply (proj1 (structured_parse_failure_falls_back Json.loads Json.dumps
                    Examples.yaml_safe_load_flow Examples.unused_dump Examples.unused_repr
                    (FileHandlers.mkHandler "old-app" "new-app") ["proj"; "package.json"]
                    (Examples.text "{`name`: `old-app`, "))).
    reflexivity.
  - apply (proj2 (structured_parse_failure_falls_back Json.loads Json.dumps
                    Examples.yaml_safe_load_flow Examples.unused_dump Examples.unused_repr
                    (FileHandlers.mkHandler "old-app" "new-app") ["proj"; "ci.yml"]
                    (Examples.text "[`old-app`, "))).
    reflexivity.
Defined.

(** For a file that is none of the manifests, [process] hands back what
    [_replace_in_json_data] returns. *)
Lemma json_general_result
    (json_loads : string -> Result pyval) (json_dumps : bool -> pyval -> string)
    (repr_of : pyval -> string)
    (self : FileHandlers.BaseFileHandler) (file_path : Path) (content : string) (data : pyval) :
  existsb (String.eqb (name file_path))
          ["package.json"; "tsconfig.json"; "jsconfig.json"; "angular.json"] = false ->
  json_loads content = Return data ->
  FileHandlers.JSONFileHandler_process json_loads json_dumps repr_of self file_path content
  = Return (FileHandlers._replace_in_json_data data
              (FileHandlers.old_name self) (FileHandlers.new_name self)).
Proof.
  intros Hn Hd. unfold FileHandlers.JSONFileHandler_process. rewrite Hd. simpl in *.
  destruct (String.eqb (name file_path) "package.json"); [discriminate|].
  destruct (String.eqb (name file_path) "tsconfig.json"); [discriminate|].
  destruct (String.eqb (name file_path) "jsconfig.json"); [discriminate|].
  destruct (String.eqb (name file_path) "angular.json"); [discriminate|].
  reflexivity.
Qed.

(** What [_replace_in_json_data] does to each kind of value: the keys of a
    dict stay in their order, a string is rewritten, the other leaves stay. *)
Lemma replace_in_json_data_by_kind (old new : string) :
  let f := fun data => FileHandlers._replace_in_json_data data old new in
  (forall items, exists items',
      f (PDict items) = PDict items'
      /\ map fst items' = map fst items
      /\ map snd items' = map f (map snd items))
  /\ (forall items, f (PList items) = PList (map f items))
  /\ (forall s, f (PStr s) = PStr (replace old new s))
  /\ f PNone = PNone
  /\ (forall b, f (PBool b) = PBool b)
  /\ (forall z, f (PInt z) = PInt z)
  /\ (forall r, f (PFloat r) = PFloat r).
Proof.
  cbv zeta. repeat split.
  intros items. eexists. split; [reflexivity|].
  split; induction items as [|[k v] items IH]; simpl in *; [reflexivity| |reflexivity|];
    now rewrite IH.
Qed.

(** C7 (defect of the code): the claim asks for a serialized JSON string.  For
    [data.json], which is no manifest, [process] returns the rewritten object
    itself, here a dict, where the manifest branches return [json.dumps] of
    it; the string leaves are rewritten, the keys keep their order and the
    number is unchanged. *)
Theorem json_general_returns_object_not_text :
  let self := FileHandlers.mkHandler "old-app" "new-app" in
  let content := Examples.text "{`title`: `the old-app tool`, `count`: 3}" in
  let result :=
    FileHandlers.JSONFileHandler_process Json.loads Json.dumps Examples.unused_repr
      self ["proj"; "data.json"] content in
  result = Return (PDict [("title", PStr "the new-app tool"); ("count", PInt 3)])
  /\ (forall s : string, result <> Return (PStr s))
  /\ FileHandlers.JSONFileHandler_process Json.loads Json.dumps Examples.unused_repr
       self ["proj"; "package.json"] content
     = Return (PStr (Json.dumps false (PDict [("title", PStr "the old-app tool"); ("count", PInt 3)]))).
Proof. repeat split. intros s H. vm_compute in H. discriminate. Qed.

(** ** file_handlers.py: the Python handler *)

Module PythonFacts.
Import FileHandlers.

Section SubWith.
Variable m : string -> option nat.
Variable repl : string -> string.

Lemma sub_with_skip (s : string) :
  forall k, Re.sub_with m repl k s = Re.sub_with m repl 0 (drop k s).
Proof.
  induction s as [|c s IH]; intros [|k]; try reflexivity.
  simpl. apply IH.
Qed.

Lemma sub_with_match (s : string) (n : nat) :
  m s = Some (S n) -> s <> EmptyString ->
  Re.sub_with m repl 0 s = repl (take (S n) s) ++ Re.sub_with m repl 0 (drop (S n) s).
Proof.
  intros H Hs. destruct s as [|c s]; [congruence|].
  cbn [Re.sub_with]. rewrite H. now rewrite sub_with_skip.
Qed.

Lemma sub_with_quiet_prefix (first rest : string) :
  Re.quiet_prefix m first rest = true ->
  Re.sub_with m repl 0 (first ++ rest) = first ++ Re.sub_with m repl 0 rest.
Proof.
  induction first as [|c first IH]; intros H; [reflexivity|].
  cbn [Re.quiet_prefix] in H. cbn [append Re.sub_with].
  change (String c (first ++ rest)) with (String c first ++ rest).
  destruct (m (String c first ++ rest)) as [[|n]|]; try discriminate;
    cbn [append]; now rewrite IH.
Qed.

Lemma sub_with_no_match (s : string) :
  Re.search_with m s = false -> Re.sub_with m repl 0 s = s.
Proof.
  induction s as [|c s IH]; intros H; [reflexivity|].
  cbn [Re.search_with] in H. cbn [Re.sub_with].
  destruct (m (String c s)) as [[|n]|]; try discriminate; now rewrite IH.
Qed.

(** A replacement that returns every match as it is leaves the text alone. *)
Lemma sub_with_identity :
  (forall t n, m t = Some (S n) -> repl (take (S n) t) = take (S n) t) ->
  forall s k, Re.sub_with m repl k s = drop k s.
Proof.
  intros Hid. induction s as [|c s IH]; intros k.
  - now destruct k.
  - destruct k as [|k]; [|apply IH].
    cbn [Re.sub_with]. destruct (m (String c s)) as [[|n]|] eqn:Hm.
    + now rewrite IH.
    + rewrite (Hid _ _ Hm), IH. cbn [take]. cbn [append]. now rewrite take_drop.
    + now rewrite IH.
Qed.

End SubWith.

Lemma star_run (cls : ascii -> bool) (k : Rx.matcher) (run rest : string) (n : nat) :
  sforall cls run = true ->
  match rest with String c _ => cls c = false | EmptyString => True end ->
  k rest = Some n ->
  Rx.star cls k (run ++ rest) = Some (length run + n).
Proof.
  intros Hrun Hrest Hk. induction run as [|c run IH]; simpl in *.
  - destruct rest as [|c r]; [assumption|]. simpl. now rewrite Hrest.
  - apply andb_prop in Hrun as [Hc Hrun]. now rewrite Hc, IH.
Qed.

Lemma lazy_to_quote (v post : string) (q : ascii) :
  sforall (fun c => Rx.not_newline c && negb (Rx.is_quote c)) v = true ->
  Rx.is_quote q = true ->
  Rx.lazy Rx.not_newline (Rx.one Rx.is_quote Rx.done) (v ++ String q post)
  = Some (length v + 1).
Proof.
  intros Hv Hq. induction v as [|c v IH]; simpl in *.
  - now rewrite Hq.
  - apply andb_prop in Hv as [Hc Hv]. apply andb_prop in Hc as [Hnl Hnq].
    apply negb_true_iff in Hnq. rewrite Hnq, Hnl, IH by assumption. reflexivity.
Qed.

Lemma quote_is_not_space (c : ascii) : Rx.is_quote c = true -> char_isspace c = false.
Proof. by_cases_on_char c. Qed.

Lemma quote_starts_no_keyword (c : ascii) :
  Rx.is_quote c = true -> Ascii.eqb "i" c = false /\ Ascii.eqb "f" c = false.
Proof. by_cases_on_char c; intros _; split; reflexivity. Qed.

(** The version pattern matches the whole assignment, whatever follows. *)
Lemma version_pattern_matches (ws1 ws2 v post : string) (q1 q2 : ascii) :
  sforall char_isspace ws1 = true -> sforall char_isspace ws2 = true ->
  Rx.is_quote q1 = true -> Rx.is_quote q2 = true ->
  sforall (fun c => Rx.not_newline c && negb (Rx.is_quote c)) v = true ->
  version_pattern (Spec.version_assignment ws1 ws2 q1 v q2 ++ post)
  = Some (length (Spec.version_assignment ws1 ws2 q1 v q2)).
Proof.
  intros H1 H2 Hq1 Hq2 Hv.
  unfold Spec.version_assignment, version_pattern.
  rewrite !append_assoc. unfold Rx.lit at 1.
  rewrite startswith_refl, drop_append.
  rewrite (star_run _ _ ws1 _ (1 + (length ws2 + (1 + (length v + 1))))); trivial.
  - rewrite !length_append. simpl. rewrite !length_append. simpl. f_equal.
  - reflexivity.
  - unfold Rx.lit. simpl.
    rewrite (star_run _ _ ws2 _ (1 + (length v + 1))); trivial.
    + simpl. now apply quote_is_not_space.
    + rewrite append_assoc. unfold Rx.one. simpl. rewrite Hq1. now rewrite lazy_to_quote.
Qed.

Lemma replace_python_import_other (self : BaseFileHandler) (c : ascii) (t : string) :
  Ascii.eqb "i" c = false -> Ascii.eqb "f" c = false ->
  _replace_python_import self (String c t) = String c t.
Proof.
  intros Hi Hf. unfold _replace_python_import. cbn [startswith]. now rewrite Hi, Hf.
Qed.

Lemma last_joinpath (dir : Path) (n : string) : name (joinpath dir n) = n.
Proof. unfold name, joinpath. apply last_last. Qed.

End PythonFacts.

Module InitFileFacts.
Import FileHandlers PythonFacts.

Lemma take_append (a b : string) : take (length a) (a ++ b) = a.
Proof. induction a as [|x a IH]; simpl; [now destruct b | now rewrite IH]. Qed.

(** The substitution of the version pattern at the first assignment. *)
Lemma version_sub_at_assignment (self : BaseFileHandler)
    (pre ws1 ws2 v post : string) (q1 q2 : ascii) :
  sforall char_isspace ws1 = true -> sforall char_isspace ws2 = true ->
  Rx.is_quote q1 = true -> Rx.is_quote q2 = true ->
  sforall (fun c => Rx.not_newline c && negb (Rx.is_quote c)) v = true ->
  Re.quiet_prefix version_pattern pre (Spec.version_assignment ws1 ws2 q1 v q2 ++ post) = true ->
  Re.sub_with version_pattern (fun _ => version_line self) 0
    (pre ++ Spec.version_assignment ws1 ws2 q1 v q2 ++ post)
  = pre ++ version_line self
        ++ Re.sub_with version_pattern (fun _ => version_line self) 0 post.
Proof.
  intros H1 H2 Hq1 Hq2 Hv Hpre.
  rewrite sub_with_quiet_prefix by assumption. f_equal.
  pose proof (version_pattern_matches ws1 ws2 v post q1 q2 H1 H2 Hq1 Hq2 Hv) as Hm.
  remember (Spec.version_assignment ws1 ws2 q1 v q2) as V eqn:HV.
  assert (exists n, length V = S n) as [n Hn].
  { subst V. unfold Spec.version_assignment. simpl. eauto. }
  rewrite Hn in Hm.
  rewrite (sub_with_match _ _ _ n Hm).
  - f_equal. rewrite <- Hn. now rewrite drop_append.
  - subst V. unfold Spec.version_assignment. simpl. discriminate.
Qed.

Lemma all_matcher_starts_with_underscore (old t : string) (n : nat) :
  nth 2 (python_patterns (mkHandler old EmptyString)) Rx.done t = Some (S n) ->
  exists r, t = String "_" r.
Proof.
  simpl. unfold Rx.lit at 1. intros H.
  destruct (startswith "__all__" t) eqn:Hs; [|discriminate].
  apply startswith_split in Hs. simpl in Hs. eauto.
Qed.

Lemma docstring_matcher_starts_with_quote (old t : string) (n : nat) :
  nth 3 (python_patterns (mkHandler old EmptyString)) Rx.done t = Some (S n) ->
  exists c r, t = String c r /\ Rx.is_quote c = true.
Proof.
  simpl. unfold Rx.one at 1. intros H.
  destruct t as [|c r]; [discriminate|].
  destruct (Rx.is_quote c) eqn:Hc; [eauto | discriminate].
Qed.

(** The passes of [process] after [_handle_init_file] leave a text alone in
    which they find no reference to the old name. *)
Lemma later_passes_inert (self : BaseFileHandler) (content : string) :
  Spec.no_reference self content = true ->
  fold_left
    (fun modified_content pattern =>
       Re.sub_with pattern (_replace_python_import self) 0 modified_content)
    (python_patterns self) (Spec.definitions_rewritten self content)
  = content.
Proof.
  unfold Spec.no_reference. intros H.
  apply andb_prop in H as [_ H]. simpl in H.
  apply andb_prop in H as [Hclass H]. apply andb_prop in H as [Hdef H].
  apply andb_prop in H as [Himport H]. apply andb_prop in H as [Hfrom _].
  apply negb_true_iff in Hclass, Hdef, Himport, Hfrom.
  unfold Spec.definitions_rewritten.
  rewrite (sub_with_no_match _ _ content Hclass).
  rewrite (sub_with_no_match _ _ content Hdef).
  destruct self as [old new]. cbn [old_name new_name] in *.
  cbn [python_patterns fold_left old_name].
  rewrite (sub_with_no_match _ _ content Himport).
  rewrite (sub_with_no_match _ _ content Hfrom).
  rewrite sub_with_identity.
  - rewrite sub_with_identity; [reflexivity|].
    intros t n Hm.
    destruct (all_matcher_starts_with_underscore old t n Hm) as [r ->].
    cbn [take]. now apply replace_python_import_other.
  - intros t n Hm.
    destruct (docstring_matcher_starts_with_quote old t n Hm) as (c & r & -> & Hc).
    destruct (quote_starts_no_keyword c Hc) as [Hi Hf].
    cbn [take]. now apply replace_python_import_other.
Qed.

(** With a new name without backslash the templates of [_handle_definitions]
    are inserted as they are, and [process] raises nothing. *)
Lemma handle_definitions_plain (self : BaseFileHandler) (content : string) :
  Re.plain_template (new_name self) = true ->
  _handle_definitions self content = Return (Spec.definitions_rewritten self content).
Proof.
  intros H. unfold _handle_definitions, Spec.definitions_rewritten.
  rewrite (TemplateFacts.sub_plain _ ("class " ++ new_name self)) by exact H.
  cbn [bind].
  now rewrite (TemplateFacts.sub_plain _ ("def " ++ new_name self)) by exact H.
Qed.

Lemma process_plain (self : BaseFileHandler) (file_path : Path) (content : string) :
  Re.plain_template (new_name self) = true ->
  PythonFileHandler_process self file_path content
  = Return
      (fold_left
         (fun modified_content pattern =>
            Re.sub_with pattern (_replace_python_import self) 0 modified_content)
         (python_patterns self)
         (Spec.definitions_rewritten self
            (if String.eqb (name file_path) "__init__.py"
             then _handle_init_file self content
             else content))).
Proof.
  intros H. unfold PythonFileHandler_process.
  now rewrite (handle_definitions_plain self _ H).
Qed.

End InitFileFacts.


(** *** Matches stay inside their line *)

Module LineFacts.
Import FileHandlers PythonFacts.








Section Bounds.
Variable X' : string.












(** *** What a matcher finds in a line does not depend on what follows *)
















End Bounds.









(** *** The version line survives the passes of [process] *)


End LineFacts.
(** When the assignment is the first match of the version pattern and the
    rewritten content holds no import, class or def of the old name for the
    later passes, the result of [process] is known in full. *)
Lemma init_version_without_reference
    (self : FileHandlers.BaseFileHandler) (dir : Path)
    (pre ws1 ws2 v post : string) (q1 q2 : ascii) :
  sforall char_isspace ws1 = true -> sforall char_isspace ws2 = true ->
  Rx.is_quote q1 = true -> Rx.is_quote q2 = true ->
  sforall (fun c => Rx.not_newline c && negb (Rx.is_quote c)) v = true ->
  Re.quiet_prefix FileHandlers.version_pattern pre
    (Spec.version_assignment ws1 ws2 q1 v q2 ++ post) = true ->
  Spec.no_reference self
    (pre ++ FileHandlers.version_line self
         ++ Re.sub_with FileHandlers.version_pattern
              (fun _ => FileHandlers.version_line self) 0 post) = true ->
  Re.plain_template (FileHandlers.new_name self) = true ->
  FileHandlers.PythonFileHandler_process self (joinpath dir "__init__.py")
    (pre ++ Spec.version_assignment ws1 ws2 q1 v q2 ++ post)
  = Return
      (pre ++ FileHandlers.version_line self
           ++ Re.sub_with FileHandlers.version_pattern
                (fun _ => FileHandlers.version_line self) 0 post).
Proof.
  intros H1 H2 Hq1 Hq2 Hv Hpre Hinert Hplain.
  rewrite (InitFileFacts.process_plain self _ _ Hplain).
  rewrite PythonFacts.last_joinpath, String.eqb_refl. f_equal.
  unfold FileHandlers._handle_init_file.
  rewrite (InitFileFacts.version_sub_at_assignment self pre ws1 ws2 v post q1 q2)
    by assumption.
  pose proof Hinert as Hfrom. unfold Spec.no_reference in Hfrom.
  apply andb_prop in Hfrom as [Hfrom _]. apply negb_true_iff in Hfrom.
  rewrite Hfrom.
  now apply InitFileFacts.later_passes_inert.
Qed.

Lemma init_version_without_reference_example :
  let self := FileHandlers.mkHandler "old_pkg" "new_pkg" in
  let pre := Examples.text "```The old_pkg package.```
from .core import run
" in
  let post := "
__all__ = ['run']
" in
  FileHandlers.PythonFileHandler_process self ["proj"; "old_pkg"; "__init__.py"]
    (pre ++ Spec.version_assignment " " " " squote "1.2.3" squote ++ post)
  = Return (pre ++ Examples.text "__version__ = `new_pkg`" ++ post).
Proof.
  apply (init_version_without_reference
           (FileHandlers.mkHandler "old_pkg" "new_pkg") ["proj"; "old_pkg"]
           (Examples.text "```The old_pkg package.```
from .core import run
") " " " " "1.2.3" "
__all__ = ['run']
" squote squote); reflexivity.
Qed.


Module VersionLineFacts.
Import FileHandlers PythonFacts LineFacts.





(** The two last patterns of [process] change nothing. *)
Lemma identity_passes (self : BaseFileHandler) (content : string) :
  Re.sub_with (nth 3 (python_patterns self) Rx.done) (_replace_python_import self) 0
    (Re.sub_with (nth 2 (python_patterns self) Rx.done) (_replace_python_import self) 0
       content)
  = content.
Proof.
  destruct self as [old new].
  rewrite sub_with_identity.
  - rewrite sub_with_identity; [reflexivity|].
    intros t n Hm.
    destruct (InitFileFacts.all_matcher_starts_with_underscore old t n Hm) as [r ->].
    cbn [take]. now apply replace_python_import_other.
  - intros t n Hm.
    destruct (InitFileFacts.docstring_matcher_starts_with_quote old t n Hm) as (c & r & -> & Hc).
    destruct (quote_starts_no_keyword c Hc) as [Hi Hf].
    cbn [take]. now apply replace_python_import_other.
Qed.




End VersionLineFacts.




(** The result of that run in full. *)
Lemma init_version_example :
  FileHandlers.PythonFileHandler_process (FileHandlers.mkHandler "old_pkg" "new_pkg")
    ["proj"; "old_pkg"; "__init__.py"]
    (Examples.text "```The old_pkg package.```
from old_pkg.core import run
__version__ = 'old_pkg 1.2.3'
import old_pkg.sub
")
  = Return (Examples.text "```The old_pkg package.```
from new_pkg.core import run
__version__ = `new_pkg`
import new_pkg.sub
").
Proof. reflexivity. Qed.
(** ** project_renamer.py: the run *)

Module RunFacts.
Import World ProjectRenamer.
Local Open Scope world_scope.

Lemma emit_records_app (r1 r2 : list string) (s : State) :
  emit_records r2 (emit_records r1 s) = emit_records (r1 ++ r2)%list s.
Proof. unfold emit_records. now rewrite fold_left_app. Qed.

Lemma handle_keeps_handlers (line : string) (hs : list Handler) (s : State) :
  root_handlers (fold_left (handle line) hs s) = root_handlers s.
Proof.
  revert s; induction hs as [|h hs IH]; intros s; [reflexivity|].
  simpl. rewrite IH. now destruct h.
Qed.

(** With the handlers that [_setup_logging] installs, the records are so many
    lines appended to the one log file. *)
Lemma emit_records_appends_to_log_file (log_path : Path) (records : list string) :
  forall s,
    root_handlers s = [StreamHandler; FileHandler log_path] ->
    fs (emit_records records s)
    = fold_left
        (fun files line =>
           update_dir (append_entry (name log_path) (line ++ String newline EmptyString))
                      (parent log_path) files)
        records (fs s).
Proof.
  induction records as [|line records IH]; intros s Hs; [reflexivity|].
  unfold emit_records in *. cbn [fold_left]. rewrite IH.
  - now rewrite Hs.
  - now rewrite handle_keeps_handlers.
Qed.

Lemma logs_only_ret {A} (a : A) : logs_only (ret a).
Proof. intros s. now exists [], a. Qed.

Lemma logs_only_get_state : logs_only get_state.
Proof. intros s. now exists [], s. Qed.

Lemma logs_only_log (level : nat) (message : string) : logs_only (log level message).
Proof.
  intros s. unfold log. destruct (Nat.leb (root_level s) level).
  - now exists [clock_asctime s ++ " - " ++ level_name level ++ " - " ++ message], tt.
  - now exists [], tt.
Qed.

Lemma logs_only_bind {A B} (m : M A) (k : A -> M B) :
  logs_only m -> (forall a, logs_only (k a)) -> logs_only (mbind m k).
Proof.
  intros Hm Hk s. destruct (Hm s) as (r1 & a & E1).
  destruct (Hk a (emit_records r1 s)) as (r2 & b & E2).
  exists (r1 ++ r2)%list, b. unfold mbind. rewrite E1, E2.
  now rewrite emit_records_app.
Qed.

Lemma logs_only_for_each {A} (l : list A) (body : A -> M unit) :
  (forall x, logs_only (body x)) -> logs_only (for_each l body).
Proof.
  intros Hb. induction l as [|x l IH]; simpl.
  - apply logs_only_ret.
  - apply logs_only_bind; [apply Hb | intros _; apply IH].
Qed.

Lemma logs_only_fold {A B} (step : B -> A -> M B) (l : list A) :
  (forall b x, logs_only (step b x)) ->
  forall init : M B, logs_only init ->
  logs_only (fold_left (fun acc x => mbind acc (fun b => step b x)) l init).
Proof.
  intros Hs. induction l as [|x l IH]; intros init Hi; simpl; [assumption|].
  apply IH. apply logs_only_bind; [assumption | intros b; apply Hs].
Qed.

Lemma logs_only_contains_target_text (self : ProjectRenamer) (file_path : Path) :
  logs_only (_contains_target_text self file_path).
Proof.
  intros s. unfold _contains_target_text, try_catch, mbind, read_file.
  destruct (lookup (fs s) file_path) as [[f c|d es]|].
  - now exists [], (existsb (fun pattern => Re.search pattern c) (patterns self)).
  - apply (logs_only_bind (log WARNING _) (fun _ => ret false));
      [apply logs_only_log | intros; apply logs_only_ret].
  - apply (logs_only_bind (log WARNING _) (fun _ => ret false));
      [apply logs_only_log | intros; apply logs_only_ret].
Qed.

Lemma logs_only_scan_directory (self : ProjectRenamer) (root : Path)
    (entries : list node) (results : ScanResults) :
  logs_only (scan_directory self root entries results).
Proof.
  unfold scan_directory.
  apply logs_only_bind; [|intros; apply logs_only_ret].
  apply (logs_only_fold
           (fun r file =>
              if _is_excluded self file then ret r
              else _)); [|apply logs_only_ret].
  intros r file. destruct (_is_excluded self file); [apply logs_only_ret|].
  destruct (_should_modify_file self (joinpath root file)); [|apply logs_only_ret].
  apply logs_only_bind; [apply logs_only_contains_target_text|].
  intros [|]; apply logs_only_ret.
Qed.

(** Induction on a file tree. *)
Lemma node_tree_ind (P : node -> Prop) :
  (forall f c, P (File f c)) ->
  (forall d entries, Forall P entries -> P (Dir d entries)) ->
  forall n, P n.
Proof.
  intros Hfile Hdir. fix IH 1. intros [f c|d entries].
  - apply Hfile.
  - apply Hdir. induction entries as [|e entries IHe]; constructor.
    + apply IH.
    + apply IHe.
Qed.

Lemma logs_only_walk (self : ProjectRenamer) (n : node) :
  forall root results, logs_only (walk self root n results).
Proof.
  induction n as [f c|d entries IH] using node_tree_ind; intros root results.
  - apply logs_only_ret.
  - cbn [walk]. apply logs_only_bind; [apply logs_only_scan_directory|].
    clear results. induction IH as [|e entries He _ IHentries]; intros results.
    + apply logs_only_ret.
    + apply logs_only_bind; [|intros; apply IHentries].
      destruct (is_dir e && negb (_is_excluded self (node_name e)));
        [apply He | apply logs_only_ret].
Qed.

Lemma logs_only_scan_project (self : ProjectRenamer) : logs_only (scan_project self).
Proof.
  unfold scan_project.
  apply logs_only_bind; [apply logs_only_log | intros _].
  apply logs_only_bind; [apply logs_only_get_state | intros s].
  destruct (lookup (fs s) (project_path (config self))) as [[f c|d es]|];
    try apply logs_only_ret.
  apply logs_only_walk.
Qed.

Lemma logs_only_dry_run_results (self : ProjectRenamer) (scan_results : ScanResults) :
  logs_only (_log_dry_run_results self scan_results).
Proof.
  unfold _log_dry_run_results.
  repeat (apply logs_only_bind; [apply logs_only_log | intros _]).
  repeat
    (apply logs_only_bind;
     [ match goal with
       | |- logs_only (if ?b then _ else _) =>
           destruct b;
           [ apply logs_only_bind;
             [ apply logs_only_log
             | intros _; apply logs_only_for_each; intros; apply logs_only_log ]
           | apply logs_only_ret ]
       end
     | intros _ ]).
  match goal with
  | |- logs_only (if ?b then _ else _) =>
      destruct b;
      [ apply logs_only_bind;
        [ apply logs_only_log
        | intros _; apply logs_only_for_each; intros; apply logs_only_log ]
      | apply logs_only_ret ]
  end.
Qed.

(** The scan does not read the [dry_run] flag. *)
Lemma walk_ignores_flags (c : RenameConfig) (ps : list Re.Pattern) (backup dry : bool)
    (n : node) :
  forall root results s,
    walk (mkRenamer (Spec.with_flags c backup dry) ps) root n results s
    = walk (mkRenamer c ps) root n results s.
Proof.
  induction n as [f x|d entries IH] using node_tree_ind; intros root results s.
  - reflexivity.
  - cbn [walk]. unfold mbind.
    change (scan_directory (mkRenamer (Spec.with_flags c backup dry) ps) root entries results s)
      with (scan_directory (mkRenamer c ps) root entries results s).
    destruct (scan_directory (mkRenamer c ps) root entries results s) as [[r|e] s'];
      [|reflexivity].
    clear results s. revert r s'.
    induction IH as [|e entries He _ IHentries]; intros r s'; [reflexivity|].
    change (_is_excluded (mkRenamer (Spec.with_flags c backup dry) ps) (node_name e))
      with (_is_excluded (mkRenamer c ps) (node_name e)).
    destruct (is_dir e && negb (_is_excluded (mkRenamer c ps) (node_name e))).
    + rewrite He. destruct (walk (mkRenamer c ps) _ e r s') as [[r'|x] s'']; [|reflexivity].
      apply IHentries.
    + unfold ret. apply IHentries.
Qed.

Lemma scan_project_ignores_flags (c : RenameConfig) (ps : list Re.Pattern)
    (backup dry : bool) (s : State) :
  scan_project (mkRenamer (Spec.with_flags c backup dry) ps) s
  = scan_project (mkRenamer c ps) s.
Proof.
  unfold scan_project, mbind. cbn [config]. 
  change (project_path (Spec.with_flags c backup dry)) with (project_path c).
  destruct (log INFO _ s) as [[[]|e] s1]; [|reflexivity].
  unfold get_state.
  destruct (lookup (fs s1) (project_path c)) as [[f x|d es]|]; try reflexivity.
  apply walk_ignores_flags.
Qed.

End RunFacts.

(** C1, as the claim states it, fails: a dry run, here without backup, writes
    its report to [rename_log.txt] in the project directory, through the file
    handler that [_setup_logging] installs. *)
Lemma dry_run_writes_log_file :
  let c := Examples.nested_config false true in
  let before := Examples.constructed c Examples.nested_project in
  let after := snd (ProjectRenamer.rename_project (Examples.renamer_of c) before) in
  fst (ProjectRenamer.__init__ c (Examples.fresh_process Examples.nested_project))
  = Return (Examples.renamer_of c)
  /\ ProjectRenamer.dry_run c = true
  /\ Examples.file_text before ["proj"; "rename_log.txt"] = Some EmptyString
  /\ match Examples.file_text after ["proj"; "rename_log.txt"] with
     | Some report =>
         startswith "2024-01-01 12:00:00,000 - INFO - Starting project rename operation"
                    report
     | None => false
     end = true
  /\ World.fs after <> World.fs before.
Proof. repeat split; vm_compute; congruence. Qed.

(** With the backup enabled, as it is by default, the dry run also copies the
    project into a backup directory: [create_backup] is called before the
    [dry_run] flag is read, and does not read it. *)
Lemma dry_run_with_backup_copies_project :
  let c := Examples.nested_config true true in
  let before := Examples.constructed c Examples.nested_project in
  let after := snd (ProjectRenamer.rename_project (Examples.renamer_of c) before) in
  Examples.directory_exists before ["proj"; "backup_20240101_120000"] = false
  /\ Examples.directory_exists after ["proj"; "backup_20240101_120000"] = true
  /\ Examples.file_text after ["proj"; "backup_20240101_120000"; "README.md"]
     = Some "The old_app tool."
  /\ World.backup_paths after = [["proj"; "backup_20240101_120000"]].
Proof. repeat split. Qed.

(** C1 (amended): for every configuration with [dry_run = true] and the
    backup disabled, [rename_project] returns [True] and has no effect on the
    file system but the records that the root logger's file handlers append,
    which is the report in [rename_log.txt]: no file or directory is created,
    renamed or deleted, and no other file is written.  The scan that decides
    what to rename and to modify is the one of a live run: it does not read
    the [dry_run] flag. *)
Theorem dry_run_only_writes_log
    (self : ProjectRenamer.ProjectRenamer) (s : World.State) :
  ProjectRenamer.dry_run (ProjectRenamer.config self) = true ->
  ProjectRenamer.backup_enabled (ProjectRenamer.config self) = false ->
  (exists records,
      ProjectRenamer.rename_project self s = (Return true, World.emit_records records s))
  /\ (forall s',
         ProjectRenamer.scan_project
           (ProjectRenamer.mkRenamer
              (Spec.with_flags (ProjectRenamer.config self) false false)
              (ProjectRenamer.patterns self)) s'
         = ProjectRenamer.scan_project self s').
Proof.
  intros Hdry Hbackup. split.
  - unfold ProjectRenamer.rename_project, World.mbind.
    destruct (RunFacts.logs_only_log World.INFO "Starting project rename operation" s)
      as (r1 & [] & E1).
    rewrite E1. unfold ProjectRenamer.create_backup. rewrite Hbackup. cbn [negb World.ret].
    destruct (RunFacts.logs_only_scan_project self (World.emit_records r1 s))
      as (r2 & scan_results & E2).
    rewrite E2, Hdry.
    destruct (RunFacts.logs_only_dry_run_results self scan_results
                (World.emit_records r2 (World.emit_records r1 s)))
      as (r3 & [] & E3).
    rewrite E3. exists (r1 ++ r2 ++ r3)%list.
    unfold World.ret. now rewrite !RunFacts.emit_records_app.
  - intros s'. destruct self as [c ps]. apply RunFacts.scan_project_ignores_flags.
Qed.

Lemma dry_run_only_writes_log_witness :
  let c := Examples.nested_config false true in
  let before := Examples.constructed c Examples.nested_project in
  exists records,
    ProjectRenamer.rename_project (Examples.renamer_of c) before
    = (Return true, World.emit_records records before).
Proof.
  apply (proj1 (dry_run_only_writes_log
                  (Examples.renamer_of (Examples.nested_config false true))
                  (Examples.constructed (Examples.nested_config false true)
                     Examples.nested_project)
                  eq_refl eq_refl)).
Defined.

Module SortFacts.
Import ProjectRenamer.

Section SortedReverse.
Context {A : Type}.

(** Keys in descending order. *)
Let descending (a b : nat * A) : Prop := fst b <= fst a.

Lemma insert_reverse_forall (P : nat * A -> Prop) (k : nat) (x : A) (l : list (nat * A)) :
  P (k, x) -> Forall P l -> Forall P (insert_reverse k x l).
Proof.
  intros Hx Hl. induction Hl as [|[k' y] r Hy Hr IH]; simpl.
  - now constructor.
  - destruct (Nat.ltb k' k); repeat constructor; assumption.
Qed.

Lemma insert_reverse_sorted (k : nat) (x : A) (l : list (nat * A)) :
  StronglySorted descending l -> StronglySorted descending (insert_reverse k x l).
Proof.
  induction 1 as [|[k' y] r Hr IH Hall]; simpl.
  - repeat constructor.
  - destruct (Nat.ltb k' k) eqn:Hlt.
    + apply Nat.ltb_lt in Hlt. constructor; [now constructor|].
      constructor; [unfold descending; simpl; lia|].
      eapply Forall_impl; [|exact Hall].
      intros [k2 z]. unfold descending. simpl. lia.
    + apply Nat.ltb_ge in Hlt. constructor; [assumption|].
      apply insert_reverse_forall; [unfold descending; simpl; lia | assumption].
Qed.

Lemma insert_reverse_permutation (k : nat) (x : A) (l : list (nat * A)) :
  Permutation ((k, x) :: l) (insert_reverse k x l).
Proof.
  induction l as [|[k' y] r IH]; simpl; [reflexivity|].
  destruct (Nat.ltb k' k); [reflexivity|].
  rewrite perm_swap. now constructor.
Qed.

(** When every key is defined, [sorted(l, key=key, reverse=True)] returns the
    items of [l] with their keys in descending order. *)
Lemma sorted_reverse_descending (key : A -> Result nat) (l : list A) (ks : list (nat * A)) :
  keys_of key l = Return ks ->
  exists sorted,
    sorted_reverse key l = Return (map snd sorted)
    /\ StronglySorted descending sorted
    /\ Permutation ks sorted.
Proof.
  intros Hk. unfold sorted_reverse. rewrite Hk.
  eexists. split; [reflexivity|].
  assert (forall acc,
             StronglySorted descending acc ->
             StronglySorted descending
               (fold_left (fun acc kx => insert_reverse (fst kx) (snd kx) acc) ks acc)
             /\ Permutation (ks ++ acc)%list
                  (fold_left (fun acc kx => insert_reverse (fst kx) (snd kx) acc) ks acc))
    as H.
  { clear Hk. induction ks as [|[k x] ks IH]; intros acc Hacc; simpl.
    - split; [assumption | reflexivity].
    - destruct (IH (insert_reverse k x acc) (insert_reverse_sorted k x acc Hacc))
        as [Hs Hp].
      split; [assumption|].
      rewrite <- Hp. rewrite <- insert_reverse_permutation.
      apply Permutation_middle. }
  destruct (H [] (SSorted_nil _)) as [Hs Hp].
  split; [assumption|]. now rewrite app_nil_r in Hp.
Qed.

End SortedReverse.

End SortFacts.

(** Sorting paths by [len] fails as soon as there is a path. *)
Lemma sorted_by_len_raises (p : Path) (l : list Path) :
  ProjectRenamer.sorted_reverse ProjectRenamer.len_of_path (p :: l) = Raise TypeError.
Proof. reflexivity. Qed.

Module LiveRunFacts.
Import World ProjectRenamer.
Local Open Scope world_scope.

Lemma returns_ret {A} (a : A) : returns (ret a).
Proof. intros s. now exists a, s. Qed.

Lemma returns_bind {A B} (m : M A) (k : A -> M B) :
  returns m -> (forall a, returns (k a)) -> returns (mbind m k).
Proof.
  intros Hm Hk s. destruct (Hm s) as (a & s1 & E1).
  destruct (Hk a s1) as (b & s2 & E2).
  exists b, s2. unfold mbind. now rewrite E1.
Qed.

Lemma returns_log (level : nat) (message : string) : returns (log level message).
Proof.
  intros s. destruct (RunFacts.logs_only_log level message s) as (r & a & E). eauto.
Qed.

Lemma returns_modify (f : State -> State) : returns (modify f).
Proof. intros s. now exists tt, (f s). Qed.

(** A handler that returns makes the whole [try] return. *)
Lemma returns_try_catch {A} (body : M A) (handler : exn -> M A) :
  (forall e, returns (handler e)) -> returns (try_catch body handler).
Proof.
  intros Hh s. unfold try_catch. destruct (body s) as [[a|e] s1]; [eauto|].
  apply Hh.
Qed.

Lemma returns_all_steps {A} (step : A -> M bool) (l : list A) :
  (forall x, returns (step x)) -> forall success, returns (all_steps step l success).
Proof.
  intros Hs. induction l as [|x l IH]; intros success; simpl.
  - apply returns_ret.
  - apply returns_bind; [apply Hs | intros ok; apply IH].
Qed.

Lemma returns_rename_file (self : ProjectRenamer) (file_path : Path) :
  returns (_rename_file self file_path).
Proof.
  apply returns_try_catch. intros e.
  apply returns_bind; [apply returns_log | intros _].
  apply returns_bind; [apply returns_modify | intros _; apply returns_ret].
Qed.

(** A live run without backup whose scan selects a directory raises
    [TypeError] where it sorts the directories: after the file renames,
    before any directory rename. *)
Lemma live_run_with_directory_raises (self : ProjectRenamer) (s : State) :
  dry_run (config self) = false ->
  backup_enabled (config self) = false ->
  Examples.selected_directories self
    (snd (log INFO "Starting project rename operation" s)) <> [] ->
  fst (rename_project self s) = Raise TypeError.
Proof.
  intros Hdry Hbackup Hsel.
  unfold rename_project, mbind.
  destruct (RunFacts.logs_only_log INFO "Starting project rename operation" s)
    as (r1 & [] & E1).
  rewrite E1 in *. cbn [snd] in Hsel.
  unfold create_backup. rewrite Hbackup. cbn [negb ret].
  unfold Examples.selected_directories in Hsel.
  destruct (RunFacts.logs_only_scan_project self (emit_records r1 s))
    as (r2 & scan_results & E2).
  rewrite E2 in *. cbn [fst] in Hsel. rewrite Hdry.
  destruct (returns_all_steps (_rename_file self) (files_to_rename scan_results)
              (returns_rename_file self) true (emit_records r2 (emit_records r1 s)))
    as (ok & s3 & E3).
  rewrite E3.
  destruct (directories_to_rename scan_results) as [|d l]; [congruence|].
  reflexivity.
Qed.

End LiveRunFacts.

(** C3 (defect of the code): the claim asks that in a live run a directory is
    renamed before its ancestors.  The directories are sorted with [key=len],
    and a path has no length: in the project where [old_app] holds another
    [old_app], both selected, the live run raises [TypeError] when it sorts
    the directories and renames neither. *)
Theorem live_run_raises_before_directory_renames :
  let c := Examples.nested_config false false in
  let self := Examples.renamer_of c in
  let before := Examples.constructed c Examples.nested_project in
  let run := ProjectRenamer.rename_project self before in
  fst (ProjectRenamer.__init__ c (Examples.fresh_process Examples.nested_project))
  = Return self
  /\ ProjectRenamer.dry_run c = false
  /\ Examples.selected_directories self before
     = [["proj"; "old_app"]; ["proj"; "old_app"; "old_app"]]
  /\ fst run = Raise TypeError
  /\ Examples.directory_exists (snd run) ["proj"; "old_app"; "old_app"] = true
  /\ Examples.directory_exists (snd run) ["proj"; "new_app"] = false
  /\ Examples.directory_exists (snd run) ["proj"; "old_app"; "new_app"] = false
  /\ World.changed_files (snd run) = [].
Proof. repeat split. Qed.

(** ** Case styles: what the conversions keep *)

Module CaseStyleFacts.
Import ProjectRenamer Re TextUtils.

Lemma is_sep_lower (c : ascii) : is_sep (char_lower c) = is_sep c.
Proof. by_cases_on_char c. Qed.

Lemma char_lower_not_upper (c : ascii) : char_isupper (char_lower c) = false.
Proof. by_cases_on_char c. Qed.

Lemma char_lower_upper (c : ascii) : char_lower (char_upper c) = char_lower c.
Proof. by_cases_on_char c. Qed.

Lemma lower_sub_seps (s : string) (in_sep : bool) :
  lower (sub_seps in_sep s) = sub_seps in_sep (lower s).
Proof.
  revert in_sep; induction s as [|c s IH]; intros b; [reflexivity|].
  unfold lower in *. cbn [sub_seps smap]. rewrite is_sep_lower.
  destruct (is_sep c); [destruct b|]; cbn [smap]; now rewrite ?IH.
Qed.

(** A text that [sub_seps] produced is left alone by [sub_seps]. *)
Lemma sub_seps_fixed (s : string) :
  (forall b, sub_seps b (sub_seps true s) = sub_seps true s)
  /\ sub_seps false (sub_seps false s) = sub_seps false s.
Proof.
  induction s as [|c s [IHt IHf]]; [now split|].
  cbn [sub_seps]. destruct (is_sep c) eqn:Hc.
  - split; [exact IHt|]. cbn [sub_seps]. 
    replace (is_sep "-") with true by reflexivity. now rewrite IHt.
  - split; [intros b|]; cbn [sub_seps]; rewrite Hc; now rewrite IHf.
Qed.

Lemma lower_no_upper (s : string) : sexists char_isupper (lower s) = false.
Proof.
  induction s as [|c s IH]; [reflexivity|].
  unfold lower in *; cbn [smap sexists]. now rewrite char_lower_not_upper, IH.
Qed.

Lemma sub_word_start_no_upper (s : string) :
  sexists char_isupper s = false -> forall b, sub_word_start b s = s.
Proof.
  induction s as [|c s IH]; intros H b; [reflexivity|].
  cbn [sexists] in H. apply orb_false_iff in H as [Hc Hs].
  cbn [sub_word_start].
  destruct (b && char_islower c); [now rewrite IH|].
  destruct s as [|u [|l t]]; try now rewrite IH.
  cbn [sexists] in Hs. apply orb_false_iff in Hs as [Hu Ht].
  rewrite Hu, andb_false_r. cbn [andb].
  rewrite IH; [reflexivity|]. cbn [sexists]. now rewrite Hu.
Qed.

Lemma sub_hump_no_upper (s : string) :
  sexists char_isupper s = false -> sub_hump s = s.
Proof.
  induction s as [|a s IH]; intros H; [reflexivity|].
  cbn [sexists] in H. apply orb_false_iff in H as [Ha Hs].
  cbn [sub_hump]. destruct s as [|b t]; [reflexivity|].
  pose proof Hs as Hs'. cbn [sexists] in Hs'. apply orb_false_iff in Hs' as [Hb _].
  rewrite Hb, andb_false_r. now rewrite IH.
Qed.

Lemma split_head_tail (s : string) (b : bool) :
  split_seps b s = hd EmptyString (split_seps b s) :: tl (split_seps b s).
Proof.
  revert b; induction s as [|c s IH]; intros b; [reflexivity|].
  cbn [split_seps].
  destruct (is_sep c); [destruct b|]; try reflexivity; try apply IH.
  now destruct (split_seps false s).
Qed.

End CaseStyleFacts.

(** X1: the kebab-case conversion is idempotent: converting a text that is
    already the kebab form of some text changes nothing. *)
Theorem kebab_case_idempotent (text : string) :
  ProjectRenamer._to_kebab_case (ProjectRenamer._to_kebab_case text)
  = ProjectRenamer._to_kebab_case text.
Proof.
  unfold ProjectRenamer._to_kebab_case.
  rewrite CaseStyleFacts.lower_sub_seps, lower_idem.
  apply CaseStyleFacts.sub_seps_fixed.
Qed.

(** X2: the snake-case conversion returns a text without capital letters and
    is idempotent. *)
Theorem snake_case_idempotent (text : string) :
  sexists char_isupper (ProjectRenamer._to_snake_case text) = false
  /\ ProjectRenamer._to_snake_case (ProjectRenamer._to_snake_case text)
     = ProjectRenamer._to_snake_case text.
Proof.
  unfold ProjectRenamer._to_snake_case.
  split; [apply CaseStyleFacts.lower_no_upper|].
  rewrite CaseStyleFacts.sub_word_start_no_upper by apply CaseStyleFacts.lower_no_upper.
  rewrite CaseStyleFacts.sub_hump_no_upper by apply CaseStyleFacts.lower_no_upper.
  apply lower_idem.
Qed.

(** X3: for ASCII text, [convert_case] to camel case gives the Pascal-case
    form with its first character lower-cased; when the text starts with a
    separator the first word is empty and the camel-case form is the
    Pascal-case form itself, capital first.  The Pascal, snake and kebab
    styles are the conversions of the renamer. *)
Theorem convert_case_camel_from_pascal (text : string) :
  is_ascii text = true ->
  TextUtils.convert_case text "camel_case"
  = TextUtils.Returns
      (if TextUtils.starts_with_sep text then ProjectRenamer._to_pascal_case text
       else TextUtils.lower_first (ProjectRenamer._to_pascal_case text))
  /\ TextUtils.convert_case text "pascal_case"
     = TextUtils.Returns (ProjectRenamer._to_pascal_case text)
  /\ TextUtils.convert_case text "snake_case"
     = TextUtils.Returns (ProjectRenamer._to_snake_case text)
  /\ TextUtils.convert_case text "kebab_case"
     = TextUtils.Returns (ProjectRenamer._to_kebab_case text).
Proof.
  intros _. split; [|repeat split].
  unfold TextUtils.convert_case. 
  change (lower "camel_case") with "camel_case". cbn [String.eqb Ascii.eqb Bool.eqb].
  cbv beta iota zeta.
  unfold ProjectRenamer._to_pascal_case. f_equal.
  destruct text as [|c s]; [reflexivity|].
  cbn [TextUtils.starts_with_sep Re.split_seps].
  destruct (Re.is_sep c) eqn:Hc.
  - cbn [hd tl map ProjectRenamer.join_words fold_right capitalize lower smap append].
    reflexivity.
  - rewrite (CaseStyleFacts.split_head_tail s false).
    cbn [hd tl map ProjectRenamer.join_words fold_right capitalize append TextUtils.lower_first].
    unfold lower. cbn [smap append]. now rewrite CaseStyleFacts.char_lower_upper.
Qed.

Lemma convert_case_camel_from_pascal_witness :
  TextUtils.convert_case "my old-project" "camel_case" = TextUtils.Returns "myOldProject"
  /\ TextUtils.convert_case "my old-project" "pascal_case"
     = TextUtils.Returns (ProjectRenamer._to_pascal_case "my old-project")
  /\ TextUtils.convert_case "my old-project" "snake_case"
     = TextUtils.Returns (ProjectRenamer._to_snake_case "my old-project")
  /\ TextUtils.convert_case "my old-project" "kebab_case"
     = TextUtils.Returns (ProjectRenamer._to_kebab_case "my old-project").
Proof.
  apply (convert_case_camel_from_pascal "my old-project"). reflexivity.
Defined.

(** ** utils.py: what a name pattern matches *)

Module NamePatternFacts.
Import NamePatterns.

Lemma wild_star (pattern t : string) :
  wild_match (String "*" pattern) t
  = wild_match pattern t
    || match t with
       | String c t' => Rx.not_newline c && wild_match (String "*" pattern) t'
       | EmptyString => false
       end.
Proof. now destruct t. Qed.

Lemma wild_char (p : ascii) (pattern t : string) :
  Ascii.eqb p "*" = false ->
  wild_match (String p pattern) t
  = match t with
    | String c t' =>
        (if Ascii.eqb p "?" then Rx.not_newline c else Ascii.eqb p c)
        && wild_match pattern t'
    | EmptyString => false
    end.
Proof. intros H. cbn [wild_match]. now rewrite H. Qed.

Lemma wild_match_prefix (pattern : string) :
  forall t more, wild_match pattern t = true -> wild_match pattern (t ++ more) = true.
Proof.
  induction pattern as [|p pattern IH]; intros t more H; [reflexivity|].
  destruct (Ascii.eqb p "*") eqn:Hstar.
  - apply Ascii.eqb_eq in Hstar as ->.
    induction t as [|c t IHt]; rewrite wild_star in H |- *.
    + rewrite orb_false_r in H. now rewrite (IH EmptyString more H).
    + apply orb_prop in H as [H|H].
      * now rewrite (IH _ more H).
      * cbn [append]. apply andb_prop in H as [Hc H]. rewrite Hc, (IHt H).
        apply orb_true_r.
  - rewrite wild_char in H |- * by assumption.
    destruct t as [|c t]; [discriminate|]. cbn [append].
    apply andb_prop in H as [Hc H]. now rewrite Hc, (IH _ _ H).
Qed.

Lemma occurs_or_wild_later (x : ascii) (t pattern : string) :
  sforall (occurs_or_wild t) pattern = true ->
  sforall (occurs_or_wild (String x t)) pattern = true.
Proof.
  induction pattern as [|q pattern IH]; [reflexivity|].
  cbn [sforall]. intros H. apply andb_prop in H as [Hq Hr].
  rewrite (IH Hr), andb_true_r. unfold occurs_or_wild in *. cbn [sexists].
  apply orb_prop in Hq as [Hq|Hq]; [now rewrite Hq|].
  rewrite Hq. now rewrite !orb_true_r.
Qed.

(** The characters of a matched pattern, other than its wildcards, occur in
    the text. *)
Lemma wild_match_chars (pattern : string) :
  forall t, wild_match pattern t = true -> sforall (occurs_or_wild t) pattern = true.
Proof.
  induction pattern as [|p pattern IH]; intros t H; [reflexivity|].
  destruct (Ascii.eqb p "*") eqn:Hstar.
  - apply Ascii.eqb_eq in Hstar as ->. cbn [sforall]. 
    replace (occurs_or_wild t "*") with true by reflexivity. cbn [andb].
    induction t as [|c t IHt]; rewrite wild_star in H.
    + rewrite orb_false_r in H. now apply IH.
    + apply orb_prop in H as [H|H]; [now apply IH|].
      apply andb_prop in H as [_ H]. now apply occurs_or_wild_later, IHt.
  - rewrite wild_char in H by assumption.
    destruct t as [|c t]; [discriminate|].
    apply andb_prop in H as [Hc H]. cbn [sforall].
    rewrite (occurs_or_wild_later c t pattern (IH _ H)), andb_true_r.
    unfold occurs_or_wild. destruct (Ascii.eqb p "?"); [now rewrite orb_true_r|].
    cbn [sexists]. rewrite Hc. now rewrite !orb_true_r.
Qed.

Lemma upper_is_no_wildcard (c : ascii) :
  char_isupper c = true -> Ascii.eqb c "*" || Ascii.eqb c "?" = false.
Proof. by_cases_on_char c. Qed.

Lemma occurs_upper (c : ascii) (t : string) :
  char_isupper c = true -> sexists (Ascii.eqb c) t = true -> sexists char_isupper t = true.
Proof.
  intros Hc. induction t as [|x t IH]; [discriminate|]. cbn [sexists].
  intros H. apply orb_prop in H as [H|H].
  - apply Ascii.eqb_eq in H as <-. now rewrite Hc.
  - rewrite (IH H). apply orb_true_r.
Qed.

End NamePatternFacts.

(** X4: a pattern with a wildcard is matched against the start of the name
    only: when every pattern holds a star or a question mark and a name
    matches, every longer name that starts with it matches too (a name that
    matches [*.py] carries any text after [.py]).  The match is
    case-sensitive, or the name and what follows it are ASCII text, which
    [lower] folds character by character. *)
Theorem wildcard_pattern_matches_every_extension
    (text more : string) (patterns : list string) (case_sensitive : bool) :
  case_sensitive || (is_ascii text && is_ascii more) = true ->
  forallb NamePatterns.has_wildcard patterns = true ->
  NamePatterns._matches_any_pattern text (NamePatterns.Seq patterns) case_sensitive = true ->
  NamePatterns._matches_any_pattern (text ++ more) (NamePatterns.Seq patterns) case_sensitive
  = true.
Proof.
  unfold NamePatterns._matches_any_pattern. intros _ Hw H.
  apply existsb_exists in H as (p & Hin & Hp). apply existsb_exists. exists p.
  split; [assumption|].
  rewrite forallb_forall in Hw. rewrite (Hw p Hin) in *.
  destruct case_sensitive.
  - now apply NamePatternFacts.wild_match_prefix.
  - unfold lower. rewrite smap_append. now apply NamePatternFacts.wild_match_prefix.
Qed.

Lemma wildcard_pattern_matches_every_extension_witness :
  NamePatterns._matches_any_pattern ("main.py" ++ "c.orig") (NamePatterns.Seq ["*.py"]) false
  = true.
Proof.
  apply (wildcard_pattern_matches_every_extension "main.py" "c.orig" ["*.py"] false);
    reflexivity.
Defined.

(** X5: without [case_sensitive] the name is lower-cased but a pattern with
    a wildcard is not: such a pattern that holds a capital letter matches no
    name at all. *)
Theorem wildcard_pattern_with_capital_never_matches (text pattern : string) :
  NamePatterns.has_wildcard pattern = true ->
  sexists char_isupper pattern = true ->
  NamePatterns._matches_any_pattern text (NamePatterns.Str pattern) false = false.
Proof.
  intros Hw Hup. unfold NamePatterns._matches_any_pattern. cbn [existsb].
  rewrite Hw, orb_false_r.
  destruct (NamePatterns.wild_match pattern (lower text)) eqn:Hm; [|reflexivity].
  apply NamePatternFacts.wild_match_chars in Hm.
  exfalso. clear Hw. revert Hup Hm. generalize (CaseStyleFacts.lower_no_upper text).
  generalize (lower text) as t. intros t Ht.
  induction pattern as [|c pattern IH]; [discriminate|].
  cbn [sexists sforall]. intros Hup Hm. apply andb_prop in Hm as [Hc Hm].
  apply orb_prop in Hup as [Hup|Hup].
  - unfold NamePatterns.occurs_or_wild in Hc.
    rewrite (NamePatternFacts.upper_is_no_wildcard c Hup) in Hc. cbn [orb] in Hc.
    pose proof (NamePatternFacts.occurs_upper c _ Hup Hc) as Hbad.
    now rewrite Ht in Hbad.
  - now apply IH.
Qed.

Lemma wildcard_pattern_with_capital_never_matches_witness :
  NamePatterns._matches_any_pattern "README.md" (NamePatterns.Str "README.*") false = false.
Proof.
  apply (wildcard_pattern_with_capital_never_matches "README.md" "README.*"); reflexivity.
Defined.

Module FileSearchFacts.
Import World NamePatterns.

Lemma fold_left_invariant {A B} (P : B -> Prop) (f : B -> A -> B) (l : list A) :
  (forall b x, P b -> P (f b x)) -> forall init, P init -> P (fold_left f l init).
Proof.
  intros Hf. induction l as [|x l IH]; intros init Hi; [assumption|].
  cbn [fold_left]. now apply IH, Hf.
Qed.

Section Search.
Variables (directory : Path) (patterns exclude_patterns : PatternArg).
Variables (case_sensitive : bool) (max_depth : Z).

Let asked := found_as_asked directory patterns exclude_patterns case_sensitive max_depth.

Lemma find_walk_as_asked (n : node) :
  forall (below : Path) (matched_files : list Path),
    Forall (fun component =>
              _matches_any_pattern component exclude_patterns case_sensitive = false)
           below ->
    Forall asked matched_files ->
    Forall asked
      (find_walk patterns exclude_patterns case_sensitive max_depth (List.length below)
         (directory ++ below)%list n matched_files).
Proof.
  induction n as [f c|d entries IH] using RunFacts.node_tree_ind;
    intros below matched_files Hbelow Hm; [assumption|].
  cbn [find_walk]. destruct (max_depth <? Z.of_nat (List.length below))%Z eqn:Hdepth;
    [assumption|].
  apply Z.ltb_ge in Hdepth.
  match goal with
  | |- Forall _ (_ entries ?start) => assert (Forall asked start) as Hfiles
  end.
  { apply fold_left_invariant; [|assumption].
    intros acc file Hacc.
    destruct (_matches_any_pattern file exclude_patterns case_sensitive) eqn:Hex;
      [assumption|].
    destruct (_matches_any_pattern file patterns case_sensitive) eqn:Hpat;
      [|assumption].
    apply Forall_app; split; [assumption|]. constructor; [|constructor].
    exists (below ++ [file])%list. unfold joinpath. rewrite app_assoc.
    split; [reflexivity|]. split; [now destruct below|].
    split; [rewrite length_app; cbn [List.length]; lia|].
    split.
    - change ((directory ++ below) ++ [file])%list with (joinpath (directory ++ below)%list file).
      now rewrite PythonFacts.last_joinpath.
    - apply Forall_app; split; [assumption|]. now constructor. }
  clear Hm. revert Hfiles.
  match goal with
  | |- Forall _ ?start -> _ => generalize start
  end.
  induction IH as [|e entries He _ IHentries]; intros acc Hacc; [assumption|].
  apply IHentries.
  destruct (is_dir e) ; [|assumption].
  destruct (_matches_any_pattern (node_name e) exclude_patterns case_sensitive) eqn:Hex;
    [assumption|].
  cbn [andb negb]. unfold joinpath. rewrite <- app_assoc.
  replace (S (List.length below)) with (List.length (below ++ [node_name e])%list)
    by (rewrite length_app; cbn [List.length]; lia).
  apply He; [|assumption].
  apply Forall_app; split; [assumption|]. now constructor.
Qed.

End Search.

End FileSearchFacts.

(** X6: [find_files_by_pattern] returns without raising and leaves the
    world as it is; every path it returns lies below the directory of the
    search, at most [max_depth] directories deep, its file name matches one of
    the patterns, and neither that name nor the name of a directory on the way
    matches an exclude pattern. *)
Theorem find_files_returns_what_was_asked
    (directory : Path) (patterns : NamePatterns.PatternArg)
    (exclude_patterns : NamePatterns.PatternArg)
    (case_sensitive : bool) (max_depth : Z) (s : World.State) :
  exists matched_files,
    NamePatterns.find_files_by_pattern directory patterns (Some exclude_patterns)
      case_sensitive max_depth s
    = (Return matched_files, s)
    /\ Forall (NamePatterns.found_as_asked directory patterns exclude_patterns
                 case_sensitive max_depth)
              matched_files.
Proof.
  unfold NamePatterns.find_files_by_pattern.
  destruct (World.lookup (World.fs s) directory) as [[f c|d entries]|].
  - now exists [].
  - eexists. split; [reflexivity|].
    pose proof (FileSearchFacts.find_walk_as_asked directory patterns exclude_patterns
                  case_sensitive max_depth (World.Dir d entries) [] []) as H.
    cbn [List.length] in H. rewrite app_nil_r in H. now apply H.
  - now exists [].
Qed.

(** ** utils.py: sanitized file names *)

Module FileNameFacts.
Import FileNames.

Lemma sexists_append (p : ascii -> bool) (a b : string) :
  sexists p (a ++ b) = sexists p a || sexists p b.
Proof. induction a as [|x a IH]; simpl; [reflexivity | now rewrite IH, orb_assoc]. Qed.

Lemma sub_class_clean (cls : ascii -> bool) (repl s : string) :
  sexists cls repl = false -> sexists cls (sub_class cls repl s) = false.
Proof.
  intros Hr. induction s as [|c s IH]; [reflexivity|].
  cbn [sub_class]. rewrite sexists_append, IH, orb_false_r.
  destruct (cls c) eqn:Hc; [assumption|]. cbn [sexists]. now rewrite Hc.
Qed.

Lemma sub_class_fixed (cls : ascii -> bool) (repl s : string) :
  sexists cls s = false -> sub_class cls repl s = s.
Proof.
  induction s as [|c s IH]; [reflexivity|]. cbn [sexists sub_class].
  intros H. apply orb_false_iff in H as [Hc Hs]. now rewrite Hc, IH.
Qed.

Lemma rstrip_clean (p chars : ascii -> bool) (s : string) :
  sexists p s = false -> sexists p (rstrip chars s) = false.
Proof.
  induction s as [|c s IH]; [reflexivity|]. cbn [sexists rstrip].
  intros H. apply orb_false_iff in H as [Hc Hs]. specialize (IH Hs).
  destruct (rstrip chars s) as [|a kept].
  - destruct (chars c); [reflexivity|]. cbn [sexists]. now rewrite Hc.
  - cbn [sexists] in *. now rewrite Hc.
Qed.

Lemma rstrip_idempotent (chars : ascii -> bool) (s : string) :
  rstrip chars (rstrip chars s) = rstrip chars s.
Proof.
  induction s as [|c s IH]; [reflexivity|]. cbn [rstrip].
  destruct (rstrip chars s) as [|a kept] eqn:E.
  - destruct (chars c) eqn:Hc; [reflexivity|]. cbn [rstrip]. now rewrite Hc.
  - change (rstrip chars (String c (String a kept)))
      with (match rstrip chars (String a kept) with
            | EmptyString => if chars c then EmptyString else String c EmptyString
            | String x y => String c (String x y)
            end).
    now rewrite IH.
Qed.

Lemma endswith_char_cons (x c a : ascii) (r : string) :
  endswith (String x EmptyString) (String c (String a r))
  = endswith (String x EmptyString) (String a r).
Proof.
  unfold endswith. cbn [length Nat.leb Nat.sub]. now rewrite !Nat.sub_0_r.
Qed.

Lemma rstrip_end (chars : ascii -> bool) (x : ascii) (s : string) :
  chars x = true -> endswith (String x EmptyString) (rstrip chars s) = false.
Proof.
  intros Hx. induction s as [|c s IH]; [reflexivity|]. cbn [rstrip].
  destruct (rstrip chars s) as [|a kept].
  - destruct (chars c) eqn:Hc; [reflexivity|].
    unfold endswith. cbn. destruct (Ascii.eqb c x) eqn:E; [|reflexivity].
    apply Ascii.eqb_eq in E. congruence.
  - now rewrite endswith_char_cons.
Qed.

Lemma sanitized_not_empty (filename replacement : string) :
  sanitize_filename filename replacement <> EmptyString.
Proof.
  unfold sanitize_filename. now destruct (rstrip _ _).
Qed.

Lemma sanitized_clean_chars (filename replacement : string) :
  sexists invalid_char replacement = false ->
  sexists invalid_char (sanitize_filename filename replacement) = false.
Proof.
  intros Hr. unfold sanitize_filename.
  pose proof (rstrip_clean invalid_char (fun c => Ascii.eqb c "." || Ascii.eqb c " ")
                _ (sub_class_clean _ _ filename Hr)) as Hclean.
  now destruct (rstrip _ _).
Qed.

End FileNameFacts.

(** X7: when the replacement holds no invalid character (as the default
    underscore), the name that [sanitize_filename] returns is not empty, holds
    none of the invalid characters and does not end with a period or a
    space. *)
Theorem sanitized_name_is_clean (filename replacement : string) :
  sexists FileNames.invalid_char replacement = false ->
  FileNames.sanitize_filename filename replacement <> EmptyString
  /\ sexists FileNames.invalid_char (FileNames.sanitize_filename filename replacement) = false
  /\ endswith "." (FileNames.sanitize_filename filename replacement) = false
  /\ endswith " " (FileNames.sanitize_filename filename replacement) = false.
Proof.
  intros Hr. split; [apply FileNameFacts.sanitized_not_empty|].
  split; [now apply FileNameFacts.sanitized_clean_chars|].
  unfold FileNames.sanitize_filename.
  pose proof (FileNameFacts.rstrip_end (fun c => Ascii.eqb c "." || Ascii.eqb c " ") "."
                (FileNames.sub_class FileNames.invalid_char replacement filename)
                eq_refl) as Hdot.
  pose proof (FileNameFacts.rstrip_end (fun c => Ascii.eqb c "." || Ascii.eqb c " ") " "
                (FileNames.sub_class FileNames.invalid_char replacement filename)
                eq_refl) as Hspace.
  destruct (FileNames.rstrip _ _); now split.
Qed.

Lemma sanitized_name_is_clean_witness :
  FileNames.sanitize_filename "a<b>: c?. ." "_" <> EmptyString
  /\ sexists FileNames.invalid_char (FileNames.sanitize_filename "a<b>: c?. ." "_") = false
  /\ endswith "." (FileNames.sanitize_filename "a<b>: c?. ." "_") = false
  /\ endswith " " (FileNames.sanitize_filename "a<b>: c?. ." "_") = false.
Proof. apply (sanitized_name_is_clean "a<b>: c?. ." "_"). reflexivity. Defined.

(** X8: with such a replacement [sanitize_filename] is idempotent: a
    sanitized name is returned as it is. *)
Theorem sanitize_filename_idempotent (filename replacement : string) :
  sexists FileNames.invalid_char replacement = false ->
  FileNames.sanitize_filename (FileNames.sanitize_filename filename replacement) replacement
  = FileNames.sanitize_filename filename replacement.
Proof.
  intros Hr.
  assert (forall t, sexists FileNames.invalid_char t = false ->
                    FileNames.rstrip (fun c => Ascii.eqb c "." || Ascii.eqb c " ") t = t ->
                    t <> EmptyString ->
                    FileNames.sanitize_filename t replacement = t) as Hfixed.
  { intros t Hc Hs Hn. unfold FileNames.sanitize_filename.
    rewrite FileNameFacts.sub_class_fixed by assumption. rewrite Hs.
    now destruct t. }
  apply Hfixed.
  - now apply FileNameFacts.sanitized_clean_chars.
  - unfold FileNames.sanitize_filename.
    destruct (FileNames.rstrip _ (FileNames.sub_class _ _ _)) eqn:E; [reflexivity|].
    rewrite <- E. apply FileNameFacts.rstrip_idempotent.
  - apply FileNameFacts.sanitized_not_empty.
Qed.

Lemma sanitize_filename_idempotent_witness :
  FileNames.sanitize_filename (FileNames.sanitize_filename "a<b>: c?. ." "_") "_"
  = FileNames.sanitize_filename "a<b>: c?. ." "_".
Proof. apply (sanitize_filename_idempotent "a<b>: c?. ." "_"). reflexivity. Defined.

(** ** utils.py: what the binary-file test counts *)

Module FileKindFacts.
Import World FileKinds.

Lemma contains_char (x : ascii) (s : string) :
  contains (String x EmptyString) s = sexists (Ascii.eqb x) s.
Proof.
  induction s as [|c s IH]; [reflexivity|].
  cbn [contains startswith sexists]. rewrite IH.
  now destruct (Ascii.eqb x c), s.
Qed.

Lemma delete_all (delete : ascii -> bool) (chunk : string) :
  sforall delete chunk = true -> translate_delete delete chunk = EmptyString.
Proof.
  induction chunk as [|c r IH]; [reflexivity|]. cbn [sforall translate_delete].
  intros H. apply andb_prop in H as [Hc Hr]. now rewrite Hc, IH.
Qed.

Lemma delete_none (delete : ascii -> bool) (chunk : string) :
  sexists delete chunk = false -> translate_delete delete chunk = chunk.
Proof.
  induction chunk as [|c r IH]; [reflexivity|]. cbn [sexists translate_delete].
  intros H. apply orb_false_iff in H as [Hc Hr]. now rewrite Hc, IH.
Qed.

Lemma text_has_no_zero (chunk : string) :
  sforall text_char chunk = true -> sexists (Ascii.eqb Ascii.zero) chunk = false.
Proof.
  induction chunk as [|c r IH]; [reflexivity|]. cbn [sforall sexists].
  intros H. apply andb_prop in H as [Hc Hr]. rewrite (IH Hr), orb_false_r.
  destruct (Ascii.eqb Ascii.zero c) eqn:E; [|reflexivity].
  apply Ascii.eqb_eq in E as <-. discriminate.
Qed.

Lemma take_not_empty (n : nat) (s : string) :
  s <> EmptyString -> 0 < length (take (S n) s).
Proof. destruct s; [congruence|]. cbn [take length]. lia. Qed.

End FileKindFacts.

(** X9: [is_binary_file] subtracts from the length of the chunk the length
    of what is left once the text bytes are deleted, which counts the text
    bytes: a file that is not empty and whose first 1024 bytes are all text
    bytes is reported as binary, and one whose first 1024 bytes hold neither
    a text byte nor a zero byte is reported as not binary. *)
Theorem is_binary_file_counts_text_bytes
    (file_path : Path) (f content : string) (s : World.State) :
  World.lookup (World.fs s) file_path = Some (World.File f content) ->
  content <> EmptyString ->
  (sforall FileKinds.text_char (take 1024 content) = true ->
   FileKinds.is_binary_file file_path s = (Return true, s))
  /\ (sexists (fun c => FileKinds.text_char c || Ascii.eqb Ascii.zero c) (take 1024 content) = false ->
      FileKinds.is_binary_file file_path s = (Return false, s)).
Proof.
  intros Hfile Hne.
  pose proof (FileKindFacts.take_not_empty 1023 content Hne) as Hlen.
  unfold FileKinds.is_binary_file, World.try_catch, World.mbind, World.read_file.
  rewrite Hfile. rewrite FileKindFacts.contains_char.
  split; intros H.
  - rewrite (FileKindFacts.text_has_no_zero _ H).
    rewrite (FileKindFacts.delete_all _ _ H).
    apply Nat.ltb_lt in Hlen as Hlen'. rewrite Hlen'. unfold World.ret.
    do 2 f_equal. apply Nat.ltb_lt. cbn [length]. lia.
  - assert (sexists (Ascii.eqb Ascii.zero) (take 1024 content) = false
            /\ sexists FileKinds.text_char (take 1024 content) = false) as [Hz Ht].
    { revert H. generalize (take 1024 content). intros t.
      induction t as [|c t IH]; [now split|]. cbn [sexists]. intros H.
      apply orb_false_iff in H as [Hc Hr]. apply orb_false_iff in Hc as [Hc1 Hc2].
      destruct (IH Hr) as [IH1 IH2]. now rewrite Hc1, Hc2, IH1, IH2. }
    rewrite Hz. rewrite (FileKindFacts.delete_none _ _ Ht).
    apply Nat.ltb_lt in Hlen as Hlen'. rewrite Hlen'. unfold World.ret.
    do 2 f_equal. apply Nat.ltb_ge. lia.
Qed.

Lemma is_binary_file_counts_text_bytes_witness :
  let s := Examples.fresh_process Examples.nested_project in
  FileKinds.is_binary_file ["proj"; "README.md"] s = (Return true, s).
Proof.
  apply (proj1 (is_binary_file_counts_text_bytes ["proj"; "README.md"] "README.md"
                  "The old_app tool."
                  (Examples.fresh_process Examples.nested_project)
                  eq_refl ltac:(discriminate))).
  reflexivity.
Defined.

(** X10: [is_binary_file] raises nothing and leaves the world as it is; a
    path that cannot be read as a file, missing or a directory, is reported as
    binary, and an empty file as not binary. *)
Theorem is_binary_file_never_raises (file_path : Path) (s : World.State) :
  exists answer,
    FileKinds.is_binary_file file_path s = (Return answer, s)
    /\ match World.lookup (World.fs s) file_path with
       | Some (World.File _ EmptyString) => answer = false
       | Some (World.File _ _) => True
       | _ => answer = true
       end.
Proof.
  unfold FileKinds.is_binary_file, World.try_catch, World.mbind, World.read_file.
  destruct (World.lookup (World.fs s) file_path) as [[f content|d entries]|].
  - destruct content as [|c content]; [now exists false|].
    destruct (contains _ _); [now exists true|].
    destruct (Nat.ltb _ _); eexists; split; reflexivity || exact I.
  - now exists true.
  - now exists true.
Qed.

(** ** project_renamer.py: exclusion, generated names, construction *)

Module ExclusionFacts.
Import ProjectRenamer.

Lemma contains_after (p before n : string) :
  contains p n = true -> contains p (before ++ n) = true.
Proof.
  intros H. induction before as [|c before IH]; [assumption|].
  cbn [append contains]. rewrite IH. apply orb_true_r.
Qed.

Lemma contains_self (p : string) : contains p p = true.
Proof.
  destruct p as [|c p]; [reflexivity|]. cbn [contains].
  pose proof (startswith_refl (String c p) EmptyString) as H.
  rewrite append_nil_r in H. now rewrite H.
Qed.

Lemma endswith_after (q before n : string) :
  endswith q n = true -> endswith q (before ++ n) = true.
Proof.
  unfold endswith. intros H. apply andb_prop in H as [Hlen Heq].
  apply Nat.leb_le in Hlen. rewrite length_append.
  apply andb_true_intro; split; [apply Nat.leb_le; lia|].
  replace (length before + length n - length q)
    with (length before + (length n - length q)) by lia.
  clear Hlen. induction before as [|c before IH]; [assumption|]. exact IH.
Qed.

End ExclusionFacts.

(** X11: a pattern of the exclusion list excludes every name in which it
    occurs, not only the name equal to it: when a name is excluded, so is
    every name that ends with it (with the default list, which holds [env],
    a name such as [my_env] is excluded because [env] is). *)
Theorem excluded_name_excludes_longer_names
    (self : ProjectRenamer.ProjectRenamer) (n before : string) :
  ProjectRenamer._is_excluded self n = true ->
  ProjectRenamer._is_excluded self (before ++ n) = true.
Proof.
  unfold ProjectRenamer._is_excluded. intros H.
  apply existsb_exists in H as (pattern & Hin & H). apply existsb_exists.
  exists pattern. split; [assumption|].
  apply orb_prop in H as [H|H].
  - apply orb_prop in H as [H|H].
    + apply andb_prop in H as [Hstar Hend].
      now rewrite Hstar, (ExclusionFacts.endswith_after _ before _ Hend).
    + apply String.eqb_eq in H as ->.
      rewrite (ExclusionFacts.contains_after n before n (ExclusionFacts.contains_self n)).
      apply orb_true_r.
  - rewrite (ExclusionFacts.contains_after _ before _ H). apply orb_true_r.
Qed.

Lemma excluded_name_excludes_longer_names_witness :
  ProjectRenamer._is_excluded
    (Examples.renamer_of (Examples.default_config "old_app" "new_app" ["proj"]))
    ("my_" ++ "env") = true.
Proof.
  apply (excluded_name_excludes_longer_names
           (Examples.renamer_of (Examples.default_config "old_app" "new_app" ["proj"]))
           "env" "my_").
  reflexivity.
Defined.

(** X12: the name that [_generate_new_name] returns is the new name or one
    of its five case forms, whatever the original name: nothing of the
    original name, such as the extension of a file name, is carried over. *)
Theorem generated_name_is_a_form_of_new_name
    (self : ProjectRenamer.ProjectRenamer) (original_name : string) :
  In (ProjectRenamer._generate_new_name self original_name)
     (map (fun form => form (ProjectRenamer.new_name (ProjectRenamer.config self)))
        [ (fun new => new); lower; upper; title;
          ProjectRenamer._to_snake_case; ProjectRenamer._to_pascal_case ]).
Proof.
  unfold ProjectRenamer._generate_new_name. cbn [map In].
  repeat match goal with
         | |- context [if ?b then _ else _] => destruct b
         end; tauto.
Qed.

(** X13: with [preserve_case] set, [_compile_patterns] raises [TypeError]
    ([re.compile] takes no [repl] argument), and so no [ProjectRenamer] is
    ever constructed for such a configuration: [__init__] raises, either the
    exception of [_setup_logging] or that [TypeError]. *)
Theorem preserve_case_renamer_is_never_built
    (c : ProjectRenamer.RenameConfig) (s : World.State) :
  ProjectRenamer.preserve_case c = true ->
  ProjectRenamer._compile_patterns c = Raise TypeError
  /\ exists e s',
       ProjectRenamer.__init__ c s = (Raise e, s')
       /\ (e = TypeError
           \/ fst (ProjectRenamer._setup_logging c
                     (World.set_errors [] (World.set_backup_paths []
                        (World.set_changed_files [] s)))) = Raise e).
Proof.
  intros Hp. unfold ProjectRenamer._compile_patterns. rewrite Hp.
  split; [reflexivity|].
  unfold ProjectRenamer.__init__, World.mbind, World.modify.
  unfold ProjectRenamer._compile_patterns. rewrite Hp.
  destruct (ProjectRenamer._setup_logging c _) as [[[]|e] s1].
  - exists TypeError, s1. split; [reflexivity | now left].
  - exists e, s1. split; [reflexivity | now right].
Qed.

Lemma preserve_case_renamer_is_never_built_witness :
  ProjectRenamer._compile_patterns
    (ProjectRenamer.mkConfig "old_app" "new_app" ["proj"] false false
       ProjectRenamer.default_file_types ProjectRenamer.default_exclude_patterns false true)
  = Raise TypeError.
Proof.
  apply (proj1 (preserve_case_renamer_is_never_built
                  (ProjectRenamer.mkConfig "old_app" "new_app" ["proj"] false false
                     ProjectRenamer.default_file_types
                     ProjectRenamer.default_exclude_patterns false true)
                  (Examples.fresh_process Examples.nested_project) eq_refl)).
Defined.

(** ** project_renamer.py: what the scan selects *)

Module ScanFacts.
Import World ProjectRenamer ScanSpec.
Local Open Scope world_scope.

Lemma ensures_ret {A} (a : A) (Q : A -> Prop) : Q a -> ensures (ret a) Q.
Proof. intros H s. exact H. Qed.

Lemma ensures_bind {A B} (m : M A) (k : A -> M B) (P : A -> Prop) (Q : B -> Prop) :
  ensures m P -> (forall a, P a -> ensures (k a) Q) -> ensures (mbind m k) Q.
Proof.
  intros Hm Hk s. unfold mbind. specialize (Hm s).
  destruct (m s) as [[a|e] s1]; [|exact I]. exact (Hk a Hm s1).
Qed.

Lemma ensures_any {A} (m : M A) : ensures m (fun _ => True).
Proof. intros s. now destruct (fst (m s)). Qed.

Lemma ensures_fold {A B} (Q : B -> Prop) (step : B -> A -> M B) (l : list A) :
  (forall b x, Q b -> ensures (step b x) Q) ->
  forall init : M B, ensures init Q ->
  ensures (fold_left (fun acc x => mbind acc (fun b => step b x)) l init) Q.
Proof.
  intros Hs. induction l as [|x l IH]; intros init Hi; [assumption|].
  cbn [fold_left]. apply IH. eapply ensures_bind; [exact Hi | exact (fun b Hb => Hs b x Hb)].
Qed.

Lemma fold_left_invariant_in {A B} (P : B -> Prop) (f : B -> A -> B) (l : list A) :
  (forall b x, In x l -> P b -> P (f b x)) -> forall init, P init -> P (fold_left f l init).
Proof.
  induction l as [|x l IH]; intros Hf init Hi; [assumption|].
  cbn [fold_left]. apply IH.
  - intros b y Hy. apply Hf. now right.
  - apply Hf; [now left | assumption].
Qed.

Section Scan.
Variable self : ProjectRenamer.

Let allowed (below : Path) : Prop :=
  Forall (fun component => _is_excluded self component = false) below.

Let good (r : ScanResults) : Prop := counts_add_up r /\ selected_as_asked self r.

Lemma below_child (below : Path) (n : string) :
  allowed below -> _is_excluded self n = false ->
  below_project self (joinpath (project_path (config self) ++ below)%list n).
Proof.
  intros Hb Hn. exists (below ++ [n])%list. unfold joinpath.
  rewrite app_assoc. split; [reflexivity|]. split; [now destruct below|].
  apply Forall_app; split; [assumption | now constructor].
Qed.

Lemma scan_directory_good (below : Path) (entries : list node) (results : ScanResults) :
  allowed below -> good results ->
  ensures (scan_directory self (project_path (config self) ++ below)%list entries results)
          good.
Proof.
  intros Hb Hgood. unfold scan_directory.
  eapply ensures_bind.
  - apply (ensures_fold good
             (fun r file =>
                if _is_excluded self file then ret r
                else _)); [|now apply ensures_ret].
    intros r file ((Hd & Hr & Hm) & (Sr & Sm & Sd)).
    destruct (_is_excluded self file) eqn:Hex; [now apply ensures_ret|].
    pose proof (below_child below file Hb Hex) as Hpath.
    set (file_path := joinpath (project_path (config self) ++ below)%list file) in *.
    assert (good
              (if _should_rename_file self file_path
               then mkScan (files_to_modify r) (files_to_rename r ++ [file_path])%list
                      (directories_to_rename r) (S (total_files r)) (total_directories r)
               else mkScan (files_to_modify r) (files_to_rename r)
                      (directories_to_rename r) (S (total_files r)) (total_directories r)))
      as Hnext.
    { unfold good, counts_add_up, selected_as_asked.
      destruct (_should_rename_file self file_path) eqn:Hsel; cbn.
      - rewrite length_app. cbn [List.length].
        repeat split; try lia; try assumption.
        apply Forall_app; split; [assumption|]. now repeat constructor.
      - repeat split; try lia; assumption. }
    cbn [files_to_modify files_to_rename directories_to_rename total_files
         total_directories].
    destruct (_should_rename_file self file_path);
      cbn [files_to_modify files_to_rename directories_to_rename total_files
           total_directories] in *.
    all: destruct (_should_modify_file self file_path) eqn:Hmod;
      [|now apply ensures_ret].
    all: eapply ensures_bind; [apply ensures_any|].
    all: intros [|] _; apply ensures_ret; [|assumption].
    all: destruct Hnext as ((Hd' & Hr' & Hm') & (Sr' & Sm' & Sd')); cbn in *.
    all: unfold good, counts_add_up, selected_as_asked; cbn.
    all: rewrite ?length_app in *; cbn [List.length] in *.
    all: repeat split; try lia; try assumption.
    all: apply Forall_app; split; [assumption|]; now repeat constructor.
  - intros r Hr. apply ensures_ret.
    apply (fold_left_invariant_in good); [|assumption].
    intros r' d Hin ((Hd & Hr' & Hm) & (Sr & Sm & Sd)).
    apply filter_In in Hin as [_ Hex]. apply negb_true_iff in Hex.
    rewrite should_rename_directory_always.
    unfold good, counts_add_up, selected_as_asked; cbn.
    rewrite length_app. cbn [List.length].
    repeat split; try lia; try assumption.
    apply Forall_app; split; [assumption|]. constructor; [|constructor].
    now apply below_child.
Qed.

Lemma walk_good (n : node) :
  forall (below : Path) (results : ScanResults),
    allowed below -> good results ->
    ensures (walk self (project_path (config self) ++ below)%list n results) good.
Proof.
  induction n as [f c|d entries IH] using RunFacts.node_tree_ind;
    intros below results Hb Hgood.
  - now apply ensures_ret.
  - cbn [walk]. eapply ensures_bind; [now apply scan_directory_good|].
    clear results Hgood.
    induction IH as [|e entries He _ IHentries]; intros results Hgood.
    + now apply ensures_ret.
    + eapply ensures_bind; [|exact IHentries].
      destruct (is_dir e); [|now apply ensures_ret].
      destruct (_is_excluded self (node_name e)) eqn:Hex; [now apply ensures_ret|].
      cbn [andb negb]. unfold joinpath. rewrite <- app_assoc.
      apply He; [|assumption].
      apply Forall_app; split; [assumption | now constructor].
Qed.

Lemma scan_project_good : ensures (scan_project self) good.
Proof.
  unfold scan_project.
  eapply ensures_bind; [apply ensures_any | intros _ _].
  eapply ensures_bind; [apply ensures_any | intros s _].
  assert (good no_results) as Hempty.
  { unfold good, counts_add_up, selected_as_asked; cbn. repeat split; auto. }
  destruct (lookup (fs s) (project_path (config self))) as [[f c|d entries]|];
    try now apply ensures_ret.
  pose proof (walk_good (Dir d entries) [] no_results (Forall_nil _) Hempty) as H.
  now rewrite app_nil_r in H.
Qed.

(** The scan returns, with no effect but that of log records, results that
    satisfy both invariants. *)
Lemma scan_project_returns_good (s : State) :
  exists r records,
    scan_project self s = (Return r, emit_records records s)
    /\ counts_add_up r /\ selected_as_asked self r.
Proof.
  destruct (RunFacts.logs_only_scan_project self s) as (records & r & E).
  exists r, records. split; [assumption|].
  pose proof (scan_project_good s) as H. now rewrite E in H.
Qed.

End Scan.
End ScanFacts.

(** X14: the scan returns without raising and with no effect but that of
    its log records; it selects every directory it counts (the directory
    predicate holds of every directory), and it selects no more files to
    rename, and no more files to modify, than it counted files. *)
Theorem scan_selects_every_counted_directory
    (self : ProjectRenamer.ProjectRenamer) (s : World.State) :
  exists r records,
    ProjectRenamer.scan_project self s = (Return r, World.emit_records records s)
    /\ List.length (ProjectRenamer.directories_to_rename r)
       = ProjectRenamer.total_directories r
    /\ List.length (ProjectRenamer.files_to_rename r) <= ProjectRenamer.total_files r
    /\ List.length (ProjectRenamer.files_to_modify r) <= ProjectRenamer.total_files r.
Proof.
  destruct (ScanFacts.scan_project_returns_good self s) as (r & records & E & H & _).
  exists r, records. split; [assumption | exact H].
Qed.

(** X15: every path that the scan selects lies below the project directory
    and runs through no excluded name, directory or file; the files to rename
    are picked by [_should_rename_file] and the files to modify by
    [_should_modify_file]. *)
Theorem scan_selects_below_project_only
    (self : ProjectRenamer.ProjectRenamer) (s : World.State) :
  exists r records,
    ProjectRenamer.scan_project self s = (Return r, World.emit_records records s)
    /\ Forall (fun p => ScanSpec.below_project self p
                        /\ ProjectRenamer._should_rename_file self p = true)
              (ProjectRenamer.files_to_rename r)
    /\ Forall (fun p => ScanSpec.below_project self p
                        /\ ProjectRenamer._should_modify_file self p = true)
              (ProjectRenamer.files_to_modify r)
    /\ Forall (ScanSpec.below_project self) (ProjectRenamer.directories_to_rename r).
Proof.
  destruct (ScanFacts.scan_project_returns_good self s) as (r & records & E & _ & H).
  exists r, records. split; [assumption | exact H].
Qed.

(** ** The file tree under the log records *)

Module TreeFacts.
Import World ProjectRenamer Report.

Lemma find_child_name (d : string) (entries : list node) (e : node) :
  find_child d entries = Some e -> node_name e = d.
Proof.
  induction entries as [|x entries IH]; [discriminate|]. cbn [find_child].
  destruct (String.eqb (node_name x) d) eqn:E; [|assumption].
  intros H. injection H as <-. now apply String.eqb_eq.
Qed.

Lemma find_child_map (g : node -> node) (d : string) (entries : list node) :
  (forall e, node_name (g e) = node_name e) ->
  find_child d (map g entries) = option_map g (find_child d entries).
Proof.
  intros Hg. induction entries as [|x entries IH]; [reflexivity|].
  cbn [map find_child]. rewrite Hg. now destruct (String.eqb (node_name x) d).
Qed.

Lemma dir_names_map (g : node -> node) (entries : list node) :
  (forall e, node_name (g e) = node_name e) -> (forall e, is_dir (g e) = is_dir e) ->
  dir_names (map g entries) = dir_names entries.
Proof.
  intros Hn Hd. unfold dir_names. induction entries as [|x entries IH]; [reflexivity|].
  cbn [map filter]. rewrite Hd. destruct (is_dir x); cbn [map]; now rewrite ?Hn, IH.
Qed.

Lemma dir_names_append_entry (n text : string) (entries : list node) :
  dir_names (append_entry n text entries) = dir_names entries.
Proof.
  unfold dir_names. induction entries as [|x entries IH]; [reflexivity|].
  cbn [append_entry]. destruct (String.eqb (node_name x) n).
  - now destruct x.
  - cbn [filter]. destruct (is_dir x); cbn [map]; now rewrite IH.
Qed.

Lemma find_child_append_entry (n text d x : string) (sub entries : list node) :
  find_child d entries = Some (Dir x sub) ->
  find_child d (append_entry n text entries) = Some (Dir x sub).
Proof.
  induction entries as [|e entries IH]; [discriminate|].
  cbn [find_child append_entry].
  destruct (String.eqb (node_name e) n) eqn:En.
  - destruct e as [f c|y es]; [|trivial].
    cbn [node_name] in *. apply String.eqb_eq in En as ->.
    cbn [find_child node_name]. now destruct (String.eqb n d).
  - cbn [find_child]. now destruct (String.eqb (node_name e) d).
Qed.

(** The map that [update_dir] applies to the entries above its target. *)
Lemma update_step_name (f : list node -> list node) (d : string) (p : Path) (e : node) :
  node_name
    (match e with
     | Dir n entries => if String.eqb n d then Dir n (update_dir f p entries) else e
     | File _ _ => e
     end) = node_name e.
Proof. destruct e as [|n es]; [reflexivity|]. now destruct (String.eqb n d). Qed.

Lemma update_step_dir (f : list node -> list node) (d : string) (p : Path) (e : node) :
  is_dir
    (match e with
     | Dir n entries => if String.eqb n d then Dir n (update_dir f p entries) else e
     | File _ _ => e
     end) = is_dir e.
Proof. destruct e as [|n es]; [reflexivity|]. now destruct (String.eqb n d). Qed.

(** A record appended to a log file keeps every directory, with the names
    of the directories it lists. *)
Lemma listdir_logged (n text : string) (p : Path) :
  forall (q : Path) (files entries : list node),
    listdir files p = Some entries ->
    exists entries',
      listdir (update_dir (append_entry n text) q files) p = Some entries'
      /\ dir_names entries' = dir_names entries.
Proof.
  induction p as [|d p IH]; intros q files entries H.
  - cbn [listdir] in *. injection H as <-. eexists. split; [reflexivity|].
    destruct q as [|d q]; cbn [update_dir].
    + apply dir_names_append_entry.
    + apply dir_names_map; intros e; [apply update_step_name | apply update_step_dir].
  - cbn [listdir] in H. destruct (find_child d files) as [[|x sub]|] eqn:Hc; try discriminate.
    destruct q as [|d' q]; cbn [update_dir listdir].
    + rewrite (find_child_append_entry _ _ _ _ _ _ Hc). now exists entries.
    + rewrite find_child_map by (intros e; apply update_step_name).
      rewrite Hc. cbn [option_map].
      destruct (String.eqb x d'); [now apply IH | now exists entries].
Qed.

Lemma listdir_updated (g : list node -> list node) (p : Path) :
  forall files entries,
    listdir files p = Some entries ->
    listdir (update_dir g p files) p = Some (g entries).
Proof.
  induction p as [|d p IH]; intros files entries H.
  - cbn [listdir] in *. now injection H as <-.
  - cbn [listdir] in H. destruct (find_child d files) as [[|x sub]|] eqn:Hc; try discriminate.
    cbn [update_dir listdir].
    rewrite find_child_map by (intros e; apply update_step_name).
    rewrite Hc. cbn [option_map].
    apply find_child_name in Hc. cbn [node_name] in Hc. subst x.
    rewrite String.eqb_refl. now apply IH.
Qed.

Lemma listdir_snoc (p : Path) (d : string) :
  forall files,
    listdir files (p ++ [d])%list
    = match listdir files p with
      | Some entries =>
          match find_child d entries with
          | Some (Dir _ sub) => Some sub
          | _ => None
          end
      | None => None
      end.
Proof.
  induction p as [|x p IH]; intros files.
  - simpl. destruct (find_child d files) as [[f c|y sub]|]; reflexivity.
  - simpl. destruct (find_child x files) as [[f c|y sub]|]; try reflexivity.
    apply IH.
Qed.

Lemma lookup_of_listdir (files : list node) (p : Path) (entries : list node) :
  listdir files p = Some entries -> exists x, lookup files p = Some (Dir x entries).
Proof.
  intros H. destruct p as [|a p].
  - cbn [listdir] in H. injection H as <-. now exists EmptyString.
  - assert (a :: p <> []) as Hne by discriminate.
    rewrite (app_removelast_last EmptyString Hne) in H.
    rewrite listdir_snoc in H. unfold lookup, parent, name.
    destruct (listdir files (removelast (a :: p))) as [es|]; [|discriminate].
    destruct (find_child (last (a :: p) EmptyString) es) as [[|x sub]|]; try discriminate.
    injection H as ->. now exists x.
Qed.

Lemma handle_keeps_subdirectory (p : Path) (b line : string) (h : Handler) (s : State) :
  has_subdirectory (fs s) p b -> has_subdirectory (fs (handle line s h)) p b.
Proof.
  intros (entries & Hl & Hin). destruct h as [|log_path]; [now exists entries|].
  cbn [handle set_fs fs].
  destruct (listdir_logged (name log_path) (line ++ String newline EmptyString) p
              (parent log_path) _ _ Hl) as (entries' & Hl' & Hd).
  exists entries'. split; [assumption|]. now rewrite Hd.
Qed.

Lemma handlers_keep_subdirectory (p : Path) (b line : string) (hs : list Handler) :
  forall s, has_subdirectory (fs s) p b ->
            has_subdirectory (fs (fold_left (handle line) hs s)) p b.
Proof.
  induction hs as [|h hs IH]; intros s H; [assumption|].
  cbn [fold_left]. now apply IH, handle_keeps_subdirectory.
Qed.

Lemma records_keep_subdirectory (p : Path) (b : string) (records : list string) :
  forall s, has_subdirectory (fs s) p b -> has_subdirectory (fs (emit_records records s)) p b.
Proof.
  unfold emit_records. induction records as [|line records IH]; intros s H; [assumption|].
  cbn [fold_left]. now apply IH, handlers_keep_subdirectory.
Qed.

(** Log records leave the clock and the fields of the renamer alone. *)
Lemma handlers_keep_fields (line : string) (hs : list Handler) :
  forall s,
    let s' := fold_left (handle line) hs s in
    clock_stamp s' = clock_stamp s /\ changed_files s' = changed_files s
    /\ backup_paths s' = backup_paths s /\ errors s' = errors s.
Proof.
  induction hs as [|h hs IH]; intros s; [now repeat split|].
  cbn [fold_left]. cbv zeta in *.
  destruct (IH (handle line s h)) as (H1 & H2 & H3 & H4).
  rewrite H1, H2, H3, H4. now destruct h.
Qed.

Lemma records_keep_fields (records : list string) :
  forall s,
    let s' := emit_records records s in
    clock_stamp s' = clock_stamp s /\ changed_files s' = changed_files s
    /\ backup_paths s' = backup_paths s /\ errors s' = errors s.
Proof.
  unfold emit_records. induction records as [|line records IH]; intros s; [now repeat split|].
  cbn [fold_left]. cbv zeta in *.
  destruct (IH (fold_left (handle line) (root_handlers s) s)) as (H1 & H2 & H3 & H4).
  destruct (handlers_keep_fields line (root_handlers s) s) as (K1 & K2 & K3 & K4).
  cbv zeta in *. now rewrite H1, H2, H3, H4, K1, K2, K3, K4.
Qed.

End TreeFacts.

(** ** project_renamer.py: a run with its backup *)

Module BackupRunFacts.
Import World ProjectRenamer Report ScanSpec ScanFacts.
Local Open Scope world_scope.

Section Run.
Variable self : ProjectRenamer.

Let selected (r : ScanResults) : Prop := directories_to_rename r <> [].

Lemma scan_directory_selects (root : Path) (entries : list node) (results : ScanResults) :
  selected results
  \/ (exists d, In d (dir_names entries) /\ _is_excluded self d = false) ->
  ensures (scan_directory self root entries results) selected.
Proof.
  intros Hsome. unfold scan_directory.
  eapply ensures_bind with
    (P := fun r => directories_to_rename r = directories_to_rename results).
  - apply (ensures_fold _
             (fun r file =>
                if _is_excluded self file then ret r
                else _)); [|now apply ensures_ret].
    intros r file Hr.
    destruct (_is_excluded self file); [now apply ensures_ret|].
    destruct (_should_rename_file self (joinpath root file));
      cbn [files_to_modify files_to_rename directories_to_rename total_files
           total_directories].
    all: destruct (_should_modify_file self (joinpath root file));
      [|now apply ensures_ret].
    all: eapply ensures_bind; [apply ensures_any|].
    all: intros [|] _; now apply ensures_ret.
  - intros r Hr. apply ensures_ret. unfold selected in *. rewrite <- Hr in Hsome.
    assert (directories_to_rename r <> []
            \/ filter (fun d => negb (_is_excluded self d)) (dir_names entries) <> [])
      as Hstart.
    { destruct Hsome as [H|(d & Hin & Hex)]; [now left | right].
      intros Hnil.
      assert (In d (filter (fun d => negb (_is_excluded self d)) (dir_names entries))) as Hd
        by (apply filter_In; split; [assumption | now rewrite Hex]).
      now rewrite Hnil in Hd. }
    clear Hsome Hr. revert r Hstart.
    generalize (filter (fun d => negb (_is_excluded self d)) (dir_names entries)) as l.
    induction l as [|d l IH]; intros r Hstart.
    + now destruct Hstart.
    + cbn [fold_left]. apply IH. left.
      rewrite should_rename_directory_always. cbn [directories_to_rename].
      now destruct (directories_to_rename r).
Qed.

Lemma walk_keeps_selected (n : node) :
  forall (root : Path) (results : ScanResults),
    selected results -> ensures (walk self root n results) selected.
Proof.
  induction n as [f c|d entries IH] using RunFacts.node_tree_ind; intros root results Hsel.
  - now apply ensures_ret.
  - cbn [walk]. eapply ensures_bind; [apply scan_directory_selects; now left|].
    clear results Hsel.
    induction IH as [|e entries He _ IHentries]; intros results Hsel.
    + now apply ensures_ret.
    + eapply ensures_bind; [|exact IHentries].
      destruct (is_dir e && negb (_is_excluded self (node_name e)));
        [now apply He | now apply ensures_ret].
Qed.

Lemma walk_selects_subdirectory (root : Path) (x b : string) (entries : list node) :
  In b (dir_names entries) -> _is_excluded self b = false ->
  ensures (walk self root (Dir x entries) no_results) selected.
Proof.
  intros Hin Hex. cbn [walk].
  eapply ensures_bind; [apply scan_directory_selects; right; now exists b|].
  clear Hin Hex.
  induction entries as [|e entries IHentries]; intros results Hsel.
  - now apply ensures_ret.
  - eapply ensures_bind; [|exact IHentries].
    destruct (is_dir e && negb (_is_excluded self (node_name e)));
      [now apply walk_keeps_selected | now apply ensures_ret].
Qed.

(** A scan of a project directory that lists a directory whose name is not
    excluded returns with a directory selected. *)
Lemma scan_selects_subdirectory (b : string) (s : State) :
  has_subdirectory (fs s) (project_path (config self)) b ->
  _is_excluded self b = false ->
  exists r records,
    scan_project self s = (Return r, emit_records records s)
    /\ directories_to_rename r <> [].
Proof.
  intros Hdir Hex.
  destruct (RunFacts.logs_only_scan_project self s) as (records & r & E).
  exists r, records. split; [assumption|].
  revert E. unfold scan_project, mbind.
  destruct (RunFacts.logs_only_log INFO
              ("Scanning project at: " ++ path_str (project_path (config self))) s)
    as (r1 & [] & E1).
  rewrite E1. unfold get_state.
  destruct (TreeFacts.records_keep_subdirectory _ _ r1 _ Hdir) as (entries & Hl & Hin).
  destruct (TreeFacts.lookup_of_listdir _ _ _ Hl) as (x & Hlook).
  rewrite Hlook. intros E.
  pose proof (walk_selects_subdirectory (project_path (config self)) x b entries Hin Hex
                (emit_records r1 s)) as H.
  now rewrite E in H.
Qed.

(** A backup that succeeds leaves the backup directory in the project
    directory. *)
Lemma backup_leaves_directory (s s' : State) :
  backup_enabled (config self) = true ->
  create_backup self s = (Return true, s') ->
  has_subdirectory (fs s') (project_path (config self)) (backup_name s).
Proof.
  intros Hb. unfold create_backup. rewrite Hb. cbn [negb].
  unfold mbind at 1. unfold get_state. unfold try_catch, mbind.
  destruct (RunFacts.logs_only_log INFO
              ("Creating backup at: "
               ++ path_str (joinpath (project_path (config self))
                              ("backup_" ++ clock_stamp s))) s)
    as (r1 & [] & E1).
  rewrite E1. unfold copytree_into.
  destruct (listdir (fs (emit_records r1 s)) (project_path (config self)))
    as [entries|] eqn:Hl.
  - destruct (find_child ("backup_" ++ clock_stamp s) entries) eqn:Hc.
    + destruct (RunFacts.logs_only_log ERROR
                  ("Failed to create backup: " ++ exn_str FileExistsError)
                  (emit_records r1 s)) as (r2 & [] & E2).
      rewrite E2. unfold ret. discriminate.
    + unfold modify, ret. intros E. injection E as <-.
      cbn [set_backup_paths set_fs fs].
      unfold has_subdirectory. eexists.
      split; [apply (TreeFacts.listdir_updated _ _ _ _ Hl)|].
      unfold dir_names. rewrite filter_app, map_app. apply in_or_app. right.
      now left.
  - destruct (RunFacts.logs_only_log ERROR
                ("Failed to create backup: " ++ exn_str FileNotFoundError)
                (emit_records r1 s)) as (r2 & [] & E2).
    rewrite E2. unfold ret. discriminate.
Qed.

End Run.
End BackupRunFacts.

(** X16: a live run with the backup enabled raises [TypeError] whenever the
    backup succeeds and the name of the backup directory is not excluded: the
    backup directory lies in the project directory, the scan selects it as it
    selects every directory, and sorting the selected directories by [len]
    fails.  The files have been renamed by then; no directory is renamed and
    no file is modified. *)
Theorem live_run_with_backup_raises
    (self : ProjectRenamer.ProjectRenamer) (s : World.State) :
  ProjectRenamer.dry_run (ProjectRenamer.config self) = false ->
  ProjectRenamer.backup_enabled (ProjectRenamer.config self) = true ->
  ProjectRenamer._is_excluded self (Report.backup_name s) = false ->
  fst (ProjectRenamer.create_backup self
         (snd (World.log World.INFO "Starting project rename operation" s)))
  = Return true ->
  fst (ProjectRenamer.rename_project self s) = Raise TypeError.
Proof.
  intros Hdry Hbackup Hex Hok.
  unfold ProjectRenamer.rename_project, World.mbind.
  destruct (RunFacts.logs_only_log World.INFO "Starting project rename operation" s)
    as (r1 & [] & E1).
  rewrite E1 in *. cbn [snd] in Hok.
  destruct (ProjectRenamer.create_backup self (World.emit_records r1 s))
    as [backed_up s2] eqn:E2.
  cbn [fst] in Hok. subst backed_up. cbn [negb].
  pose proof (BackupRunFacts.backup_leaves_directory self _ _ Hbackup E2) as Hdir.
  assert (Report.backup_name (World.emit_records r1 s) = Report.backup_name s) as Hname.
  { unfold Report.backup_name.
    now destruct (TreeFacts.records_keep_fields r1 s) as (-> & _). }
  rewrite Hname in Hdir.
  destruct (BackupRunFacts.scan_selects_subdirectory self _ s2 Hdir Hex)
    as (r & records & E3 & Hsel).
  rewrite E3, Hdry.
  destruct (LiveRunFacts.returns_all_steps (ProjectRenamer._rename_file self)
              (ProjectRenamer.files_to_rename r)
              (LiveRunFacts.returns_rename_file self) true
              (World.emit_records records s2)) as (ok & s3 & E4).
  rewrite E4.
  destruct (ProjectRenamer.directories_to_rename r) as [|d l]; [congruence|].
  reflexivity.
Qed.

Lemma live_run_with_backup_raises_witness :
  fst (ProjectRenamer.rename_project
         (Examples.renamer_of (Examples.nested_config true false))
         (Examples.constructed (Examples.nested_config true false) Examples.nested_project))
  = Raise TypeError.
Proof.
  apply (live_run_with_backup_raises
           (Examples.renamer_of (Examples.nested_config true false))
           (Examples.constructed (Examples.nested_config true false)
              Examples.nested_project));
    reflexivity.
Defined.

Module BackupNameFacts.
Import ProjectRenamer NameShape.

Section Allowed.
Variable allowed : ascii -> bool.

Lemma startswith_allowed (p s : string) :
  startswith p s = true -> sforall allowed s = true -> sforall allowed p = true.
Proof.
  revert s; induction p as [|a p IH]; intros s H Hs; [reflexivity|].
  destruct s as [|b s]; [discriminate|]. cbn [startswith sforall] in *.
  apply andb_prop in H as [Hab H]. apply andb_prop in Hs as [Hb Hs].
  apply Ascii.eqb_eq in Hab as ->. now rewrite Hb, (IH _ H Hs).
Qed.

Lemma contains_allowed (p s : string) :
  contains p s = true -> sforall allowed s = true -> sforall allowed p = true.
Proof.
  induction s as [|b s IH]; cbn [contains]; intros H Hs.
  - rewrite orb_false_r in H. now apply (startswith_allowed _ _ H).
  - apply orb_prop in H as [H|H]; [now apply (startswith_allowed _ _ H)|].
    cbn [sforall] in Hs. apply andb_prop in Hs as [_ Hs]. now apply IH.
Qed.

Lemma drop_allowed (k : nat) (s : string) :
  sforall allowed s = true -> sforall allowed (drop k s) = true.
Proof.
  revert k; induction s as [|b s IH]; intros [|k] Hs; try assumption.
  cbn [drop]. cbn [sforall] in Hs. apply andb_prop in Hs as [_ Hs]. now apply IH.
Qed.

Lemma endswith_allowed (q s : string) :
  endswith q s = true -> sforall allowed s = true -> sforall allowed q = true.
Proof.
  unfold endswith. intros H Hs. apply andb_prop in H as [_ H].
  apply String.eqb_eq in H as <-. now apply drop_allowed.
Qed.

Lemma not_all_allowed (p : string) :
  sexists (fun c => negb (allowed c)) p = true -> sforall allowed p = false.
Proof.
  induction p as [|a p IH]; [discriminate|]. cbn [sexists sforall].
  intros H. apply orb_prop in H as [H|H].
  - apply negb_true_iff in H. now rewrite H.
  - rewrite (IH H). apply andb_false_r.
Qed.

(** A list of patterns, each with a character that no allowed name holds,
    also after the star of a pattern that starts with [*.], excludes no
    allowed name. *)
Lemma foreign_patterns_exclude_nothing (self : ProjectRenamer) (n : string) :
  forallb
    (fun pattern =>
       sexists (fun c => negb (allowed c)) pattern
       && sexists (fun c => negb (allowed c)) (drop 1 pattern))
    (exclude_patterns (config self)) = true ->
  sforall allowed n = true ->
  _is_excluded self n = false.
Proof.
  intros Hp Hn. unfold _is_excluded.
  destruct (existsb _ _) eqn:E; [|reflexivity]. exfalso.
  apply existsb_exists in E as (pattern & Hin & E).
  rewrite forallb_forall in Hp. specialize (Hp pattern Hin).
  apply andb_prop in Hp as [H1 H2].
  apply not_all_allowed in H1. apply not_all_allowed in H2.
  apply orb_prop in E as [E|E]; [apply orb_prop in E as [E|E]|].
  - apply andb_prop in E as [_ E].
    rewrite (endswith_allowed _ _ E Hn) in H2. discriminate.
  - apply String.eqb_eq in E as ->. congruence.
  - rewrite (contains_allowed _ _ E Hn) in H1. discriminate.
Qed.

End Allowed.

Lemma stamp_is_backup_text (stamp : string) :
  sforall stamp_char stamp = true -> sforall backup_char ("backup_" ++ stamp) = true.
Proof.
  intros H. rewrite sforall_append. apply andb_true_intro; split; [reflexivity|].
  induction stamp as [|c stamp IH]; [reflexivity|]. cbn [sforall] in *.
  apply andb_prop in H as [Hc Hs]. rewrite (IH Hs), andb_true_r.
  clear -Hc. revert Hc. by_cases_on_char c.
Qed.

End BackupNameFacts.

(** X17: with the default exclusion list the backup directory is not
    excluded, whatever the time stamp in its name: the scan of the run that
    made the backup, and every later scan, visits the backup like the rest of
    the project. *)
Theorem default_exclusions_keep_backup_directory
    (self : ProjectRenamer.ProjectRenamer) (stamp : string) :
  ProjectRenamer.exclude_patterns (ProjectRenamer.config self)
  = ProjectRenamer.default_exclude_patterns ->
  sforall NameShape.stamp_char stamp = true ->
  ProjectRenamer._is_excluded self ("backup_" ++ stamp) = false.
Proof.
  intros Hdefault Hstamp.
  apply (BackupNameFacts.foreign_patterns_exclude_nothing NameShape.backup_char).
  - rewrite Hdefault. reflexivity.
  - now apply BackupNameFacts.stamp_is_backup_text.
Qed.

Lemma default_exclusions_keep_backup_directory_witness :
  ProjectRenamer._is_excluded
    (Examples.renamer_of (Examples.default_config "old_app" "new_app" ["proj"]))
    ("backup_" ++ "20240101_120000") = false.
Proof.
  apply (default_exclusions_keep_backup_directory
           (Examples.renamer_of (Examples.default_config "old_app" "new_app" ["proj"]))
           "20240101_120000");
    reflexivity.
Defined.

Module MissingProjectFacts.
Import World ProjectRenamer Report.
Local Open Scope world_scope.

Lemma find_child_append_entry_other (n text d : string) (entries : list node) :
  match find_child d entries with
  | Some (Dir _ _) => True
  | _ =>
      match find_child d (append_entry n text entries) with
      | Some (Dir _ _) => False
      | _ => True
      end
  end.
Proof.
  induction entries as [|e entries IH].
  - cbn [find_child append_entry node_name]. now destruct (String.eqb n d).
  - cbn [find_child append_entry].
    destruct (String.eqb (node_name e) n) eqn:En.
    + destruct e as [f c|y es]; cbn [find_child node_name] in *.
      * apply String.eqb_eq in En as ->. destruct (String.eqb n d); [exact I|].
        now destruct (find_child d entries) as [[|]|].
      * destruct (String.eqb y d); [exact I|].
        now destruct (find_child d entries) as [[|]|].
    + cbn [find_child]. destruct (String.eqb (node_name e) d); [now destruct e | exact IH].
Qed.

(** A record appended to a log file makes no directory. *)
Lemma listdir_logged_none (n text : string) (p : Path) :
  forall (q : Path) (files : list node),
    listdir files p = None ->
    listdir (update_dir (append_entry n text) q files) p = None.
Proof.
  induction p as [|d p IH]; intros q files H; [discriminate|].
  cbn [listdir] in H. destruct q as [|d' q]; cbn [update_dir listdir].
  - pose proof (find_child_append_entry_other n text d files) as Hc.
    destruct (find_child d files) as [[f c|x sub]|] eqn:E.
    + now destruct (find_child d (append_entry n text files)) as [[|]|].
    + now rewrite (TreeFacts.find_child_append_entry _ _ _ _ _ _ E).
    + now destruct (find_child d (append_entry n text files)) as [[|]|].
  - rewrite TreeFacts.find_child_map by (intros e; apply TreeFacts.update_step_name).
    destruct (find_child d files) as [[f c|x sub]|]; cbn [option_map]; try reflexivity.
    destruct (String.eqb x d'); [now apply IH | assumption].
Qed.

Lemma records_keep_missing (p : Path) (records : list string) :
  forall s, listdir (fs s) p = None -> listdir (fs (emit_records records s)) p = None.
Proof.
  unfold emit_records. induction records as [|line records IH]; intros s H; [assumption|].
  cbn [fold_left]. apply IH. clear IH.
  generalize (root_handlers s) as hs. intros hs. revert s H.
  induction hs as [|h hs IHh]; intros s H; [assumption|].
  cbn [fold_left]. apply IHh. destruct h as [|log_path]; [assumption|].
  cbn [handle set_fs fs]. now apply listdir_logged_none.
Qed.

Lemma listdir_of_lookup (files : list node) (p : Path) (x : string) (entries : list node) :
  lookup files p = Some (Dir x entries) -> listdir files p = Some entries.
Proof.
  destruct p as [|a p].
  - cbn [lookup listdir]. intros H. now injection H as _ ->.
  - assert (a :: p <> []) as Hne by discriminate.
    rewrite (app_removelast_last EmptyString Hne) at 2.
    rewrite TreeFacts.listdir_snoc. unfold lookup, parent, name.
    destruct (listdir files (removelast (a :: p))) as [es|]; [|discriminate].
    now intros ->.
Qed.

End MissingProjectFacts.

(** X18: when the project path is no directory, missing or a file, a run
    does nothing but log, and its result is [False] with the backup enabled
    (the backup fails) and [True] without it, dry run or not: with no backup
    asked for, renaming a project that does not exist succeeds. *)
Theorem run_on_missing_project_only_logs
    (self : ProjectRenamer.ProjectRenamer) (s : World.State) :
  World.listdir (World.fs s) (ProjectRenamer.project_path (ProjectRenamer.config self))
  = None ->
  exists records,
    ProjectRenamer.rename_project self s
    = (Return (negb (ProjectRenamer.backup_enabled (ProjectRenamer.config self))),
       World.emit_records records s).
Proof.
  intros Hmissing.
  unfold ProjectRenamer.rename_project, World.mbind.
  destruct (RunFacts.logs_only_log World.INFO "Starting project rename operation" s)
    as (r1 & [] & E1).
  rewrite E1.
  pose proof (MissingProjectFacts.records_keep_missing _ r1 _ Hmissing) as H1.
  unfold ProjectRenamer.create_backup.
  destruct (ProjectRenamer.backup_enabled (ProjectRenamer.config self)); cbn [negb].
  - unfold World.mbind at 1. unfold World.get_state, World.try_catch, World.mbind.
    match goal with
    | |- context [World.log World.INFO ?m (World.emit_records r1 s)] =>
        destruct (RunFacts.logs_only_log World.INFO m (World.emit_records r1 s))
          as (r2 & [] & E2)
    end.
    rewrite E2. unfold World.copytree_into.
    rewrite (MissingProjectFacts.records_keep_missing _ r2 _ H1).
    match goal with
    | |- context [World.log World.ERROR ?m ?st] =>
        destruct (RunFacts.logs_only_log World.ERROR m st) as (r3 & [] & E3)
    end.
    rewrite E3. unfold World.ret. cbn [negb].
    exists (r1 ++ r2 ++ r3)%list. now rewrite !RunFacts.emit_records_app.
  - unfold World.ret at 1. cbn [negb].
    unfold ProjectRenamer.scan_project, World.mbind.
    match goal with
    | |- context [World.log World.INFO ?m (World.emit_records r1 s)] =>
        destruct (RunFacts.logs_only_log World.INFO m (World.emit_records r1 s))
          as (r2 & [] & E2)
    end.
    rewrite E2. unfold World.get_state.
    pose proof (MissingProjectFacts.records_keep_missing _ r2 _ H1) as H2.
    destruct (World.lookup _ _) as [[f c|x entries]|] eqn:Hlook.
    2: { apply MissingProjectFacts.listdir_of_lookup in Hlook. congruence. }
    all: unfold World.ret at 1.
    all: destruct (ProjectRenamer.dry_run (ProjectRenamer.config self)).
    all: try (destruct (RunFacts.logs_only_dry_run_results self ProjectRenamer.no_results
                          (World.emit_records r2 (World.emit_records r1 s)))
                as (r3 & [] & E3);
              rewrite E3; unfold World.ret;
              exists (r1 ++ r2 ++ r3)%list; now rewrite !RunFacts.emit_records_app).
    all: cbn [ProjectRenamer.files_to_rename ProjectRenamer.directories_to_rename
              ProjectRenamer.files_to_modify ProjectRenamer.no_results
              ProjectRenamer.all_steps ProjectRenamer.sorted_reverse
              ProjectRenamer.keys_of fold_left map].
    all: unfold World.ret at 1 2 3.
    all: match goal with
         | |- context [World.log World.INFO ?m ?st] =>
             destruct (RunFacts.logs_only_log World.INFO m st) as (r3 & [] & E3)
         end.
    all: rewrite E3; unfold World.ret.
    all: exists (r1 ++ r2 ++ r3)%list; now rewrite !RunFacts.emit_records_app.
Qed.

Lemma run_on_missing_project_only_logs_witness :
  exists records,
    ProjectRenamer.rename_project
      (Examples.renamer_of (Examples.default_config "old_app" "new_app" ["nowhere"]))
      (Examples.fresh_process Examples.nested_project)
    = (Return false, World.emit_records records (Examples.fresh_process Examples.nested_project)).
Proof.
  apply (run_on_missing_project_only_logs
           (Examples.renamer_of (Examples.default_config "old_app" "new_app" ["nowhere"]))
           (Examples.fresh_process Examples.nested_project)).
  reflexivity.
Defined.

(** ** project_renamer.py: the steps of a live run and its summary *)

Module StepFacts.
Import World ProjectRenamer Report.
Local Open Scope world_scope.

(** What a step records: a path among the changed files when it returns
    [True], one error message when it returns [False]. *)
Lemma log_keeps_fields (level : nat) (message : string) (s : State) :
  exists s',
    log level message s = (Return tt, s')
    /\ changed_files s' = changed_files s /\ errors s' = errors s.
Proof.
  destruct (RunFacts.logs_only_log level message s) as (records & [] & E).
  exists (emit_records records s). split; [assumption|].
  now destruct (TreeFacts.records_keep_fields records s) as (_ & -> & _ & ->).
Qed.

Lemma rename_keeps_fields (src : Path) (dst_name : string) (s : State) :
  match rename src dst_name s with
  | (_, s') => changed_files s' = changed_files s /\ errors s' = errors s
  end.
Proof.
  unfold rename. destruct (lookup (fs s) src); [|now split].
  now destruct (if String.eqb (name src) dst_name then false else _).
Qed.

Lemma try_bind_first {A B} (m : M A) (k : A -> M B) (h : exn -> M B) (s : State) :
  try_catch (mbind m k) h s
  = match m s with
    | (Return a, s1) => try_catch (k a) h s1
    | (Raise e, s1) => h e s1
    end.
Proof. unfold try_catch, mbind. now destruct (m s) as [[a|e] s1]. Qed.

Section Step.
Variable self : ProjectRenamer.

Let recorded (path : Path) (s : State) (outcome : Result bool * State) : Prop :=
  exists ok s',
    outcome = (Return ok, s')
    /\ changed_files s' = (changed_files s ++ (if ok then [path] else []))%list
    /\ List.length (errors s') = List.length (errors s) + (if ok then 0 else 1).

Lemma rename_step_recorded (what : string) (path : Path) (s : State) :
  recorded path s
    (try_catch
       (let new_name := _generate_new_name self (name path) in
        let new_path := joinpath (parent path) new_name in
        (if negb (dry_run (config self)) then rename path new_name else ret tt) ;;
        log INFO ("Renamed " ++ what ++ ": " ++ path_str path ++ " -> " ++ path_str new_path) ;;
        modify (fun s => set_changed_files (changed_files s ++ [path])%list s) ;;
        ret true)
       (fun e =>
          let error_msg :=
            "Failed to rename " ++ what ++ " " ++ path_str path ++ ": " ++ exn_str e in
          log ERROR error_msg ;;
          modify (fun s => set_errors (errors s ++ [error_msg])%list s) ;;
          ret false) s).
Proof.
  unfold recorded. cbv zeta. rewrite try_bind_first.
  assert (exists s1 (r : Result unit),
            (if negb (dry_run (config self))
             then rename path (_generate_new_name self (name path))
             else ret tt) s = (r, s1)
            /\ changed_files s1 = changed_files s /\ errors s1 = errors s)
    as (s1 & r & E1 & Hc & He).
  { destruct (negb (dry_run (config self))).
    - pose proof (rename_keeps_fields path (_generate_new_name self (name path)) s) as Hr.
      destruct (rename path (_generate_new_name self (name path)) s) as [r s1].
      now exists s1, r.
    - now exists s, (Return tt). }
  rewrite E1. destruct r as [[]|e].
  - rewrite try_bind_first.
    match goal with
    | |- context [log INFO ?m s1] =>
        destruct (log_keeps_fields INFO m s1) as (s2 & E2 & Hc2 & He2)
    end.
    rewrite E2. unfold try_catch, mbind, modify, ret.
    eexists true, _. split; [reflexivity|].
    cbn [set_changed_files changed_files errors]. rewrite Hc2, Hc, He2, He.
    split; [reflexivity | lia].
  - unfold mbind.
    match goal with
    | |- context [log ERROR ?m s1] =>
        destruct (log_keeps_fields ERROR m s1) as (s2 & E2 & Hc2 & He2)
    end.
    rewrite E2. unfold modify, ret. eexists false, _. split; [reflexivity|].
    cbn [set_errors changed_files errors]. rewrite Hc2, Hc, app_nil_r, He2, He.
    split; [reflexivity|]. rewrite length_app. reflexivity.
Qed.

Lemma all_steps_recorded (step : Path -> M bool) (l : list Path) :
  (forall path s, recorded path s (step path s)) ->
  forall success s,
    exists ok s',
      all_steps step l success s = (Return ok, s')
      /\ List.length (changed_files s') + List.length (errors s')
         = List.length (changed_files s) + List.length (errors s) + List.length l
      /\ ok = success && Nat.eqb (List.length (errors s')) (List.length (errors s))
      /\ List.length (errors s) <= List.length (errors s').
Proof.
  intros Hstep. induction l as [|path l IH]; intros success s.
  - exists success, s. cbn [all_steps List.length]. unfold ret.
    rewrite Nat.eqb_refl, andb_true_r. repeat split; lia.
  - cbn [all_steps]. unfold mbind.
    destruct (Hstep path s) as (ok1 & s1 & E1 & Hc1 & He1). rewrite E1.
    destruct (IH (if ok1 then success else false) s1) as (ok & s' & E & Hsum & Hok & Hle).
    exists ok, s'. split; [assumption|].
    rewrite Hc1, length_app in Hsum. cbn [List.length].
    destruct ok1; cbn [List.length] in *.
    + rewrite Nat.add_0_r in He1. rewrite He1 in *. repeat split; try lia. assumption.
    + repeat split; try lia. rewrite Hok. cbn [andb].
      symmetry. rewrite andb_false_iff. right. apply Nat.eqb_neq. lia.
Qed.

End Step.
End StepFacts.

(** X19: the renaming steps never raise, and they account for every path
    they are given: after the loop over the files to rename, and likewise over
    directories, each path has either joined the changed files (the step
    returned [True]) or added one message to the errors (it returned
    [False]); the loop's result is [True] exactly when it started so and no
    step added an error. *)
Theorem rename_steps_account_for_every_path
    (self : ProjectRenamer.ProjectRenamer) (l : list Path) (success : bool)
    (s : World.State) :
  (exists ok s',
      ProjectRenamer.all_steps (ProjectRenamer._rename_file self) l success s
      = (Return ok, s')
      /\ List.length (World.changed_files s') + List.length (World.errors s')
         = List.length (World.changed_files s) + List.length (World.errors s)
           + List.length l
      /\ ok = success
              && Nat.eqb (List.length (World.errors s')) (List.length (World.errors s)))
  /\ (exists ok s',
         ProjectRenamer.all_steps (ProjectRenamer._rename_directory self) l success s
         = (Return ok, s')
         /\ List.length (World.changed_files s') + List.length (World.errors s')
            = List.length (World.changed_files s) + List.length (World.errors s)
              + List.length l
         /\ ok = success
                 && Nat.eqb (List.length (World.errors s')) (List.length (World.errors s))).
Proof.
  split.
  - destruct (StepFacts.all_steps_recorded (ProjectRenamer._rename_file self) l
                (fun path s0 => StepFacts.rename_step_recorded self "file" path s0)
                success s) as (ok & s' & E & H1 & H2 & _).
    now exists ok, s'.
  - destruct (StepFacts.all_steps_recorded (ProjectRenamer._rename_directory self) l
                (fun path s0 => StepFacts.rename_step_recorded self "directory" path s0)
                success s) as (ok & s' & E & H1 & H2 & _).
    now exists ok, s'.
Qed.

Module SummaryFacts.
Import World ProjectRenamer Report.
Local Open Scope world_scope.

(** The construction returns a renamer for the configuration it was given
    and leaves the three lists of the renamer empty. *)
Lemma init_resets_lists (c : RenameConfig) (self : ProjectRenamer) (s0 s : State) :
  __init__ c s0 = (Return self, s) ->
  config self = c /\ changed_files s = [] /\ backup_paths s = [] /\ errors s = [].
Proof.
  unfold __init__, mbind, modify, _setup_logging, mbind, open_log_file, basicConfig.
  set (s1 := set_errors [] (set_backup_paths [] (set_changed_files [] s0))).
  destruct (listdir (fs s1) (parent (log_file c))); [|discriminate].
  assert (forall s2,
            changed_files s2 = [] -> backup_paths s2 = [] -> errors s2 = [] ->
            (let (r, s') :=
               match root_handlers s2 with
               | [] =>
                   (Return tt,
                    set_logging (if dry_run c then DEBUG else INFO)
                      [StreamHandler; FileHandler (log_file c)] s2)
               | _ :: _ => (Return tt, s2)
               end in
             match r with
             | Return _ =>
                 match _compile_patterns c with
                 | Return ps => ret (mkRenamer c ps)
                 | Raise e => raise e
                 end s'
             | Raise e => (Raise e, s')
             end) = (Return self, s) ->
            config self = c /\ changed_files s = [] /\ backup_paths s = [] /\ errors s = [])
    as Hrest.
  { intros s2 H1 H2 H3.
    destruct (_compile_patterns c) as [ps|e]; unfold ret, raise;
      destruct (root_handlers s2); try discriminate;
      intros E; injection E as <- <-; now repeat split. }
  destruct (lookup (fs s1) (log_file c)) as [[f x|d es]|]; try discriminate;
    apply Hrest; reflexivity.
Qed.

(** A dry run without backup returns [True] and only logs. *)
Lemma dry_run_logs_only (self : ProjectRenamer) (s : State) :
  dry_run (config self) = true -> backup_enabled (config self) = false ->
  exists records, rename_project self s = (Return true, emit_records records s).
Proof.
  intros Hdry Hbackup. unfold rename_project, mbind.
  destruct (RunFacts.logs_only_log INFO "Starting project rename operation" s)
    as (r1 & [] & E1).
  rewrite E1. unfold create_backup. rewrite Hbackup. cbn [negb ret].
  destruct (RunFacts.logs_only_scan_project self (emit_records r1 s))
    as (r2 & scan_results & E2).
  rewrite E2, Hdry.
  destruct (RunFacts.logs_only_dry_run_results self scan_results
              (emit_records r2 (emit_records r1 s))) as (r3 & [] & E3).
  rewrite E3. exists (r1 ++ r2 ++ r3)%list.
  unfold ret. now rewrite !RunFacts.emit_records_app.
Qed.

End SummaryFacts.

(** X20: the summary of a dry run without backup, taken from a renamer
    just constructed, reports no file changed, no error and no backup: the
    construction empties the three lists, and the dry run, which only logs,
    leaves them empty. *)
Theorem dry_run_summary_reports_no_change
    (c : ProjectRenamer.RenameConfig) (self : ProjectRenamer.ProjectRenamer)
    (s0 s : World.State) :
  ProjectRenamer.__init__ c s0 = (Return self, s) ->
  ProjectRenamer.dry_run c = true ->
  ProjectRenamer.backup_enabled c = false ->
  exists records summary,
    World.mbind (ProjectRenamer.rename_project self) (fun _ => Report.get_summary self) s
    = (Return summary, World.emit_records records s)
    /\ Report.files_changed summary = 0
    /\ Report.summary_changed_files summary = []
    /\ Report.summary_errors summary = []
    /\ Report.backup_created summary = false
    /\ Report.summary_dry_run summary = true.
Proof.
  intros Hinit Hdry Hbackup.
  destruct (SummaryFacts.init_resets_lists c self s0 s Hinit) as (Hc & H1 & H2 & H3).
  subst c.
  destruct (SummaryFacts.dry_run_logs_only self s Hdry Hbackup) as (records & E).
  destruct (TreeFacts.records_keep_fields records s) as (_ & K1 & K2 & K3).
  cbv zeta in *.
  exists records. eexists. unfold World.mbind. rewrite E. unfold Report.get_summary.
  split; [reflexivity|]. cbn [Report.files_changed Report.summary_changed_files
    Report.summary_errors Report.backup_created Report.summary_dry_run].
  rewrite K1, K2, K3, H1, H2, H3, Hdry. now repeat split.
Qed.

Lemma dry_run_summary_reports_no_change_witness :
  exists records summary,
    World.mbind
      (ProjectRenamer.rename_project (Examples.renamer_of (Examples.nested_config false true)))
      (fun _ => Report.get_summary (Examples.renamer_of (Examples.nested_config false true)))
      (Examples.constructed (Examples.nested_config false true) Examples.nested_project)
    = (Return summary,
       World.emit_records records
         (Examples.constructed (Examples.nested_config false true) Examples.nested_project))
    /\ Report.files_changed summary = 0
    /\ Report.summary_changed_files summary = []
    /\ Report.summary_errors summary = []
    /\ Report.backup_created summary = false
    /\ Report.summary_dry_run summary = true.
Proof.
  apply (dry_run_summary_reports_no_change (Examples.nested_config false true)
           (Examples.renamer_of (Examples.nested_config false true))
           (Examples.fresh_process Examples.nested_project)
           (Examples.constructed (Examples.nested_config false true) Examples.nested_project));
    reflexivity.
Defined.

(** ** file_handlers.py: texts that do not mention the old name *)

Module MentionFacts.
Import FileHandlers ScriptHandlers HandlerSpec PythonFacts.

Lemma contains_later (p : string) (c : ascii) (s : string) :
  contains p s = true -> contains p (String c s) = true.
Proof. intros H. cbn [contains]. rewrite H. apply orb_true_r. Qed.

Lemma contains_drop (p : string) (k : nat) (s : string) :
  contains p (drop k s) = true -> contains p s = true.
Proof.
  revert k; induction s as [|c s IH]; intros [|k] H; try assumption.
  cbn [drop] in H. apply contains_later. now apply (IH k).
Qed.

Lemma contains_start (p s : string) : startswith p s = true -> contains p s = true.
Proof. intros H. destruct s; cbn [contains]; now rewrite H. Qed.

Lemma advance_some (a : nat) (r : option nat) (n : nat) :
  Rx.advance a r = Some n -> exists m, r = Some m.
Proof. destruct r as [m|]; [eauto | discriminate]. Qed.

Section Needs.
Variable old : string.

Lemma needs_here (k : Rx.matcher) : needs old (Rx.lit old k).
Proof.
  intros s n H. unfold Rx.lit in H.
  destruct (startswith old s) eqn:Hs; [now apply contains_start | discriminate].
Qed.

Lemma needs_lit (p : string) (k : Rx.matcher) : needs old k -> needs old (Rx.lit p k).
Proof.
  intros Hk s n H. unfold Rx.lit in H.
  destruct (startswith p s); [|discriminate].
  apply advance_some in H as [m H]. eapply contains_drop, Hk, H.
Qed.

Lemma needs_one (cls : ascii -> bool) (k : Rx.matcher) :
  needs old k -> needs old (Rx.one cls k).
Proof.
  intros Hk s n H. unfold Rx.one in H. destruct s as [|c r]; [discriminate|].
  destruct (cls c); [|discriminate].
  apply advance_some in H as [m H]. eapply contains_later, Hk, H.
Qed.

Lemma needs_star (cls : ascii -> bool) (k : Rx.matcher) :
  needs old k -> needs old (Rx.star cls k).
Proof.
  intros Hk s. induction s as [|c r IH]; intros n H; cbn [Rx.star] in H.
  - now apply (Hk _ _ H).
  - destruct (cls c); [|now apply (Hk _ _ H)].
    destruct (Rx.star cls k r) as [m|] eqn:E; [|now apply (Hk _ _ H)].
    apply contains_later. now apply (IH m).
Qed.

Lemma needs_plus (cls : ascii -> bool) (k : Rx.matcher) :
  needs old k -> needs old (Rx.plus cls k).
Proof. intros Hk. now apply needs_one, needs_star. Qed.

Lemma needs_lazy (cls : ascii -> bool) (k : Rx.matcher) :
  needs old k -> needs old (Rx.lazy cls k).
Proof.
  intros Hk s. induction s as [|c r IH]; intros n H; cbn [Rx.lazy] in H.
  - destruct (k EmptyString) as [m|] eqn:E; [now apply (Hk _ _ E) | discriminate].
  - destruct (k (String c r)) as [m|] eqn:E; [now apply (Hk _ _ E)|].
    destruct (cls c); [|discriminate].
    apply advance_some in H as [m H]. apply contains_later. now apply (IH m).
Qed.

Lemma needs_alt (first second : Rx.matcher) :
  needs old first -> needs old second -> needs old (alt first second).
Proof.
  intros H1 H2 s n H. unfold alt in H.
  destruct (first s) as [m|] eqn:E; [now apply (H1 _ _ E) | now apply (H2 _ _ H)].
Qed.

Lemma needs_opt (c : ascii) (k : Rx.matcher) : needs old k -> needs old (opt c k).
Proof. intros Hk. apply needs_alt; [now apply needs_one | assumption]. Qed.

Lemma needs_keyword_name (keyword : string) : needs old (Rx.keyword_name keyword old).
Proof. apply needs_lit, needs_plus, needs_here. Qed.

Lemma needs_module_reference : needs old (module_reference old).
Proof. apply needs_one, needs_lit, needs_opt, needs_opt, needs_here. Qed.

Lemma needs_component : needs old (component_pattern old).
Proof. apply needs_alt; apply needs_lit, needs_plus, needs_here. Qed.

(** A pattern whose matches hold [old] changes no text without it. *)
Lemma sub_with_needs (m : Rx.matcher) (repl : string -> string) (s : string) :
  needs old m -> contains old s = false -> Re.sub_with m repl 0 s = s.
Proof.
  intros Hm Hs. apply sub_with_no_match.
  induction s as [|c r IH]; [reflexivity|]. cbn [Re.search_with].
  destruct (m (String c r)) as [[|n]|] eqn:E.
  - apply IH. cbn [contains] in Hs. now apply orb_false_iff in Hs.
  - rewrite (Hm _ _ E) in Hs. discriminate.
  - apply IH. cbn [contains] in Hs. now apply orb_false_iff in Hs.
Qed.

End Needs.
End MentionFacts.

(** X21: the JavaScript handler changes nothing in a text that does not
    mention the old name, whatever the suffix of the file: every pattern of
    [process] and the component pattern hold the old name.  For a [.jsx] or
    [.tsx] file the new name holds no backslash: there it goes into a
    template of [re.sub]. *)
Theorem javascript_process_needs_old_name
    (self : FileHandlers.BaseFileHandler) (file_path : Path) (content : string) :
  implb (existsb (String.eqb (lower (suffix file_path))) [".jsx"; ".tsx"])
        (Re.plain_template (FileHandlers.new_name self)) = true ->
  contains (FileHandlers.old_name self) content = false ->
  ScriptHandlers.JavaScriptFileHandler_process self file_path content = Return content.
Proof.
  intros Hplain H. unfold ScriptHandlers.JavaScriptFileHandler_process.
  assert (Re.plain_template (FileHandlers.new_name self) = true ->
          ScriptHandlers._handle_react_components self content = Return content) as Hreact.
  { intros Hp. unfold ScriptHandlers._handle_react_components.
    rewrite TemplateFacts.sub_plain.
    - f_equal. apply MentionFacts.sub_with_needs with (old := FileHandlers.old_name self);
        [apply MentionFacts.needs_component | assumption].
    - unfold Re.plain_template in *. apply negb_true_iff in Hp. apply negb_true_iff.
      cbn [append sexists Ascii.eqb Bool.eqb backslash orb].
      clear -Hp. induction (FileHandlers.new_name self) as [|c t IH]; [reflexivity|].
      cbn [sexists append] in *. apply orb_false_elim in Hp as [Hc Ht].
      now rewrite Hc, IH. }
  destruct (existsb _ [".jsx"; ".tsx"]); cbn [implb] in Hplain;
    rewrite ?(Hreact Hplain); cbn [bind]; f_equal.
  all: cbn [ScriptHandlers.javascript_patterns fold_left].
  all: rewrite !(MentionFacts.sub_with_needs (FileHandlers.old_name self) _ _ content);
    trivial.
  all: repeat first
         [ apply MentionFacts.needs_here
         | apply MentionFacts.needs_module_reference
         | apply MentionFacts.needs_lit
         | apply MentionFacts.needs_star
         | apply MentionFacts.needs_plus
         | apply MentionFacts.needs_lazy ].
Qed.

Lemma javascript_process_needs_old_name_witness :
  ScriptHandlers.JavaScriptFileHandler_process
    (FileHandlers.mkHandler "old_app" "new_app") ["proj"; "index.jsx"]
    "import React from './react'; const App = () => null;"
  = Return "import React from './react'; const App = () => null;".
Proof.
  apply (javascript_process_needs_old_name
           (FileHandlers.mkHandler "old_app" "new_app") ["proj"; "index.jsx"]
           "import React from './react'; const App = () => null;");
    reflexivity.
Defined.

(** X22: in a Python file other than [__init__.py], for a new name without
    backslash (it goes into two templates of [re.sub]), the handler changes
    nothing in a text that does not mention the old name; and whatever the
    text, the two last patterns of [process], for [__all__] and for quoted
    text, change nothing, since no match of theirs starts with [import ] or
    [from ]: the result is that of the class, def, import and from rules. *)
Theorem python_process_needs_old_name
    (self : FileHandlers.BaseFileHandler) (file_path : Path) (content : string) :
  Re.plain_template (FileHandlers.new_name self) = true ->
  String.eqb (name file_path) "__init__.py" = false ->
  FileHandlers.PythonFileHandler_process self file_path content
  = Return
      (Re.sub_with (Rx.keyword_name "from" (FileHandlers.old_name self))
         (FileHandlers._replace_python_import self) 0
         (Re.sub_with (Rx.keyword_name "import" (FileHandlers.old_name self))
            (FileHandlers._replace_python_import self) 0
            (Re.sub_with (Rx.keyword_name "def" (FileHandlers.old_name self))
               (fun _ => "def " ++ FileHandlers.new_name self) 0
               (Re.sub_with (Rx.keyword_name "class" (FileHandlers.old_name self))
                  (fun _ => "class " ++ FileHandlers.new_name self) 0 content))))
  /\ (contains (FileHandlers.old_name self) content = false ->
      FileHandlers.PythonFileHandler_process self file_path content = Return content).
Proof.
  intros Hplain Hname.
  assert (FileHandlers.PythonFileHandler_process self file_path content
          = Return
              (Re.sub_with (Rx.keyword_name "from" (FileHandlers.old_name self))
                 (FileHandlers._replace_python_import self) 0
                 (Re.sub_with (Rx.keyword_name "import" (FileHandlers.old_name self))
                    (FileHandlers._replace_python_import self) 0
                    (Spec.definitions_rewritten self content)))) as Hfour.
  { rewrite (InitFileFacts.process_plain self _ _ Hplain). rewrite Hname. f_equal.
    pose proof (VersionLineFacts.identity_passes self) as Hid.
    destruct self as [old new]. cbn [FileHandlers.python_patterns fold_left nth] in *.
    apply Hid. }
  split; [exact Hfour|]. intros H. rewrite Hfour. f_equal.
  unfold Spec.definitions_rewritten.
  rewrite !(MentionFacts.sub_with_needs (FileHandlers.old_name self) _ _ content); trivial;
    apply MentionFacts.needs_keyword_name.
Qed.

Lemma python_process_needs_old_name_witness :
  FileHandlers.PythonFileHandler_process (FileHandlers.mkHandler "old_app" "new_app")
    ["proj"; "main.py"] "import os"
  = Return "import os".
Proof.
  apply (proj2 (python_process_needs_old_name (FileHandlers.mkHandler "old_app" "new_app")
                  ["proj"; "main.py"] "import os" eq_refl eq_refl)).
  reflexivity.
Defined.

(** ** file_handlers.py: the registry and the manifests *)

Module RegistryFacts.
Import FileHandlers ScriptHandlers.

Lemma no_handler_for_other_suffix (file_path : Path) :
  existsb (String.eqb (lower (suffix file_path))) handled_suffixes = false ->
  get_handler file_path = None.
Proof.
  unfold get_handler, handlers, handled_suffixes, find, can_handle,
    PythonFileHandler_can_handle, JavaScriptFileHandler_can_handle,
    JSONFileHandler_can_handle, YAMLFileHandler_can_handle,
    XMLFileHandler_can_handle, MarkdownFileHandler_can_handle.
  generalize (lower (suffix file_path)) as x. intros x. cbn [existsb].
  intros H.
  repeat match type of H with
         | (?a || ?b) = false => apply orb_false_iff in H as [? H]
         end.
  repeat match goal with
         | E : String.eqb x ?l = false |- _ => rewrite E; clear E
         end.
  reflexivity.
Qed.

End RegistryFacts.

(** X23: [FileHandlerRegistry.process_file] raises [AttributeError] for
    every file whose suffix none of the six handlers takes: the fallback reads
    [self.old_name], an attribute that the registry does not have.  The
    handled suffixes are, in any letter case, those of [handled_suffixes]. *)
Theorem registry_fallback_raises_attribute_error
    (json_loads : string -> Result pyval) (json_dumps : bool -> pyval -> string)
    (yaml_safe_load : string -> Result pyval) (yaml_dump : bool -> pyval -> string)
    (repr_of : pyval -> string)
    (xml_process markdown_process :
       FileHandlers.BaseFileHandler -> Path -> string -> Result pyval)
    (self : FileHandlers.BaseFileHandler) (file_path : Path) (content : string) :
  existsb (String.eqb (lower (suffix file_path))) ScriptHandlers.handled_suffixes = false ->
  ScriptHandlers.process_file json_loads json_dumps yaml_safe_load yaml_dump repr_of
    xml_process markdown_process self file_path content
  = Raise AttributeError.
Proof.
  intros H. unfold ScriptHandlers.process_file.
  now rewrite (RegistryFacts.no_handler_for_other_suffix file_path H).
Qed.

Lemma registry_fallback_raises_attribute_error_witness :
  ScriptHandlers.process_file Json.loads Json.dumps Examples.yaml_safe_load_flow
    Examples.unused_dump Examples.unused_repr
    (fun _ _ _ => Raise OSError) (fun _ _ _ => Raise OSError)
    (FileHandlers.mkHandler "old_app" "new_app") ["proj"; "notes.txt"] "the old_app notes"
  = Raise AttributeError.
Proof.
  apply (registry_fallback_raises_attribute_error Json.loads Json.dumps
           Examples.yaml_safe_load_flow Examples.unused_dump Examples.unused_repr
           (fun _ _ _ => Raise OSError) (fun _ _ _ => Raise OSError)
           (FileHandlers.mkHandler "old_app" "new_app") ["proj"; "notes.txt"]
           "the old_app notes").
  reflexivity.
Defined.

Module DictFacts.
Import FileHandlers.

Lemma dict_get_set_same (k : string) (v : pyval) (d : list (string * pyval)) :
  dict_get k (dict_set k v d) = Some v.
Proof.
  induction d as [|[k' v'] d IH]; cbn [dict_set dict_get].
  - now rewrite String.eqb_refl.
  - destruct (String.eqb k' k) eqn:E; cbn [dict_get]; now rewrite E.
Qed.

Lemma dict_get_set_other (k k' : string) (v : pyval) (d : list (string * pyval)) :
  k <> k' -> dict_get k' (dict_set k v d) = dict_get k' d.
Proof.
  intros Hk. induction d as [|[x v'] d IH]; cbn [dict_set dict_get].
  - apply String.eqb_neq in Hk. now rewrite Hk.
  - destruct (String.eqb x k) eqn:E; cbn [dict_get].
    + apply String.eqb_eq in E as ->. apply String.eqb_neq in Hk. now rewrite Hk.
    + now rewrite IH.
Qed.

Lemma dict_get_del_other (k k' : string) (d : list (string * pyval)) :
  k <> k' -> dict_get k' (dict_del k d) = dict_get k' d.
Proof.
  intros Hk. induction d as [|[x v'] d IH]; cbn [dict_del dict_get]; [reflexivity|].
  destruct (String.eqb x k) eqn:E; cbn [dict_get].
  - apply String.eqb_eq in E as ->. apply String.eqb_neq in Hk. now rewrite Hk.
  - now rewrite IH.
Qed.

Lemma dict_get_absent (k : string) (d : list (string * pyval)) :
  ~ In k (map fst d) -> dict_get k d = None.
Proof.
  induction d as [|[x v] d IH]; [reflexivity|]. cbn [map fst In dict_get].
  intros H. destruct (String.eqb x k) eqn:E.
  - apply String.eqb_eq in E. tauto.
  - apply IH. tauto.
Qed.

Lemma dict_get_del_same (k : string) (d : list (string * pyval)) :
  NoDup (map fst d) -> dict_get k (dict_del k d) = None.
Proof.
  induction d as [|[x v] d IH]; [reflexivity|]. cbn [map fst dict_del].
  intros H. inversion H as [|? ? Hx Hd]; subst.
  destruct (String.eqb x k) eqn:E.
  - apply String.eqb_eq in E as ->. now apply dict_get_absent.
  - cbn [dict_get]. rewrite E. now apply IH.
Qed.

(** [target[new] = target.pop(old)] on a dict that holds [old]. *)
Lemma moved_entry (old new : string) (v : pyval) (d : list (string * pyval)) :
  dict_get old d = Some v -> NoDup (map fst d) -> old <> new ->
  let d' := dict_set new v (dict_del old d) in
  dict_get new d' = Some v
  /\ dict_get old d' = None
  /\ (forall k, k <> old -> k <> new -> dict_get k d' = dict_get k d).
Proof.
  intros Hv Hd Hne. cbv zeta. split; [apply dict_get_set_same|]. split.
  - rewrite dict_get_set_other by congruence. now apply dict_get_del_same.
  - intros k Hko Hkn. rewrite dict_get_set_other by congruence.
    apply dict_get_del_other. congruence.
Qed.

End DictFacts.

(** X24: in [angular.json] the entry of [projects] under the old name, and
    in a Docker Compose file the entry of [services] under it, moves to the
    new name with its value: the old key is gone and the other entries are
    kept, except one already under the new name, which the moved entry
    replaces. *)
Theorem manifest_entry_moves_to_new_name
    (json_dumps yaml_dump : bool -> pyval -> string)
    (self : FileHandlers.BaseFileHandler)
    (d entries : list (string * pyval)) (v : pyval) :
  dict_get (FileHandlers.old_name self) entries = Some v ->
  NoDup (map fst entries) ->
  FileHandlers.old_name self <> FileHandlers.new_name self ->
  let moved :=
    dict_set (FileHandlers.new_name self) v
      (dict_del (FileHandlers.old_name self) entries) in
  (dict_get "projects" d = Some (PDict entries) ->
   FileHandlers._handle_angular_json json_dumps self (PDict d)
   = Return (PStr (json_dumps true (PDict (dict_set "projects" (PDict moved) d)))))
  /\ (dict_get "services" d = Some (PDict entries) ->
      FileHandlers._handle_docker_compose yaml_dump self (PDict d)
      = Return (PStr (yaml_dump false (PDict (dict_set "services" (PDict moved) d)))))
  /\ dict_get (FileHandlers.new_name self) moved = Some v
  /\ dict_get (FileHandlers.old_name self) moved = None
  /\ (forall k, k <> FileHandlers.old_name self -> k <> FileHandlers.new_name self ->
                dict_get k moved = dict_get k entries).
Proof.
  intros Hold Hnodup Hne moved.
  split; [|split; [|now apply DictFacts.moved_entry]].
  - intros Hsection. unfold FileHandlers._handle_angular_json.
    cbn [py_in bind getitem]. rewrite Hsection. cbn [py_in bind getitem pop setitem].
    rewrite Hold. reflexivity.
  - intros Hsection. unfold FileHandlers._handle_docker_compose.
    cbn [py_in bind getitem]. rewrite Hsection. cbn [py_in bind getitem pop setitem].
    rewrite Hold. reflexivity.
Qed.

Lemma manifest_entry_moves_to_new_name_witness :
  FileHandlers._handle_angular_json Json.dumps (FileHandlers.mkHandler "old-app" "new-app")
    (PDict [("version", PInt 1);
            ("projects", PDict [("old-app", PDict [("root", PStr "src")]);
                                ("docs", PDict [])])])
  = Return (PStr (Json.dumps true
                    (PDict [("version", PInt 1);
                            ("projects", PDict [("docs", PDict []);
                                                ("new-app", PDict [("root", PStr "src")])])]))).
Proof.
  apply (proj1 (manifest_entry_moves_to_new_name Json.dumps Examples.unused_dump
                  (FileHandlers.mkHandler "old-app" "new-app")
                  [("version", PInt 1);
                   ("projects", PDict [("old-app", PDict [("root", PStr "src")]);
                                       ("docs", PDict [])])]
                  [("old-app", PDict [("root", PStr "src")]); ("docs", PDict [])]
                  (PDict [("root", PStr "src")])
                  eq_refl
                  ltac:(repeat constructor; cbn; intuition discriminate)
                  ltac:(discriminate))).
  reflexivity.
Defined.

(** X25: a YAML text that mentions [docker-compose], in any letter case and
    anywhere, is handled as a Docker Compose file: when it parses to a mapping
    without [services], the handler returns the dump of the mapping as it was
    parsed, and no occurrence of the old name in it is replaced.  A text that
    mentions [kubernetes] or [k8s] and parses to a mapping without [metadata]
    is returned in the same way. *)
Theorem yaml_mention_skips_general_replacement
    (yaml_safe_load : string -> Result pyval) (yaml_dump : bool -> pyval -> string)
    (self : FileHandlers.BaseFileHandler) (file_path : Path) (content : string)
    (d : list (string * pyval)) :
  yaml_safe_load content = Return (PDict d) ->
  (contains "docker-compose" (lower content) = true ->
   dict_get "services" d = None ->
   FileHandlers.YAMLFileHandler_process yaml_safe_load yaml_dump self file_path content
   = Return (PStr (yaml_dump false (PDict d))))
  /\ (contains "docker-compose" (lower content) = false ->
      contains "kubernetes" (lower content) || contains "k8s" (lower content) = true ->
      dict_get "metadata" d = None ->
      FileHandlers.YAMLFileHandler_process yaml_safe_load yaml_dump self file_path content
      = Return (PStr (yaml_dump false (PDict d)))).
Proof.
  intros Hload. unfold FileHandlers.YAMLFileHandler_process. rewrite Hload.
  cbn [bind]. split.
  - intros -> Hs. unfold FileHandlers._handle_docker_compose.
    cbn [py_in bind]. now rewrite Hs.
  - intros -> -> Hm. unfold FileHandlers._handle_k8s_yaml.
    cbn [py_in bind]. now rewrite Hm.
Qed.

Lemma yaml_mention_skips_general_replacement_witness :
  FileHandlers.YAMLFileHandler_process Examples.yaml_safe_load_flow Json.dumps
    (FileHandlers.mkHandler "old-app" "new-app") ["proj"; "ci.yml"]
    (Examples.text "{`name`: `old-app`, `run`: `docker-compose up`}")
  = Return (PStr (Json.dumps false
                    (PDict [("name", PStr "old-app"); ("run", PStr "docker-compose up")]))).
Proof.
  apply (proj1 (yaml_mention_skips_general_replacement Examples.yaml_safe_load_flow Json.dumps
                  (FileHandlers.mkHandler "old-app" "new-app") ["proj"; "ci.yml"]
                  (Examples.text "{`name`: `old-app`, `run`: `docker-compose up`}")
                  [("name", PStr "old-app"); ("run", PStr "docker-compose up")]
                  eq_refl));
    reflexivity.
Defined.

(** ** config.py: names never validate *)

Module ValidatorFacts.
Import ConfigValidator.

Lemma lstrip_empty (s : string) : truthy (lstrip s) = negb (sforall char_isspace s).
Proof.
  induction s as [|c s IH]; [reflexivity|]. cbn [lstrip sforall].
  destruct (char_isspace c); [exact IH | reflexivity].
Qed.




End ValidatorFacts.


(** ** project_renamer.py: which files are modified *)

Module SuffixFacts.
Import ProjectRenamer PatternShape.

Lemma rfind_dot_drop (s : string) (i : nat) :
  rfind_dot s = Some i -> exists r, drop i s = String "." r.
Proof.
  revert i; induction s as [|c s IH]; intros i H; [discriminate|].
  cbn [rfind_dot] in H. destruct (rfind_dot s) as [j|].
  - injection H as <-. cbn [drop]. now apply IH.
  - destruct (Ascii.eqb c ".") eqn:E; [|discriminate].
    injection H as <-. apply Ascii.eqb_eq in E as ->. now exists s.
Qed.

Lemma suffix_is_shaped (p : Path) : suffix_shaped (lower (suffix p)) = true.
Proof.
  unfold suffix, suffix_index.
  destruct (rfind_dot (name p)) as [i|] eqn:E; [|reflexivity].
  destruct (Nat.ltb 0 i && Nat.ltb i (length (name p) - 1)); [|reflexivity].
  destruct (rfind_dot_drop _ _ E) as [r ->]. reflexivity.
Qed.

Lemma existsb_shaped (x : string) (l : list string) :
  suffix_shaped x = true ->
  existsb (String.eqb x) (filter suffix_shaped l) = existsb (String.eqb x) l.
Proof.
  intros Hx. induction l as [|e l IH]; [reflexivity|]. cbn [filter existsb].
  destruct (suffix_shaped e) eqn:He; cbn [existsb]; rewrite IH; [reflexivity|].
  destruct (String.eqb x e) eqn:E; [|reflexivity].
  apply String.eqb_eq in E. congruence.
Qed.

End SuffixFacts.

(** X27: a file is selected for modification by the suffix of its name,
    which is empty or starts with a period: the file types that are whole
    file names, like [Dockerfile], [Makefile] or [package.json] in the default
    list, never select a file, and a name without suffix, like [Makefile] or
    [.gitignore], is selected only when the empty text is a file type. *)
Theorem file_types_match_suffixes_only
    (c : ProjectRenamer.RenameConfig) (ps : list Re.Pattern) (file_path : Path) :
  ProjectRenamer._should_modify_file (ProjectRenamer.mkRenamer c ps) file_path
  = ProjectRenamer._should_modify_file
      (ProjectRenamer.mkRenamer
         (PatternShape.with_file_types c
            (filter PatternShape.suffix_shaped (ProjectRenamer.file_types c))) ps)
      file_path
  /\ (suffix file_path = EmptyString ->
      existsb (String.eqb EmptyString) (ProjectRenamer.file_types c) = false ->
      ProjectRenamer._should_modify_file (ProjectRenamer.mkRenamer c ps) file_path = false).
Proof.
  unfold ProjectRenamer._should_modify_file.
  cbn [ProjectRenamer.config ProjectRenamer.file_types PatternShape.with_file_types].
  split.
  - symmetry. apply SuffixFacts.existsb_shaped, SuffixFacts.suffix_is_shaped.
  - now intros ->.
Qed.

Lemma file_types_match_suffixes_only_witness :
  ProjectRenamer._should_modify_file
    (Examples.renamer_of (Examples.default_config "old_app" "new_app" ["proj"]))
    ["proj"; "Dockerfile"] = false.
Proof.
  apply (proj2 (file_types_match_suffixes_only
                  (Examples.default_config "old_app" "new_app" ["proj"])
                  (ProjectRenamer.patterns
                     (Examples.renamer_of
                        (Examples.default_config "old_app" "new_app" ["proj"])))
                  ["proj"; "Dockerfile"]));
    reflexivity.
Defined.

(** X28: a file in which none of the compiled patterns is found is one that
    the scan does not select for modification, and one that
    [_modify_file_content] leaves as it is when the new name holds no
    backslash, so that it is a template [pattern.sub] accepts: both return
    without a change to the world, the first [False] and the second
    [True]. *)
Theorem file_without_match_is_left_alone
    (self : ProjectRenamer.ProjectRenamer) (file_path : Path) (f content : string)
    (s : World.State) :
  Re.plain_template (ProjectRenamer.new_name (ProjectRenamer.config self)) = true ->
  World.lookup (World.fs s) file_path = Some (World.File f content) ->
  existsb (fun pattern => Re.search pattern content) (ProjectRenamer.patterns self) = false ->
  ProjectRenamer._contains_target_text self file_path s = (Return false, s)
  /\ ProjectRenamer._modify_file_content self file_path s = (Return true, s).
Proof.
  intros Hplain Hfile Hnone. split.
  - unfold ProjectRenamer._contains_target_text, World.try_catch, World.mbind,
      World.read_file.
    rewrite Hfile. unfold World.ret. now rewrite Hnone.
  - unfold ProjectRenamer._modify_file_content, World.try_catch, World.mbind,
      World.read_file.
    rewrite Hfile. rewrite (RewriteFacts.rewrite_plain self content Hplain).
    rewrite RewriteFacts.rewrite_no_match.
    + now rewrite String.eqb_refl.
    + clear -Hnone. induction (ProjectRenamer.patterns self) as [|p ps IH]; [reflexivity|].
      cbn [existsb forallb] in *. apply orb_false_iff in Hnone as [Hp Hps].
      now rewrite Hp, IH.
Qed.

Lemma file_without_match_is_left_alone_witness :
  let self := Examples.renamer_of (Examples.nested_config false false) in
  let s := Examples.fresh_process
             [World.Dir "proj" [World.File "LICENSE.txt" "Permission is granted."]] in
  ProjectRenamer._contains_target_text self ["proj"; "LICENSE.txt"] s = (Return false, s)
  /\ ProjectRenamer._modify_file_content self ["proj"; "LICENSE.txt"] s = (Return true, s).
Proof.
  apply (file_without_match_is_left_alone
           (Examples.renamer_of (Examples.nested_config false false))
           ["proj"; "LICENSE.txt"] "LICENSE.txt" "Permission is granted."
           (Examples.fresh_process
              [World.Dir "proj" [World.File "LICENSE.txt" "Permission is granted."]]));
    reflexivity.
Defined.

(** With a new name that [re] refuses as a template the same file is not
    left alone: [pattern.sub] raises before it looks for a match, and
    [_modify_file_content] records the failure and returns [False]. *)
Lemma refused_template_is_recorded :
  let self := Examples.renamer_of (Examples.default_config "old_app" "my\project" ["proj"]) in
  let s := Examples.fresh_process
             [World.Dir "proj" [World.File "LICENSE.txt" "Permission is granted."]] in
  Re.plain_template "my\project" = false
  /\ ProjectRenamer.rewrite self "Permission is granted." = Raise ReError
  /\ fst (ProjectRenamer._modify_file_content self ["proj"; "LICENSE.txt"] s) = Return false
  /\ World.fs (snd (ProjectRenamer._modify_file_content self ["proj"; "LICENSE.txt"] s))
     = World.fs s
  /\ List.length
       (World.errors (snd (ProjectRenamer._modify_file_content self ["proj"; "LICENSE.txt"] s)))
     = 1.
Proof. repeat split. Qed.

(** ** project_renamer.py: the backup and the exclusion list *)

Module IgnoreFacts.
Import World ProjectRenamer PatternShape.

Lemma fnmatch_star (pattern n : string) :
  fnmatch (String "*" pattern) n
  = fnmatch pattern n
    || match n with
       | String _ n' => fnmatch (String "*" pattern) n'
       | EmptyString => false
       end.
Proof. now destruct n. Qed.

Lemma fnmatch_char (p : ascii) (pattern n : string) :
  Ascii.eqb p "*" = false ->
  fnmatch (String p pattern) n
  = match n with
    | String c n' => (Ascii.eqb p "?" || Ascii.eqb p c) && fnmatch pattern n'
    | EmptyString => false
    end.
Proof. intros H. cbn [fnmatch]. now rewrite H. Qed.

(** A pattern without wildcard matches its own text only. *)
Lemma fnmatch_literal (pattern : string) :
  literal_pattern pattern = true -> forall n, fnmatch pattern n = true -> n = pattern.
Proof.
  unfold literal_pattern. induction pattern as [|p pattern IH]; intros H n Hm.
  - now destruct n.
  - cbn [sexists] in H. apply negb_true_iff in H. apply orb_false_iff in H as [Hp Hr].
    unfold wild_char in Hp. apply orb_false_iff in Hp as [Hp _].
    apply orb_false_iff in Hp as [Hstar Hq].
    rewrite fnmatch_char in Hm by assumption.
    destruct n as [|c n]; [discriminate|]. rewrite Hq in Hm. cbn [orb] in Hm.
    apply andb_prop in Hm as [Hc Hm]. apply Ascii.eqb_eq in Hc as <-.
    f_equal. apply IH; [now apply negb_true_iff | assumption].
Qed.

Lemma endswith_self (q : string) : endswith q q = true.
Proof.
  unfold endswith. rewrite Nat.leb_refl, Nat.sub_diag. cbn [andb].
  rewrite drop_0. apply String.eqb_refl.
Qed.

Lemma endswith_cons (q : string) (c : ascii) (n : string) :
  endswith q n = true -> endswith q (String c n) = true.
Proof. apply (ExclusionFacts.endswith_after q (String c EmptyString) n). Qed.

(** [*] followed by text without wildcard matches the names that end with
    that text. *)
Lemma fnmatch_star_literal (q : string) :
  literal_pattern q = true -> forall n, fnmatch (String "*" q) n = true -> endswith q n = true.
Proof.
  intros Hq n. induction n as [|c n IH]; rewrite fnmatch_star; intros H.
  - rewrite orb_false_r in H. rewrite (fnmatch_literal q Hq _ H). apply endswith_self.
  - apply orb_prop in H as [H|H].
    + rewrite (fnmatch_literal q Hq _ H). apply endswith_self.
    + now apply endswith_cons, IH.
Qed.

End IgnoreFacts.

(** X29: with exclusion patterns of the two shapes of the default list, a
    text without wildcard or [*.] followed by one, a name that the backup
    leaves out (the [ignore_patterns] of [copytree], matched with [fnmatch])
    is a name that the scan skips: what a run can rename or modify is in its
    backup. *)
Theorem backup_leaves_out_only_excluded_names
    (self : ProjectRenamer.ProjectRenamer) (n : string) :
  forallb PatternShape.simple_pattern
    (ProjectRenamer.exclude_patterns (ProjectRenamer.config self)) = true ->
  existsb (fun pattern => World.fnmatch pattern n)
    (ProjectRenamer.exclude_patterns (ProjectRenamer.config self)) = true ->
  ProjectRenamer._is_excluded self n = true.
Proof.
  intros Hshape Hignored. unfold ProjectRenamer._is_excluded.
  apply existsb_exists in Hignored as (pattern & Hin & Hm).
  apply existsb_exists. exists pattern. split; [assumption|].
  rewrite forallb_forall in Hshape. specialize (Hshape pattern Hin).
  unfold PatternShape.simple_pattern in Hshape. apply orb_prop in Hshape as [Hl|Hs].
  - rewrite (IgnoreFacts.fnmatch_literal pattern Hl n Hm).
    rewrite String.eqb_refl. now rewrite orb_true_r.
  - apply andb_prop in Hs as [Hstar Hl]. rewrite Hstar. cbn [andb].
    destruct pattern as [|a pattern]; [discriminate|].
    cbn [startswith] in Hstar. apply andb_prop in Hstar as [Ha _].
    apply Ascii.eqb_eq in Ha as <-. cbn [drop] in *.
    now rewrite (IgnoreFacts.fnmatch_star_literal pattern Hl n Hm).
Qed.

Lemma backup_leaves_out_only_excluded_names_witness :
  ProjectRenamer._is_excluded
    (Examples.renamer_of (Examples.default_config "old_app" "new_app" ["proj"]))
    "main.pyc" = true.
Proof.
  apply (backup_leaves_out_only_excluded_names
           (Examples.renamer_of (Examples.default_config "old_app" "new_app" ["proj"]))
           "main.pyc");
    reflexivity.
Defined.

(** ** utils.py: a backup and its restoration *)

Module BackupFacts.
Import World Backups.

Lemma find_child_app_new (d : string) (e : node) (entries : list node) :
  find_child d entries = None -> node_name e = d ->
  find_child d (entries ++ [e]) = Some e.
Proof.
  intros Hnone He.
  induction entries as [|x entries IH]; rewrite ?app_nil_l, <- ?app_comm_cons;
    cbn [find_child].
  - now rewrite He, String.eqb_refl.
  - cbn [find_child] in Hnone. destruct (String.eqb (node_name x) d); [discriminate|].
    now apply IH.
Qed.

Lemma find_child_app_other (d : string) (e : node) (entries : list node) :
  node_name e <> d -> find_child d (entries ++ [e]) = find_child d entries.
Proof.
  intros He.
  induction entries as [|x entries IH]; rewrite ?app_nil_l, <- ?app_comm_cons;
    cbn [find_child].
  - apply String.eqb_neq in He. now rewrite He.
  - now rewrite IH.
Qed.

Lemma find_child_removed (d : string) (entries : list node) :
  find_child d (remove_entry d entries) = None.
Proof.
  unfold remove_entry. induction entries as [|x entries IH]; [reflexivity|].
  cbn [filter]. destruct (String.eqb (node_name x) d) eqn:E; cbn [negb]; [exact IH|].
  cbn [find_child]. now rewrite E.
Qed.

Lemma find_child_remove_other (d n : string) (entries : list node) :
  d <> n -> find_child d (remove_entry n entries) = find_child d entries.
Proof.
  intros Hne. unfold remove_entry. induction entries as [|x entries IH]; [reflexivity|].
  cbn [filter find_child]. destruct (String.eqb (node_name x) n) eqn:E; cbn [negb].
  - apply String.eqb_eq in E. rewrite IH.
    destruct (String.eqb (node_name x) d) eqn:E'; [|reflexivity].
    apply String.eqb_eq in E'. congruence.
  - cbn [find_child]. now rewrite IH.
Qed.

(** In an existing directory that has no entry of that name, [put_tree]
    appends the new directory. *)
Lemma put_tree_in_directory (d : string) (content : list node) (q : Path) :
  forall files entries,
    listdir files q = Some entries -> find_child d entries = None ->
    exists files',
      put_tree (q ++ [d])%list content files = Return files'
      /\ listdir files' q = Some (entries ++ [Dir d content])%list.
Proof.
  induction q as [|a q IH]; intros files entries Hl Hd.
  - cbn [listdir] in Hl. injection Hl as ->. rewrite app_nil_l. cbn [put_tree].
    rewrite Hd. eexists. split; reflexivity.
  - cbn [listdir] in Hl.
    destruct (find_child a files) as [[f c|x sub]|] eqn:Ha; try discriminate.
    destruct (IH _ _ Hl Hd) as (sub' & Hput & Hsub).
    rewrite <- app_comm_cons. cbn [put_tree].
    destruct (q ++ [d])%list as [|b rest] eqn:E; [now destruct q|].
    rewrite Ha, Hput. eexists. split; [reflexivity|].
    cbn [listdir]. rewrite TreeFacts.find_child_map.
    + rewrite Ha. cbn [option_map].
      apply TreeFacts.find_child_name in Ha. cbn [node_name] in Ha. subst x.
      now rewrite String.eqb_refl.
    + intros [f c|n es]; [reflexivity|]. now destruct (String.eqb n a).
Qed.

Lemma below_sibling (q : Path) (a b : string) :
  a <> b -> below (q ++ [a])%list (q ++ [b])%list = None.
Proof.
  intros Hne. induction q as [|x q IH]; rewrite ?app_nil_l, <- ?app_comm_cons; cbn [below].
  - apply String.eqb_neq in Hne. now rewrite Hne.
  - now rewrite String.eqb_refl.
Qed.

Lemma parent_joinpath (q : Path) (d : string) : parent (joinpath q d) = q.
Proof. unfold parent, joinpath. apply removelast_last. Qed.

(** The entry of the directory at [q] under the name [d]. *)
Lemma lookup_joinpath (files : list node) (q : Path) (d : string) :
  lookup files (joinpath q d)
  = match listdir files q with
    | Some entries => find_child d entries
    | None => None
    end.
Proof.
  unfold lookup. rewrite parent_joinpath, PythonFacts.last_joinpath.
  unfold joinpath. now destruct (q ++ [d])%list eqn:E; [destruct q|].
Qed.

Lemma listdir_joinpath (files : list node) (q : Path) (d : string) :
  listdir files (joinpath q d)
  = match lookup files (joinpath q d) with
    | Some (Dir _ sub) => Some sub
    | _ => None
    end.
Proof.
  rewrite lookup_joinpath. unfold joinpath. rewrite TreeFacts.listdir_snoc.
  now destruct (listdir files q).
Qed.

(** A copy without ignore patterns is the tree itself. *)
Lemma copy_node_all (e : node) : copy_node [] e = e.
Proof.
  induction e as [f c|d entries IH] using RunFacts.node_tree_ind; [reflexivity|].
  cbn [copy_node existsb]. f_equal.
  induction IH as [|x entries Hx _ IHentries]; [reflexivity|].
  now rewrite Hx, IHentries.
Qed.

Lemma copy_entries_all (entries : list node) : copy_entries [] entries = entries.
Proof.
  unfold copy_entries.
  pose proof (copy_node_all (Dir EmptyString entries)) as H.
  now rewrite H.
Qed.

(** The copy holds no entry of an ignored name. *)
Lemma copy_entries_ignores (patterns : list string) (n : string) (entries : list node) :
  existsb (fun p => fnmatch p n) patterns = true ->
  find_child n (copy_entries patterns entries) = None.
Proof.
  intros Hn. unfold copy_entries. cbn [copy_node].
  induction entries as [|x entries IH]; [reflexivity|].
  destruct (existsb (fun p => fnmatch p (node_name x)) patterns) eqn:Hx; [exact IH|].
  cbn [find_child].
  assert (node_name (copy_node patterns x) = node_name x) as -> by now destruct x.
  destruct (String.eqb (node_name x) n) eqn:E; [|exact IH].
  apply String.eqb_eq in E. rewrite E in Hx. congruence.
Qed.

Lemma name_grows (n tail : string) : tail <> EmptyString -> n <> n ++ tail.
Proof.
  intros Ht H. apply (f_equal length) in H. rewrite length_append in H.
  destruct tail; [congruence|]. cbn [length] in H. lia.
Qed.

(** The copy of the backup to the original path, once nothing is left at
    that path. *)
Lemma copy_back (q : Path) (pname bname b : string) (kept entries : list node) (s : State) :
  pname <> bname ->
  listdir (fs s) q = Some entries ->
  find_child pname entries = None ->
  find_child bname entries = Some (Dir b kept) ->
  exists s3,
    copytree (joinpath q bname) (joinpath q pname) [] s = (Return tt, s3)
    /\ listdir (fs s3) (joinpath q pname) = Some kept
    /\ listdir (fs s3) (joinpath q bname) = Some kept.
Proof.
  intros Hnames Hq Hp Hb.
  destruct (put_tree_in_directory pname (copy_entries [] kept) q _ _ Hq Hp)
    as (files3 & Hput & Hlist).
  exists (set_fs files3 s). split; [|split].
  - unfold copytree. rewrite lookup_joinpath, Hq, Hb.
    unfold copies_into_itself, joinpath.
    rewrite (below_sibling q bname pname) by congruence.
    now rewrite Hput.
  - cbn [set_fs fs]. rewrite listdir_joinpath, lookup_joinpath, Hlist.
    rewrite (find_child_app_new pname (Dir pname (copy_entries [] kept)) entries Hp eq_refl).
    now rewrite copy_entries_all.
  - cbn [set_fs fs]. rewrite listdir_joinpath, lookup_joinpath, Hlist.
    rewrite find_child_app_other by (cbn [node_name]; congruence).
    now rewrite Hb.
Qed.

End BackupFacts.

(** X30: the backup that [create_backup_directory] makes of a directory
    beside it is a copy without the entries named [.git], at any depth; and
    whatever has become of the original since, [restore_from_backup] from a
    backup directory to the original path returns [True] and leaves at the
    original path exactly the content of the backup, which the backup keeps.
    A project restored from its backup has lost its [.git] directory. *)
Theorem restore_gives_back_the_backup
    (source_path : Path) (x : string) (entries : list World.node) (s : World.State) :
  source_path <> [] ->
  World.lookup (World.fs s) source_path = Some (World.Dir x entries) ->
  World.lookup (World.fs s) (Backups.backup_beside source_path s) = None ->
  exists s1,
    Backups.create_backup_directory source_path None s
    = (Return (Backups.backup_beside source_path s), s1)
    /\ World.listdir (World.fs s1) (Backups.backup_beside source_path s)
       = Some (World.copy_entries [".git"] entries)
    /\ World.find_child ".git" (World.copy_entries [".git"] entries) = None
    /\ forall s2 kept,
         World.listdir (World.fs s2) (Backups.backup_beside source_path s) = Some kept ->
         exists s3,
           Backups.restore_from_backup (Backups.backup_beside source_path s) source_path s2
           = (Return true, s3)
           /\ World.listdir (World.fs s3) source_path = Some kept
           /\ World.listdir (World.fs s3) (Backups.backup_beside source_path s) = Some kept.
Proof.
  intros Hne Hsource Hfree.
  set (q := parent source_path).
  set (pname := name source_path).
  assert (source_path = joinpath q pname) as Hpath
    by (unfold q, pname, parent, name, joinpath; now apply app_removelast_last).
  set (bname := pname ++ "_backup_" ++ World.clock_stamp s).
  assert (Backups.backup_beside source_path s = joinpath q bname) as Hbackup by reflexivity.
  assert (pname <> bname) as Hnames by (apply BackupFacts.name_grows; discriminate).
  rewrite Hbackup in *. clear Hbackup.
  rewrite Hpath in Hsource |- *.
  rewrite BackupFacts.lookup_joinpath in Hsource, Hfree.
  destruct (World.listdir (World.fs s) q) as [es|] eqn:Hq; [|discriminate].
  destruct (BackupFacts.put_tree_in_directory bname (World.copy_entries [".git"] entries)
              q _ _ Hq Hfree) as (files1 & Hput1 & Hlist1).
  exists (World.set_fs files1 s). split; [|split; [|split]].
  - unfold Backups.create_backup_directory, World.mbind, World.get_state, Backups.is_file.
    rewrite BackupFacts.parent_joinpath, PythonFacts.last_joinpath.
    rewrite BackupFacts.lookup_joinpath, Hq, Hsource.
    unfold Backups.copytree. rewrite BackupFacts.lookup_joinpath, Hq, Hsource.
    unfold Backups.copies_into_itself. unfold joinpath at 1 2.
    change (pname ++ "_backup_" ++ World.clock_stamp s) with bname.
    rewrite (BackupFacts.below_sibling q pname bname Hnames).
    unfold joinpath. now rewrite Hput1.
  - cbn [World.set_fs World.fs]. rewrite BackupFacts.listdir_joinpath.
    rewrite BackupFacts.lookup_joinpath, Hlist1.
    now rewrite (BackupFacts.find_child_app_new bname (World.Dir bname _) es Hfree eq_refl).
  - now apply BackupFacts.copy_entries_ignores.
  - intros s2 kept Hkept.
    rewrite BackupFacts.listdir_joinpath, BackupFacts.lookup_joinpath in Hkept.
    destruct (World.listdir (World.fs s2) q) as [es2|] eqn:Hq2; [|discriminate].
    destruct (World.find_child bname es2) as [[f c|b kept']|] eqn:Hb; try discriminate.
    injection Hkept as ->.
    unfold Backups.restore_from_backup, World.try_catch, World.mbind,
      Backups.is_file, Backups.exists_.
    rewrite BackupFacts.lookup_joinpath, Hq2, Hb.
    assert (World.lookup (World.fs s2) (joinpath q pname) = World.find_child pname es2)
      as Hlook by now rewrite BackupFacts.lookup_joinpath, Hq2.
    rewrite Hlook.
    destruct (World.find_child pname es2) as [[f c|d sub]|] eqn:Hp; cbv beta iota;
      rewrite ?Hlook.
    + unfold Backups.unlink. rewrite Hlook.
      rewrite BackupFacts.parent_joinpath, PythonFacts.last_joinpath.
      destruct (BackupFacts.copy_back q pname bname b kept
                  (World.remove_entry pname es2)
                  (World.set_fs
                     (World.update_dir (World.remove_entry pname) q (World.fs s2)) s2)
                  Hnames)
        as (s3 & E & H1 & H2).
      * cbn [World.set_fs World.fs]. now apply TreeFacts.listdir_updated.
      * apply BackupFacts.find_child_removed.
      * rewrite BackupFacts.find_child_remove_other by congruence. exact Hb.
      * rewrite E. exists s3. now repeat split.
    + unfold Backups.rmtree. rewrite Hlook.
      rewrite BackupFacts.parent_joinpath, PythonFacts.last_joinpath.
      destruct (BackupFacts.copy_back q pname bname b kept
                  (World.remove_entry pname es2)
                  (World.set_fs
                     (World.update_dir (World.remove_entry pname) q (World.fs s2)) s2)
                  Hnames)
        as (s3 & E & H1 & H2).
      * cbn [World.set_fs World.fs]. now apply TreeFacts.listdir_updated.
      * apply BackupFacts.find_child_removed.
      * rewrite BackupFacts.find_child_remove_other by congruence. exact Hb.
      * unfold joinpath at 1. destruct (q ++ [pname])%list eqn:Eq; [now destruct q|].
        rewrite E. exists s3. now repeat split.
    + unfold World.ret at 1.
      destruct (BackupFacts.copy_back q pname bname b kept es2 s2 Hnames Hq2 Hp Hb)
        as (s3 & E & H1 & H2).
      rewrite E. exists s3. now repeat split.
Qed.

Lemma restore_gives_back_the_backup_witness :
  let s := Examples.fresh_process
             [World.Dir "proj"
                [World.Dir ".git" [World.File "HEAD" "ref: refs/heads/main"];
                 World.File "README.md" "The old_app tool."]] in
  exists s1,
    Backups.create_backup_directory ["proj"] None s
    = (Return (Backups.backup_beside ["proj"] s), s1)
    /\ World.listdir (World.fs s1) (Backups.backup_beside ["proj"] s)
       = Some (World.copy_entries [".git"]
                 [World.Dir ".git" [World.File "HEAD" "ref: refs/heads/main"];
                  World.File "README.md" "The old_app tool."])
    /\ World.find_child ".git"
         (World.copy_entries [".git"]
            [World.Dir ".git" [World.File "HEAD" "ref: refs/heads/main"];
             World.File "README.md" "The old_app tool."]) = None
    /\ forall s2 kept,
         World.listdir (World.fs s2) (Backups.backup_beside ["proj"] s) = Some kept ->
         exists s3,
           Backups.restore_from_backup (Backups.backup_beside ["proj"] s) ["proj"] s2
           = (Return true, s3)
           /\ World.listdir (World.fs s3) ["proj"] = Some kept
           /\ World.listdir (World.fs s3) (Backups.backup_beside ["proj"] s) = Some kept.
Proof.
  apply (restore_gives_back_the_backup ["proj"] "proj"
           [World.Dir ".git" [World.File "HEAD" "ref: refs/heads/main"];
            World.File "README.md" "The old_app tool."]
           (Examples.fresh_process
              [World.Dir "proj"
                 [World.Dir ".git" [World.File "HEAD" "ref: refs/heads/main"];
                  World.File "README.md" "The old_app tool."]])).
  - discriminate.
  - reflexivity.
  - reflexivity.
Defined.
